(** * Checkpoint resume, device placement and checkpoint cadence of the
      delira network trainers

    A shallow embedding of [delira/training/pytorch_trainer.py]
    ([PyTorchNetworkTrainer]) and
    [delira/training/backends/chainer/trainer.py]
    ([ChainerNetworkTrainer]): the constructor's loss-argument
    resolution, the resume scan of the save directory, the application of
    a loaded checkpoint bundle, the device placement, and the writing of
    periodic and best checkpoints.

    Python values are modelled as the code uses them: [str] as [string]
    (ASCII), [int] as [Z], [dict] as [gmap] (or an association list where
    the iteration order is observable), exceptions and mutation of [self],
    of the file system and of the log through a small state-and-exception
    monad. *)

From Stdlib Require Import ZArith Decimal DecimalString DecimalZ Ascii String List Bool Lia.
From stdpp Require Import base option list strings gmap.

Open Scope string_scope.
Open Scope Z_scope.

#[local] Arguments String.append !s1 s2 : simpl nomatch.

(** ** Python strings *)

Module PyStr.

(** [s.startswith(p)] *)
Definition startswith (s p : string) : bool := String.prefix p s.

(** [s.endswith(p)] *)
Fixpoint endswith (s p : string) : bool :=
  if String.eqb s p then true
  else match s with
       | EmptyString => false
       | String _ s' => endswith s' p
       end.

(** The split of [s] at the last occurrence of the character [sep]:
    [None] when [sep] does not occur. *)
Fixpoint rsplit_once (sep : ascii) (s : string) : option (string * string) :=
  match s with
  | EmptyString => None
  | String a s' =>
      match rsplit_once sep s' with
      | Some (h, t) => Some (String a h, t)
      | None => if Ascii.eqb a sep then Some (EmptyString, s') else None
      end
  end.

(** [s.rsplit(sep, 1)] for a one-character separator. *)
Definition rsplit1 (s : string) (sep : ascii) : list string :=
  match rsplit_once sep s with
  | Some (h, t) => [h; t]
  | None => [s]
  end.

(** [s[:-1]] *)
Fixpoint drop_last (s : string) : string :=
  match s with
  | EmptyString => EmptyString
  | String a s' =>
      match s' with
      | EmptyString => EmptyString
      | String _ _ => String a (drop_last s')
      end
  end.

(** ["%d" % n] *)
Definition format_d (n : Z) : string := NilZero.string_of_int (Z.to_int n).

(** The characters [str.strip()] removes, within ASCII. *)
Definition isspace (a : ascii) : bool :=
  let n := nat_of_ascii a in
  ((9 <=? n) && (n <=? 13) || (28 <=? n) && (n <=? 32))%nat.

Fixpoint lstrip (s : string) : string :=
  match s with
  | EmptyString => EmptyString
  | String a s' => if isspace a then lstrip s' else s
  end.

Fixpoint rstrip (s : string) : string :=
  match s with
  | EmptyString => EmptyString
  | String a s' =>
      match rstrip s' with
      | EmptyString => if isspace a then EmptyString else String a EmptyString
      | r => String a r
      end
  end.

Definition strip (s : string) : string := rstrip (lstrip s).

(** A non-empty run of decimal digits, read as a number. *)
Definition digits (s : string) : option Z :=
  match s with
  | EmptyString => None
  | String _ _ => Z.of_uint <$> NilEmpty.uint_of_string s
  end.

(** [int(s)] on an ASCII string: surrounding whitespace, an optional sign,
    decimal digits; [None] stands for [ValueError].  Digit grouping with
    underscores is left out: the trainers only parse a segment that
    follows the last underscore of a file name. *)
Definition int (s : string) : option Z :=
  match strip s with
  | String "-" r => Z.opp <$> digits r
  | String "+" r => digits r
  | r => digits r
  end.

End PyStr.

(** ** [os.path] *)

Module OsPath.

(** [os.path.join(a, b)] (posix). *)
Definition join (a b : string) : string :=
  if PyStr.startswith b "/" then b
  else if String.eqb a "" || PyStr.endswith a "/" then a +:+ b
  else a +:+ "/" +:+ b.

End OsPath.

(** ** Values, networks and the trainer object *)

(** The native state of a network or of an optimizer is opaque to the
    trainers; a number stands for it. *)
Definition NativeState := Z.

(** A device, by its specifier: ["cpu"], ["cuda:0"], ["@numpy"], ... *)
Definition Device := string.

(** The values found in checkpoint bundles, in keyword arguments and in
    the mappings callbacks return. *)
Inductive Value :=
| VNone
| VBool (b : bool)
| VInt (n : Z)
| VStr (s : string)
| VState (st : NativeState)
| VDict (d : gmap string NativeState).

Abbreviation Dict := (gmap string Value).

(** [bool(v)]; a native state counts as non-empty. *)
Definition truthy (v : Value) : bool :=
  match v with
  | VNone => false
  | VBool b => b
  | VInt n => negb (Z.eqb n 0)
  | VStr s => negb (String.eqb s "")
  | VState _ => true
  | VDict d => negb (bool_decide (d = ∅))
  end.

(** The module a trainer holds: the network on a device, possibly inside
    a data-parallel wrapper. *)
Inductive Network :=
| Net (params : NativeState) (device : Device)
| TorchDataParallel (inner : Network) (device_ids : list Z) (output_device : Z)
| ChainerDataParallel (inner : Network) (devices : list Device).

(** [module.to(device)] / [module.to_device(device)] *)
Fixpoint to (m : Network) (d : Device) : Network :=
  match m with
  | Net p _ => Net p d
  | TorchDataParallel m' ids out => TorchDataParallel (to m' d) ids out
  | ChainerDataParallel m' ds => ChainerDataParallel (to m' d) ds
  end.

(** [module.load_state_dict(state)] on the parameters. *)
Fixpoint set_params (m : Network) (st : NativeState) : Network :=
  match m with
  | Net _ d => Net st d
  | TorchDataParallel m' ids out => TorchDataParallel (set_params m' st) ids out
  | ChainerDataParallel m' ds => ChainerDataParallel (set_params m' st) ds
  end.

Definition is_data_parallel (m : Network) : bool :=
  match m with
  | Net _ _ => false
  | _ => true
  end.

(** The attributes of a trainer the two classes read or assign.
    [optimizers] is a [dict] iterated in insertion order; [start_epoch]
    receives whatever a bundle holds under ["epoch"]; [attrs] keeps
    attributes set by name. *)
Record Trainer := mkTrainer {
  module : Network;
  optimizers : list (string * NativeState);
  save_path : string;
  save_freq : Z;
  start_epoch : Value;
  use_gpu : bool;
  input_device : Device;
  output_device : Device;
  attrs : Dict
}.

Definition set_module (m : Network) (t : Trainer) : Trainer :=
  mkTrainer m (optimizers t) (save_path t) (save_freq t) (start_epoch t)
            (use_gpu t) (input_device t) (output_device t) (attrs t).
Definition set_optimizers (o : list (string * NativeState)) (t : Trainer) : Trainer :=
  mkTrainer (module t) o (save_path t) (save_freq t) (start_epoch t)
            (use_gpu t) (input_device t) (output_device t) (attrs t).
Definition set_start_epoch (v : Value) (t : Trainer) : Trainer :=
  mkTrainer (module t) (optimizers t) (save_path t) (save_freq t) v
            (use_gpu t) (input_device t) (output_device t) (attrs t).
Definition set_use_gpu (b : bool) (t : Trainer) : Trainer :=
  mkTrainer (module t) (optimizers t) (save_path t) (save_freq t) (start_epoch t)
            b (input_device t) (output_device t) (attrs t).
Definition set_input_device (d : Device) (t : Trainer) : Trainer :=
  mkTrainer (module t) (optimizers t) (save_path t) (save_freq t) (start_epoch t)
            (use_gpu t) d (output_device t) (attrs t).
Definition set_output_device (d : Device) (t : Trainer) : Trainer :=
  mkTrainer (module t) (optimizers t) (save_path t) (save_freq t) (start_epoch t)
            (use_gpu t) (input_device t) d (attrs t).
Definition set_attrs (a : Dict) (t : Trainer) : Trainer :=
  mkTrainer (module t) (optimizers t) (save_path t) (save_freq t) (start_epoch t)
            (use_gpu t) (input_device t) (output_device t) a.

(** ** The file system, the log, and the monad of trainer methods *)

(** A regular file holds a pickled mapping; a directory lists names. *)
Inductive Node :=
| File (content : Dict)
| Dir (entries : list string).

Abbreviation FS := (gmap string Node).

Definition isdir (fs : FS) (p : string) : bool :=
  match fs !! p with Some (Dir _) => true | _ => false end.

Definition isfile (fs : FS) (p : string) : bool :=
  match fs !! p with Some (File _) => true | _ => false end.

Inductive Exn :=
| KeyError | ValueError | TypeError | IndexError | ZeroDivisionError
| RuntimeError | FileNotFoundError | NotADirectoryError | UnboundLocalError.

#[global] Instance Exn_eq_dec : EqDecision Exn.
Proof. solve_decision. Defined.

Inductive Outcome (A : Type) :=
| Ok (a : A)
| Raise (e : Exn).
Arguments Ok {A} a.
Arguments Raise {A} e.

Inductive Level := INFO | WARNING | ERROR.

(** The messages the trainers log. *)
Inductive Message :=
| AttemptingToLoadState (path : string)
| PreviousStateNotLoaded
| ApexNotFound
| ExceptionLogged (e : Exn).

Record World := mkWorld {
  trainer : Trainer;
  disk : FS;
  log : list (Level * Message)
}.

Definition Py (A : Type) : Type := World -> World * Outcome A.

Definition ret {A} (a : A) : Py A := fun w => (w, Ok a).

Definition bind {A B} (m : Py A) (k : A -> Py B) : Py B :=
  fun w =>
    match m w with
    | (w', Ok a) => k a w'
    | (w', Raise e) => (w', Raise e)
    end.

Definition raise {A} (e : Exn) : Py A := fun w => (w, Raise e).

(** [try: body  except exn: handler]: the effects of [body] up to the
    exception stay. *)
Definition try_except (body : Py unit) (exn : Exn) (handler : Py unit) : Py unit :=
  fun w =>
    match body w with
    | (w', Raise e) => if bool_decide (e = exn) then handler w' else (w', Raise e)
    | r => r
    end.

Notation "'let*' x := m 'in' k" := (bind m (fun x => k))
  (at level 10, x name, m at level 100, k at level 200).

Definition get_self : Py Trainer := fun w => (w, Ok (trainer w)).
Definition get_disk : Py FS := fun w => (w, Ok (disk w)).
Definition modify_self (f : Trainer -> Trainer) : Py unit :=
  fun w => (mkWorld (f (trainer w)) (disk w) (log w), Ok tt).
Definition logger (l : Level) (m : Message) : Py unit :=
  fun w => (mkWorld (trainer w) (disk w) (log w ++ [(l, m)]), Ok tt).
Definition on_disk {A} (f : FS -> FS * Outcome A) : Py A :=
  fun w => let (fs', r) := f (disk w) in (mkWorld (trainer w) fs' (log w), r).
Definition lift_option {A} (o : option A) (e : Exn) : Py A :=
  match o with Some a => ret a | None => raise e end.

(** [for x in l: body x] *)
Fixpoint for_each {A} (l : list A) (body : A -> Py unit) : Py unit :=
  match l with
  | [] => ret tt
  | x :: l' => let* _ := body x in for_each l' body
  end.

(** [[f x for x in l]] *)
Fixpoint comprehension {A B} (l : list A) (f : A -> Py B) : Py (list B) :=
  match l with
  | [] => ret []
  | x :: l' => let* y := f x in let* ys := comprehension l' f in ret (y :: ys)
  end.

(** [os.listdir(p)] *)
Definition listdir (p : string) : Py (list string) :=
  let* fs := get_disk in
  match fs !! p with
  | Some (Dir names) => ret names
  | Some (File _) => raise NotADirectoryError
  | None => raise FileNotFoundError
  end.

(** [l[0]] and [l[-1]] *)
Definition item_first {A} (l : list A) : Py A := lift_option (head l) IndexError.
Definition item_last {A} (l : list A) : Py A := lift_option (last l) IndexError.

(** [max(l)] on integers *)
Definition max (l : list Z) : Py Z :=
  match l with
  | [] => raise ValueError
  | x :: l' => ret (fold_left Z.max l' x)
  end.

(** [a % b] *)
Definition py_mod (a b : Z) : Py Z :=
  if Z.eqb b 0 then raise ZeroDivisionError else ret (a mod b).

(** [range(a, b)] *)
Definition range (a b : Z) : list Z :=
  map (fun i => a + Z.of_nat i) (seq 0 (Z.to_nat (b - a))).

(** [int(x.rsplit("_", 1)[-1].rsplit(".", 1)[0])], the element of the
    comprehension in the [_setup] of both trainers. *)
Definition epoch_of_file_name (x : string) : Py Z :=
  let* seg := item_last (PyStr.rsplit1 x "_") in
  let* stem := item_first (PyStr.rsplit1 seg ".") in
  lift_option (PyStr.int stem) ValueError.

(** [obj is not None], for an argument whose default is [None]. *)
Definition is_not_None {A} (o : option A) : bool :=
  match o with Some _ => true | None => false end.

(** ** [PyTorchNetworkTrainer] *)

Module PyTorchNetworkTrainer.

Import PyStr.

Inductive Warning :=
| DeprecationWarning_criterions
    (* "The 'criterions' argument is deprecated ... Use 'losses' instead" *)
| RuntimeWarning_both_specified.
    (* "'criterions' and 'losses' have been specified. Using the values in
       'losses' since 'criterions' is deprecated and will be removed" *)

(** [__init__], lines 99-115: the losses handed on to the base
    constructor as [crits], with the warnings issued on the way. *)
Definition init_crits {L : Type} (losses criterions : option L)
  : list Warning * Outcome (option L) :=
  if xorb (is_not_None criterions) (is_not_None losses) then
    if is_not_None losses then ([], Ok losses)
    else if is_not_None criterions then
      ([DeprecationWarning_criterions], Ok criterions)
    else ([], Raise UnboundLocalError)
  else ([RuntimeWarning_both_specified], Ok losses).

(** What [torch.cuda] reports. *)
Record Cuda := mkCuda {
  is_available : bool;
  device_count : Z
}.

Section Methods.

(** [delira.io.torch.save_checkpoint(file, model, optimizers, **kwargs)]
    and [delira.io.torch.load_checkpoint(file, **kwargs)], and the
    [_update_state] of the base trainer: not part of the sources, taken
    as parameters. *)
Variable save_checkpoint :
  string -> Network -> list (string * NativeState) -> Dict -> FS -> FS * Outcome unit.
Variable load_checkpoint : string -> Dict -> FS -> Outcome Dict.
Variable super_update_state : Dict -> Trainer -> Trainer.

(** A callback's [at_epoch_begin] / [at_epoch_end]: from the trainer, the
    validation metrics, the score key and the epoch to a mapping of
    updates. *)
Variable Metrics : Type.
Definition Callback : Type := Trainer -> Metrics -> string -> Z -> Dict.

Definition save_state (file_name : string) (epoch : Z) (kwargs : Dict) : Py unit :=
  let file_name :=
    if negb (endswith file_name ".pth" || endswith file_name ".pt")
    then file_name +:+ ".pt" else file_name in
  let* self := get_self in
  on_disk (save_checkpoint file_name (module self) (optimizers self) kwargs).

Definition load_state (file_name : string) (kwargs : Dict) : Py Dict :=
  let file_name :=
    if negb (endswith file_name ".pth" || endswith file_name ".pt")
    then file_name +:+ ".pt" else file_name in
  let* fs := get_disk in
  fun w => (w, load_checkpoint file_name kwargs fs).

(** [self.module.load_state_dict(v)] *)
Definition module_load_state_dict (v : Value) : Py unit :=
  match v with
  | VState st => modify_self (fun self => set_module (set_params (module self) st) self)
  | _ => raise TypeError
  end.

(** [optim_state[key]]: the entry of a mapping of optimizer states; a
    native state is a mapping too, keyed by its own entries and by no
    optimizer name; any other value cannot be subscripted by a name. *)
Definition subscript (optim_state : Value) (key : string) : Py NativeState :=
  match optim_state with
  | VDict d => lift_option (d !! key) KeyError
  | VState _ => raise KeyError
  | _ => raise TypeError
  end.

(** [self.optimizers[key].load_state_dict(st)] *)
Definition optimizer_load_state_dict (key : string) (st : NativeState) : Py unit :=
  modify_self (fun self =>
    set_optimizers
      (map (fun kv => if String.eqb (fst kv) key then (fst kv, st) else kv)
           (optimizers self))
      self).

Definition _update_state (new_state : Dict) : Py unit :=
  let* new_state :=
    match new_state !! "model" with
    | Some v =>
        let* _ := module_load_state_dict v in
        ret (delete "model" new_state)
    | None => ret new_state
    end in
  let* new_state :=
    match new_state !! "optimizer" with
    | Some optim_state =>
        if truthy optim_state then
          let* self := get_self in
          let* _ := for_each (map fst (optimizers self)) (fun key =>
                      let* st := subscript optim_state key in
                      optimizer_load_state_dict key st) in
          ret (delete "optimizer" new_state)
        else ret new_state
    | None => ret new_state
    end in
  let* new_state :=
    match new_state !! "epoch" with
    | Some v =>
        let* _ := modify_self (set_start_epoch v) in
        ret (delete "epoch" new_state)
    | None => ret new_state
    end in
  modify_self (super_update_state new_state).

Definition update_state (file_name : string) (kwargs : Dict) : Py unit :=
  let* new_state := load_state file_name kwargs in
  _update_state new_state.

(** [_setup], lines 186-208: the path of the latest checkpoint in the
    save directory, with the epoch it was found under; [None] when there
    is nothing to resume from. *)
Definition _setup_latest_state : Py (option (Z * string)) :=
  let* self := get_self in
  let* fs := get_disk in
  if isdir fs (save_path self) then
    let* names := listdir (save_path self) in
    let files :=
      List.filter
        (fun x => isfile fs (OsPath.join (save_path self) x)
                  && startswith x "checkpoint"
                  && negb (endswith x "_best.pth" || endswith x "_best.pt"))
        names in
    match files with
    | _ :: _ =>
        let* epochs :=
          comprehension files epoch_of_file_name in
        let* latest_epoch := max epochs in
        let latest_state_path :=
          OsPath.join (save_path self)
                      ("checkpoint_epoch_" +:+ format_d latest_epoch +:+ ".pth") in
        let latest_state_path :=
          if negb (isfile fs latest_state_path)
          then drop_last latest_state_path else latest_state_path in
        ret (Some (latest_epoch, latest_state_path))
    | [] => ret None
    end
  else ret None.

(** [_setup], lines 186-217: resume from the latest checkpoint. *)
Definition _setup_resume : Py unit :=
  let* latest := _setup_latest_state in
  match latest with
  | Some (_, latest_state_path) =>
      let* _ := logger INFO (AttemptingToLoadState latest_state_path) in
      try_except (update_state latest_state_path ∅)
                 KeyError
                 (logger WARNING PreviousStateNotLoaded)
  | None => ret tt
  end.

(** [torch.device("cuda:%d" % id)] and [torch.device("cpu")] *)
Definition cuda_device (id : Z) : Device := "cuda:" +:+ format_d id.
Definition cpu_device : Device := "cpu".

(** [_setup], lines 219-244: device placement. *)
Definition _setup_devices (cuda : Cuda) (gpu_ids : list Z) : Py unit :=
  if negb (bool_decide (gpu_ids = [])) && is_available cuda then
    let* _ := modify_self (set_use_gpu true) in
    if (1 <? Z.of_nat (length gpu_ids))%Z && (1 <? device_count cuda)%Z then
      let* id0 := lift_option (gpu_ids !! 0%nat) IndexError in
      let* _ := modify_self (set_input_device (cuda_device id0)) in
      let* id1 := lift_option (gpu_ids !! 1%nat) IndexError in
      let* _ := modify_self (fun self =>
                  set_module
                    (TorchDataParallel (to (module self) (input_device self))
                                       gpu_ids id1)
                    self) in
      let* id1 := lift_option (gpu_ids !! 1%nat) IndexError in
      modify_self (set_output_device (cuda_device id1))
    else
      let* id0 := lift_option (gpu_ids !! 0%nat) IndexError in
      let* _ := modify_self (set_input_device (cuda_device id0)) in
      let* _ := modify_self (fun self =>
                  set_module (to (module self) (input_device self)) self) in
      let* id0 := lift_option (gpu_ids !! 0%nat) IndexError in
      modify_self (set_output_device (cuda_device id0))
  else
    let* _ := modify_self (set_use_gpu false) in
    let* _ := modify_self (set_input_device cpu_device) in
    let* _ := modify_self (set_output_device cpu_device) in
    modify_self (fun self => set_module (to (module self) (input_device self)) self).

(** [_setup], lines 160-183: the optimizers, the base class's setup and
    the mixed-precision wrapper, through the functions they are built
    from.  [losses] is [self.losses] as the base class left it, [None]
    included; [len(self.losses)] is evaluated once for each optimizer, so
    with [None] the comprehension raises [TypeError] as soon as there is
    an optimizer to wrap. *)
Definition _setup_optimizers {L : Type}
    (network : Network)
    (optim_fn : Network -> list (string * NativeState))
    (super_setup : Network -> Trainer -> Trainer)
    (apex : option (NativeState -> nat -> NativeState))
    (DefaultOptimWrapperTorch : NativeState -> nat -> NativeState)
    (mixed_precision : bool) (losses : option (list L)) : Py unit :=
  let* _ := modify_self (set_optimizers (optim_fn network)) in
  let* _ := modify_self (super_setup network) in
  let* wrap_fn :=
    match apex with
    | Some wrap_optimizer => ret wrap_optimizer
    | None =>
        let* _ := if mixed_precision then logger WARNING ApexNotFound else ret tt in
        ret DefaultOptimWrapperTorch
    end in
  let* self := get_self in
  let* wrapped :=
    comprehension (optimizers self) (fun kv =>
      let* num_loss := lift_option (length <$> losses) TypeError in
      ret (fst kv, wrap_fn (snd kv) num_loss)) in
  modify_self (set_optimizers wrapped).

(** [_setup]: the three parts in turn (the closing assignment of
    [_prepare_batch] binds the two devices resolved here and changes
    nothing else). *)
Definition _setup {L : Type} network optim_fn super_setup apex DefaultOptimWrapperTorch
    (cuda : Cuda) (gpu_ids : list Z) (mixed_precision : bool)
    (losses : option (list L)) : Py unit :=
  let* _ := _setup_optimizers network optim_fn super_setup apex
                              DefaultOptimWrapperTorch mixed_precision losses in
  let* _ := _setup_resume in
  _setup_devices cuda gpu_ids.

Definition _at_training_begin : Py unit :=
  let* self := get_self in
  save_state (OsPath.join (save_path self) "checkpoint_epoch_0") 0 ∅.

Definition _at_training_end : Py Network :=
  let* self := get_self in
  let* fs := get_disk in
  let* _ :=
    if isfile fs (OsPath.join (save_path self) "checkpoint_best.pt") then
      update_state (OsPath.join (save_path self) "checkpoint_best.pt") ∅
    else ret tt in
  let* self := get_self in
  ret (module self).

Definition _at_epoch_begin (callbacks : list Callback) (metrics_val : Metrics)
    (val_score_key : string) (epoch num_epochs : Z) : Py unit :=
  for_each callbacks (fun cb =>
    let* self := get_self in
    _update_state (cb self metrics_val val_score_key epoch)).

Definition _at_epoch_end (callbacks : list Callback) (metrics_val : Metrics)
    (val_score_key : string) (epoch : Z) (is_best : bool) : Py unit :=
  let* _ := for_each callbacks (fun cb =>
              let* self := get_self in
              _update_state (cb self metrics_val val_score_key epoch)) in
  let* self := get_self in
  let* r := py_mod epoch (save_freq self) in
  let* _ :=
    if Z.eqb r 0 then
      let* self := get_self in
      save_state (OsPath.join (save_path self)
                              ("checkpoint_epoch_" +:+ format_d epoch +:+ ".pt"))
                 epoch ∅
    else ret tt in
  if is_best then
    let* self := get_self in
    save_state (OsPath.join (save_path self) "checkpoint_best.pt") epoch ∅
  else ret tt.

End Methods.

End PyTorchNetworkTrainer.

(** ** [ChainerNetworkTrainer]

    The parts of the class in which it differs from the PyTorch trainer:
    the resume scan, the file names of [save_state] / [load_state] and the
    device placement. *)

Module ChainerNetworkTrainer.

Import PyStr.

(** [chainer.cuda.check_cuda_available()]: a value used as a condition,
    or the [RuntimeError] it raises when CUDA is not set up. *)
Inductive CudaCheck :=
| CheckReturns (value : bool)
| CheckRaises.

(** What [chainer] reports. *)
Record Chainer := mkChainer {
  chainerx_is_available : bool;
  check_cuda_available : CudaCheck
}.

(** [chainer.get_device(specifier)] *)
Definition get_device (specifier : string) : Device := specifier.

Section Methods.

(** [delira.io.chainer.save_checkpoint] and
    [delira.io.chainer.load_checkpoint]: not part of the sources, taken
    as parameters. *)
Variable save_checkpoint :
  string -> Network -> list (string * NativeState) -> Dict -> FS -> FS * Outcome unit.
Variable load_checkpoint : string -> Dict -> FS -> Outcome Dict.

Definition save_state (file_name : string) (epoch : Z) (kwargs : Dict) : Py unit :=
  let file_name :=
    if negb (endswith file_name ".chain")
    then file_name +:+ ".chain" else file_name in
  let* self := get_self in
  on_disk (save_checkpoint file_name (module self) (optimizers self) kwargs).

Definition load_state (file_name : string) (kwargs : Dict) : Py Dict :=
  let file_name :=
    if negb (endswith file_name ".chain")
    then file_name +:+ ".chain" else file_name in
  let* fs := get_disk in
  fun w => (w, load_checkpoint file_name kwargs fs).

(** [_setup], lines 177-199: the path of the latest checkpoint in the
    save directory, with the epoch it was found under. *)
Definition _setup_latest_state : Py (option (Z * string)) :=
  let* self := get_self in
  let* fs := get_disk in
  if isdir fs (save_path self) then
    let* names := listdir (save_path self) in
    let files :=
      List.filter
        (fun x => isfile fs (OsPath.join (save_path self) x)
                  && startswith x "checkpoint"
                  && negb (endswith x "_best.chain"))
        names in
    match files with
    | _ :: _ =>
        let* epochs :=
          comprehension files epoch_of_file_name in
        let* latest_epoch := max epochs in
        let latest_state_path :=
          OsPath.join (save_path self)
                      ("checkpoint_epoch_" +:+ format_d latest_epoch +:+ ".chain") in
        let latest_state_path :=
          if negb (isfile fs latest_state_path)
          then drop_last latest_state_path else latest_state_path in
        ret (Some (latest_epoch, latest_state_path))
    | [] => ret None
    end
  else ret None.

(** The body of the [try] of lines 218-265. *)
Definition _setup_devices_try (chainer : Chainer) (gpu_ids : list Z)
    (parallel_optimizers : list (string * NativeState))
    (gpu_device_prefix cpu_device_prefix : string) : Py unit :=
  let* available :=
    match check_cuda_available chainer with
    | CheckReturns v => ret v
    | CheckRaises => raise RuntimeError
    end in
  if available then
    let* _ := modify_self (set_use_gpu true) in
    if (1 <? Z.of_nat (length gpu_ids))%Z then
      let* id0 := lift_option (gpu_ids !! 0%nat) IndexError in
      let* _ := modify_self
                  (set_input_device (get_device (gpu_device_prefix +:+ format_d id0))) in
      let* _ := modify_self (fun self =>
                  set_module
                    (ChainerDataParallel
                       (to (module self) "@numpy")
                       (map (fun _id => get_device (gpu_device_prefix +:+ format_d _id))
                            gpu_ids))
                    self) in
      let* _ := modify_self (set_optimizers parallel_optimizers) in
      let* id0 := lift_option (gpu_ids !! 0%nat) IndexError in
      modify_self (set_output_device (get_device (gpu_device_prefix +:+ format_d id0)))
    else
      let* _ := modify_self (set_input_device (get_device cpu_device_prefix)) in
      let* _ := modify_self (fun self =>
                  set_module (to (module self) (input_device self)) self) in
      modify_self (set_output_device (get_device cpu_device_prefix))
  else
    let* _ := modify_self (set_use_gpu false) in
    let* _ := modify_self (set_input_device (get_device cpu_device_prefix)) in
    let* _ := modify_self (set_output_device (get_device cpu_device_prefix)) in
    modify_self (fun self => set_module (to (module self) (input_device self)) self).

(** [_setup], lines 210-280: device placement.  [parallel_optimizers] is
    what [optim_fn(DataParallelChainerOptimizer, ...)] returns. *)
Definition _setup_devices (chainer : Chainer) (gpu_ids : list Z)
    (parallel_optimizers : list (string * NativeState)) : Py unit :=
  let gpu_device_prefix :=
    if chainerx_is_available chainer then "cuda:" else "@cupy:" in
  let cpu_device_prefix :=
    if chainerx_is_available chainer then "native" else "@numpy" in
  if negb (bool_decide (gpu_ids = [])) then
    try_except
      (_setup_devices_try chainer gpu_ids parallel_optimizers
                          gpu_device_prefix cpu_device_prefix)
      RuntimeError
      (let* _ := logger ERROR (ExceptionLogged RuntimeError) in
       let* _ := modify_self (set_use_gpu false) in
       let* _ := modify_self (set_input_device (get_device cpu_device_prefix)) in
       let* _ := modify_self (set_output_device (get_device cpu_device_prefix)) in
       modify_self (fun self => set_module (to (module self) (input_device self)) self))
  else
    let* _ := modify_self (set_use_gpu false) in
    let* _ := modify_self (set_input_device (get_device cpu_device_prefix)) in
    let* _ := modify_self (set_output_device (get_device cpu_device_prefix)) in
    modify_self (fun self => set_module (to (module self) (input_device self)) self).

End Methods.

End ChainerNetworkTrainer.

(** ** The collaborators that are not part of the sources *)

(** The parameters of the network inside a module. *)
Fixpoint params_of (m : Network) : NativeState :=
  match m with
  | Net p _ => p
  | TorchDataParallel m' _ _ => params_of m'
  | ChainerDataParallel m' _ => params_of m'
  end.

(** Modelled from the spec: the backend's [save_checkpoint]
    ([delira.io.torch], not among the sources), after the Backend Adapter
    operation [save_state(path, model, optimizers, extra)] and the schema
    of the checkpoint artifact: the model's native state under ["model"]
    and the mapping from optimizer names to native states under
    ["optimizer"], together with the extra entries, written as one file. *)
Definition save_checkpoint_spec (file : string) (model : Network)
    (optims : list (string * NativeState)) (extra : Dict) (fs : FS)
  : FS * Outcome unit :=
  (<[file := File (<["model" := VState (params_of model)]>
                   (<["optimizer" := VDict (list_to_map optims)]> extra))]> fs,
   Ok tt).

(** The three fields of a checkpoint bundle. *)
Definition expected_keys : list string := ["model"; "optimizer"; "epoch"].

(** Modelled from the spec: the backend's [load_checkpoint]
    ([delira.io.torch], not among the sources), after [load(path) -> bundle],
    which "returns the three-field bundle", and after the resume protocol
    and the error taxonomy, for which loading a checkpoint that misses
    expected keys raises a missing-key error: the bundle stored at the
    path when it has the three fields, [KeyError] when one of them is
    missing. *)
Definition load_checkpoint_spec (file : string) (kwargs : Dict) (fs : FS)
  : Outcome Dict :=
  match fs !! file with
  | Some (File bundle) =>
      if forallb (fun key => bool_decide (is_Some (bundle !! key))) expected_keys
      then Ok bundle else Raise KeyError
  | _ => Raise FileNotFoundError
  end.

(** Modelled from the spec: the [_update_state] of the base trainer (not
    among the sources), after "any other keys in the bundle are passed
    through to a generic merge step": every remaining key becomes an
    attribute set by name. *)
Definition super_update_state_spec (new_state : Dict) (self : Trainer) : Trainer :=
  set_attrs (new_state ∪ attrs self) self.

(** Modelled from the spec: the epoch loop of the base trainer (its
    [train] method is not among the sources), after section 4.1: the
    initial checkpoint, then for each epoch in
    [[start_epoch, start_epoch + num_epochs)] the end-of-epoch step.  The
    training and validation passes appear through their outcome
    [is_best epoch]. *)
Definition train_spec {Metrics : Type}
    (_at_training_begin : Py unit)
    (_at_epoch_end : Metrics -> string -> Z -> bool -> Py unit)
    (metrics_val : Z -> Metrics) (val_score_key : string)
    (num_epochs : Z) (is_best : Z -> bool) : Py unit :=
  let* _ := _at_training_begin in
  let* self := get_self in
  match start_epoch self with
  | VInt start =>
      for_each (range start (start + num_epochs)) (fun epoch =>
        _at_epoch_end (metrics_val epoch) val_score_key epoch (is_best epoch))
  | _ => raise TypeError
  end.

(** ** File names, as the specification speaks of them *)

(** The character [c] occurs in [s]. *)
Fixpoint occurs (c : ascii) (s : string) : bool :=
  match s with
  | EmptyString => false
  | String a s' => Ascii.eqb a c || occurs c s'
  end.

(** Every character of [s] satisfies [p]. *)
Fixpoint all_chars (p : ascii -> bool) (s : string) : bool :=
  match s with
  | EmptyString => true
  | String a s' => p a && all_chars p s'
  end.

Definition is_digit (a : ascii) : bool :=
  let n := nat_of_ascii a in ((48 <=? n) && (n <=? 57))%nat.

(** What ["%d"] prints: digits and the sign. *)
Definition is_digit_or_minus (a : ascii) : bool := is_digit a || Ascii.eqb a "-".

(** The last character of a string. *)
Fixpoint last_char (s : string) : option ascii :=
  match s with
  | EmptyString => None
  | String a s' => match s' with EmptyString => Some a | _ => last_char s' end
  end.

(** The name of the periodic checkpoint of epoch [n] with extension
    [ext]: [checkpoint_epoch_<n><ext>]. *)
Definition checkpoint_file (ext : string) (n : Z) : string :=
  "checkpoint_epoch_" +:+ PyStr.format_d n +:+ ext.

(** What [os.path.join(save_path, x)] puts before a relative [x]. *)
Definition join_prefix (save_path : string) : string :=
  if String.eqb save_path "" || PyStr.endswith save_path "/" then save_path
  else save_path +:+ "/".

(** The scan of both trainers' [_setup], over what differs between them:
    the test for a best-checkpoint name and the extension. *)
Definition latest_state_scan (is_best : string -> bool) (ext : string)
  : Py (option (Z * string)) :=
  let* self := get_self in
  let* fs := get_disk in
  if isdir fs (save_path self) then
    let* names := listdir (save_path self) in
    let files :=
      List.filter
        (fun x => isfile fs (OsPath.join (save_path self) x)
                  && PyStr.startswith x "checkpoint"
                  && negb (is_best x))
        names in
    match files with
    | _ :: _ =>
        let* epochs := comprehension files epoch_of_file_name in
        let* latest_epoch := max epochs in
        let latest_state_path :=
          OsPath.join (save_path self)
                      ("checkpoint_epoch_" +:+ PyStr.format_d latest_epoch +:+ ext) in
        let latest_state_path :=
          if negb (isfile fs latest_state_path)
          then PyStr.drop_last latest_state_path else latest_state_path in
        ret (Some (latest_epoch, latest_state_path))
    | [] => ret None
    end
  else ret None.

Definition torch_is_best (x : string) : bool :=
  PyStr.endswith x "_best.pth" || PyStr.endswith x "_best.pt".

Definition chainer_is_best (x : string) : bool :=
  PyStr.endswith x "_best.chain".

(** [m] is the greatest of [epochs]. *)
Definition is_max (m : Z) (epochs : list Z) : Prop :=
  m ∈ epochs /\ forall n, n ∈ epochs -> n <= m.

(** The world after [logger.info("Attempting to load state ... %s" % path)]. *)
Definition after_info (path : string) (w : World) : World :=
  mkWorld (trainer w) (disk w) (log w ++ [(INFO, AttemptingToLoadState path)]).

(** The world after the warning that the previous state could not be
    loaded. *)
Definition after_warning (w : World) : World :=
  mkWorld (trainer w) (disk w) (log w ++ [(WARNING, PreviousStateNotLoaded)]).

(** ** What the specification says, as predicates on runs *)

(** The trainer [t] after a device placement assigned [use_gpu], the two
    devices and the module, and nothing else. *)
Definition placed (use : bool) (input output : Device) (m : Network) (t : Trainer)
  : Trainer :=
  mkTrainer m (optimizers t) (save_path t) (save_freq t) (start_epoch t)
            use input output (attrs t).

(** A run of the device placement from [w] fell back to the CPU device
    [cpu]: no exception, [use_gpu] off, both devices [cpu], the module
    moved there as it is, the disk untouched. *)
Definition on_cpu (cpu : Device) (w : World) (res : World * Outcome unit) : Prop :=
  snd res = Ok tt /\
  trainer (fst res) = placed false cpu cpu (to (module (trainer w)) cpu) (trainer w) /\
  is_data_parallel (module (trainer (fst res))) = is_data_parallel (module (trainer w)) /\
  disk (fst res) = disk w.

(** A run placed the module, as it is, on the one device [dev]. *)
Definition on_single_device (dev : Device) (w : World) (res : World * Outcome unit)
  : Prop :=
  snd res = Ok tt /\
  input_device (trainer (fst res)) = dev /\
  output_device (trainer (fst res)) = dev /\
  module (trainer (fst res)) = to (module (trainer w)) dev.

(** The CPU device of the Chainer trainer. *)
Definition chainer_cpu (chainer : ChainerNetworkTrainer.Chainer) : Device :=
  ChainerNetworkTrainer.get_device
    (if ChainerNetworkTrainer.chainerx_is_available chainer then "native" else "@numpy").

(** The device of the Chainer trainer for an accelerator id. *)
Definition chainer_gpu (chainer : ChainerNetworkTrainer.Chainer) (id : Z) : Device :=
  ChainerNetworkTrainer.get_device
    ((if ChainerNetworkTrainer.chainerx_is_available chainer then "cuda:" else "@cupy:")
     +:+ PyStr.format_d id).

(** The multi-accelerator claim on the PyTorch trainer, as it is worded:
    with two or more ids and CUDA available, the input device is the
    first id, the module is wrapped in [DataParallel] over all ids, and
    the output device is the second id (or the first). *)
Definition torch_multi_device_claim (cuda : PyTorchNetworkTrainer.Cuda)
    (gpu_ids : list Z) (w : World) : Prop :=
  PyTorchNetworkTrainer.is_available cuda = true ->
  (2 <= length gpu_ids)%nat ->
  let res := PyTorchNetworkTrainer._setup_devices cuda gpu_ids w in
  exists id0 id1,
    gpu_ids !! 0%nat = Some id0 /\ gpu_ids !! 1%nat = Some id1 /\
    snd res = Ok tt /\
    input_device (trainer (fst res)) = PyTorchNetworkTrainer.cuda_device id0 /\
    (exists inner out,
       module (trainer (fst res)) = TorchDataParallel inner gpu_ids out) /\
    (output_device (trainer (fst res)) = PyTorchNetworkTrainer.cuda_device id1 \/
     output_device (trainer (fst res)) = PyTorchNetworkTrainer.cuda_device id0).

(** The round trip on the epoch field, as it is worded: after
    [save_state(path, E)], [load_state(path)] yields a bundle whose
    ["epoch"] is [E]. *)
Definition epoch_round_trip
    (save_checkpoint : string -> Network -> list (string * NativeState) -> Dict
                       -> FS -> FS * Outcome unit)
    (load_checkpoint : string -> Dict -> FS -> Outcome Dict)
    (path : string) (E : Z) (w : World) : Prop :=
  exists bundle,
    snd (PyTorchNetworkTrainer.load_state load_checkpoint path ∅
           (fst (PyTorchNetworkTrainer.save_state save_checkpoint path E ∅ w)))
    = Ok bundle /\
    bundle !! "epoch" = Some (VInt E).

(** A trainer and a world to evaluate on. *)
Definition trainer0 : Trainer :=
  mkTrainer (Net 0 "cpu") [("default", 0)] "/save" 3 (VInt 1) false "cpu" "cpu" ∅.

Definition world0 : World := mkWorld trainer0 ∅ [].

(** The file name [f] as a save or load uses it when the extensions
    [exts] are accepted and [default] is appended otherwise. *)
Definition canonical (exts : list string) (default : string) (f : string) : string :=
  if existsb (PyStr.endswith f) exts then f else f +:+ default.

Definition torch_canonical : string -> string := canonical [".pth"; ".pt"] ".pt".
Definition chainer_canonical : string -> string := canonical [".chain"] ".chain".

(** [save_checkpoint] writes the file it is given, and nothing else. *)
Definition writes_file
    (save_checkpoint : string -> Network -> list (string * NativeState) -> Dict
                       -> FS -> FS * Outcome unit) : Prop :=
  forall file m o kwargs fs,
    exists bundle, save_checkpoint file m o kwargs fs = (<[file := File bundle]> fs, Ok tt).

(** The paths of the periodic checkpoint of an epoch and of the best
    checkpoint under a save path. *)
Definition periodic_path (save_path : string) (epoch : Z) : string :=
  OsPath.join save_path (checkpoint_file ".pt" epoch).

Definition best_path (save_path : string) : string :=
  OsPath.join save_path "checkpoint_best.pt".

(** The end-of-epoch step of [epoch] writes the path [p]. *)
Definition written (save_path : string) (save_freq : Z) (is_best : Z -> bool)
    (epoch : Z) (p : string) : bool :=
  bool_decide (epoch mod save_freq = 0) && bool_decide (p = periodic_path save_path epoch)
  || is_best epoch && bool_decide (p = best_path save_path).

(** The loop of [_at_epoch_end] over the callbacks. *)
Definition run_callbacks {Metrics : Type}
    (super_update_state : Dict -> Trainer -> Trainer)
    (callbacks : list (PyTorchNetworkTrainer.Callback Metrics))
    (metrics_val : Metrics) (val_score_key : string) (epoch : Z) : Py unit :=
  for_each callbacks (fun cb =>
    let* self := get_self in
    PyTorchNetworkTrainer._update_state super_update_state
                                        (cb self metrics_val val_score_key epoch)).

(** The training loop of the PyTorch trainer without callbacks. *)
Definition torch_train {Metrics : Type}
    (save_checkpoint : string -> Network -> list (string * NativeState) -> Dict
                       -> FS -> FS * Outcome unit)
    (super_update_state : Dict -> Trainer -> Trainer)
    (metrics_val : Z -> Metrics) (val_score_key : string)
    (num_epochs : Z) (is_best : Z -> bool) : Py unit :=
  train_spec (PyTorchNetworkTrainer._at_training_begin save_checkpoint)
             (PyTorchNetworkTrainer._at_epoch_end
                save_checkpoint super_update_state Metrics [])
             metrics_val val_score_key num_epochs is_best.

(** The body of the loop of [_update_state] over the optimizers, for the
    optimizer mapping [d] of a bundle. *)
Definition optimizer_step (d : gmap string NativeState) (key : string) : Py unit :=
  let* st := PyTorchNetworkTrainer.subscript (VDict d) key in
  PyTorchNetworkTrainer.optimizer_load_state_dict key st.

(** The non-empty optimizer mapping [d] of a bundle lacks the name of
    one of the trainer's optimizers. *)
Definition lacks_optimizer (d : gmap string NativeState) (t : Trainer) : Prop :=
  exists key, key ∈ map fst (optimizers t) /\ d !! key = None.

(** The loader answers a stored bundle that misses one of the three
    fields with the missing-key error, as the resume protocol and the
    error taxonomy of the specification have it. *)
Definition raises_missing_key
    (load_checkpoint : string -> Dict -> FS -> Outcome Dict) : Prop :=
  forall file kwargs fs bundle key,
    fs !! file = Some (File bundle) ->
    key ∈ expected_keys ->
    bundle !! key = None ->
    load_checkpoint file kwargs fs = Raise KeyError.

(** A save directory whose latest checkpoint, of epoch 5, has no
    ["model"] key. *)
Definition bundle_no_model : Dict :=
  <["optimizer" := VDict {["default" := 9]}]> (<["epoch" := VInt 5]> ∅).

Definition world_no_model : World :=
  mkWorld trainer0
          (<["/save" := Dir ["checkpoint_epoch_5.pt"]]>
           (<["/save/checkpoint_epoch_5.pt" := File bundle_no_model]> ∅))
          [].

(** A save directory whose latest checkpoint has a state for an optimizer
    ["other"] and none for the trainer's ["default"]. *)
Definition bundle_other_optimizer : Dict :=
  <["model" := VState 4]> (<["optimizer" := VDict {["other" := 9]}]>
  (<["epoch" := VInt 5]> ∅)).

Definition world_other_optimizer : World :=
  mkWorld trainer0
          (<["/save" := Dir ["checkpoint_epoch_5.pt"]]>
           (<["/save/checkpoint_epoch_5.pt" := File bundle_other_optimizer]> ∅))
          [].

(** A save directory with the periodic checkpoints of epochs 1, 3 and 7
    and a best checkpoint, for either trainer. *)
Definition bundle0 : Dict :=
  <["model" := VState 1]> (<["optimizer" := VDict {["default" := 2]}]>
  (<["epoch" := VInt 0]> ∅)).

Definition disk_137 (ext : string) : FS :=
  <["/save" := Dir [checkpoint_file ext 3; "checkpoint_best" +:+ ext;
                    checkpoint_file ext 7; checkpoint_file ext 1; "notes.txt"]]>
  (<["/save/" +:+ checkpoint_file ext 1 := File bundle0]>
  (<["/save/" +:+ checkpoint_file ext 3 := File bundle0]>
  (<["/save/" +:+ checkpoint_file ext 7 := File bundle0]>
  (<["/save/checkpoint_best" +:+ ext := File bundle0]>
  (<["/save/notes.txt" := File ∅]> ∅))))).

Definition world_137 (ext : string) : World := mkWorld trainer0 (disk_137 ext) [].

(** The same directory with one more regular file whose name starts with
    [checkpoint] and is no checkpoint of an epoch. *)
Definition world_stray (ext : string) : World :=
  mkWorld trainer0
          (<["/save" := Dir [checkpoint_file ext 3; checkpoint_file ext 7;
                             checkpoint_file ext 1; "checkpoint_notes.txt"]]>
           (<["/save/checkpoint_notes.txt" := File ∅]> (disk_137 ext)))
          [].

(** ** Further vocabulary *)

(** The device the parameters of a module sit on. *)
Fixpoint device_of (m : Network) : Device :=
  match m with
  | Net _ d => d
  | TorchDataParallel m' _ _ => device_of m'
  | ChainerDataParallel m' _ => device_of m'
  end.

(** The test of the scan of [_setup] on an entry of the save directory. *)
Definition scan_keeps (is_best : string -> bool) (w : World) (x : string) : bool :=
  isfile (disk w) (OsPath.join (save_path (trainer w)) x)
  && PyStr.startswith x "checkpoint"
  && negb (is_best x).

(** The entries the scan keeps: none when the save path is no directory. *)
Definition scanned_files (is_best : string -> bool) (w : World) : list string :=
  match disk w !! save_path (trainer w) with
  | Some (Dir names) => List.filter (scan_keeps is_best w) names
  | _ => []
  end.

(** The path the scan builds for the epoch [n]: the checkpoint of [n]
    with the extension [ext] when that is a regular file, the same path
    short of its last character otherwise. *)
Definition scan_path (ext : string) (w : World) (n : Z) : string :=
  let p := OsPath.join (save_path (trainer w)) (checkpoint_file ext n) in
  if isfile (disk w) p then p else PyStr.drop_last p.




(** The bundle of a checkpoint written at epoch [n], with the three
    fields. *)
Definition bundle_of_epoch (n : Z) : Dict :=
  <["model" := VState n]>
  (<["optimizer" := VDict {["default" := n]}]> (<["epoch" := VInt n]> ∅)).

(** A save directory with the periodic checkpoints of epochs 1, 3 and 7,
    each with its own bundle, and a best checkpoint. *)
Definition disk_epochs_137 (ext : string) : FS :=
  <["/save" := Dir [checkpoint_file ext 3; "checkpoint_best" +:+ ext;
                    checkpoint_file ext 7; checkpoint_file ext 1]]>
  (<["/save/" +:+ checkpoint_file ext 1 := File (bundle_of_epoch 1)]>
  (<["/save/" +:+ checkpoint_file ext 3 := File (bundle_of_epoch 3)]>
  (<["/save/" +:+ checkpoint_file ext 7 := File (bundle_of_epoch 7)]>
  (<["/save/checkpoint_best" +:+ ext := File (bundle_of_epoch 3)]> ∅)))).

Definition world_epochs_137 (ext : string) : World :=
  mkWorld trainer0 (disk_epochs_137 ext) [].


(** A save directory of the Chainer trainer whose latest epoch has no
    [.chain] file: the checkpoint of epoch 7 carries the extension that
    the fallback of the scan arrives at. *)
Definition world_chai : World :=
  mkWorld trainer0
          (<["/save" := Dir ["checkpoint_epoch_7.chai"]]>
           (<["/save/checkpoint_epoch_7.chai" := File (bundle_of_epoch 7)]> ∅))
          [].

(** [save_checkpoint] writes, at the file it is given, the bundle
    [stored] makes of the module, the optimizers and the extra entries,
    and touches nothing else. *)
Definition writes_bundle
    (save_checkpoint : string -> Network -> list (string * NativeState) -> Dict
                       -> FS -> FS * Outcome unit)
    (stored : Network -> list (string * NativeState) -> Dict -> Dict) : Prop :=
  forall file m o kwargs fs,
    save_checkpoint file m o kwargs fs = (<[file := File (stored m o kwargs)]> fs, Ok tt).

(** The bundle [save_checkpoint_spec] stores. *)
Definition stored_spec (m : Network) (o : list (string * NativeState)) (kwargs : Dict)
  : Dict :=
  <["model" := VState (params_of m)]> (<["optimizer" := VDict (list_to_map o)]> kwargs).

(** The disk after the two saves of an end-of-epoch step that writes the
    checkpoint [b]: the periodic one when [save_freq] divides the epoch,
    then the best one when the epoch is the best. *)
Definition epoch_end_disk (b : Node) (save_path : string) (save_freq : Z)
    (is_best : bool) (epoch : Z) (fs : FS) : FS :=
  let fs1 :=
    if bool_decide (epoch mod save_freq = 0)
    then <[periodic_path save_path epoch := b]> fs else fs in
  if is_best then <[best_path save_path := b]> fs1 else fs1.

(** The optimizers [o] after each took its state from the mapping [d]. *)
Definition loaded_optimizers (d : gmap string NativeState)
    (o : list (string * NativeState)) : list (string * NativeState) :=
  map (fun kv => (fst kv, default (snd kv) (d !! fst kv))) o.

(** A save directory with a best checkpoint and nothing to resume from. *)
Definition world_only_best : World :=
  mkWorld trainer0
          (<["/save" := Dir ["checkpoint_best.pt"; "notes.txt"]]>
           (<["/save/checkpoint_best.pt" := File bundle0]>
           (<["/save/notes.txt" := File ∅]> ∅)))
          [].

(** A trainer with two optimizers, and a save directory whose latest
    checkpoint has a state for each of them. *)
Definition trainer2 : Trainer :=
  mkTrainer (Net 0 "cpu") [("generator", 0); ("discriminator", 0)]
            "/save" 3 (VInt 1) false "cpu" "cpu" ∅.

Definition bundle_complete : Dict :=
  <["model" := VState 4]>
  (<["optimizer" := VDict (<["generator" := 7]> {["discriminator" := 8]})]>
  (<["epoch" := VInt 5]> (<["lr" := VInt 1]> ∅))).

Definition world_complete : World :=
  mkWorld trainer2
          (<["/save" := Dir ["checkpoint_epoch_5.pt"]]>
           (<["/save/checkpoint_epoch_5.pt" := File bundle_complete]> ∅))
          [].

(** A bundle whose optimizer mapping is empty. *)
Definition bundle_empty_optimizer : Dict :=
  <["optimizer" := VDict ∅]> (<["epoch" := VInt 5]> ∅).

(** After training: the module has moved on to the parameters 9, and the
    save directory holds a best checkpoint with the parameters 4. *)
Definition world_best (bundle : Dict) : World :=
  mkWorld (mkTrainer (Net 9 "cuda:0") [("default", 0)] "/save" 3 (VInt 1)
                     true "cuda:0" "cuda:0" ∅)
          (<["/save" := Dir ["checkpoint_best.pt"]]>
           (<["/save/checkpoint_best.pt" := File bundle]> ∅))
          [].

(** A trainer that was given a save frequency of zero. *)
Definition world_no_freq : World :=
  mkWorld (mkTrainer (Net 0 "cpu") [("default", 0)] "/save" 0 (VInt 1)
                     false "cpu" "cpu" ∅)
          ∅ [].

(** A checkpoint with a state for the first optimizer only. *)
Definition bundle_half : Dict :=
  <["model" := VState 4]>
  (<["optimizer" := VDict {["generator" := 7]}]> (<["epoch" := VInt 5]> ∅)).

Definition world_half : World :=
  mkWorld trainer2
          (<["/save" := Dir ["checkpoint_epoch_5.pt"]]>
           (<["/save/checkpoint_epoch_5.pt" := File bundle_half]> ∅))
          [].

(** Unfolding of the monad's operations in a run. *)
Ltac run_py :=
  cbv [bind ret raise modify_self get_self get_disk logger lift_option
       try_except on_disk];
  cbn [fst snd trainer disk log].

(** * Theorems *)

(** ** The embedding at work *)

Example int_reads :
  PyStr.int " 42 " = Some 42 /\ PyStr.int "-7" = Some (-7) /\
  PyStr.int "007" = Some 7 /\ PyStr.int "best" = None /\ PyStr.int "" = None.
Proof. repeat split. Qed.

Example rsplit1_splits :
  PyStr.rsplit1 "checkpoint_epoch_12.pth" "_" = ["checkpoint_epoch"; "12.pth"] /\
  PyStr.rsplit1 "12.pth" "." = ["12"; "pth"] /\
  PyStr.rsplit1 "checkpoint" "_" = ["checkpoint"].
Proof. repeat split. Qed.

Example drop_last_drops :
  PyStr.drop_last "/save/checkpoint_epoch_12.pth" = "/save/checkpoint_epoch_12.pt" /\
  PyStr.drop_last "" = "".
Proof. repeat split. Qed.

Example join_joins :
  OsPath.join "/save" "a.pt" = "/save/a.pt" /\
  OsPath.join "/save/" "a.pt" = "/save/a.pt" /\
  OsPath.join "" "a.pt" = "a.pt" /\
  OsPath.join "/save" "/a.pt" = "/a.pt".
Proof. repeat split. Qed.

(** The scan reads every regular file whose name starts with
    [checkpoint] and is no best checkpoint: one that is not named after
    an epoch makes [_setup] raise [ValueError], in both trainers. *)
Example stray_file_raises :
  snd (PyTorchNetworkTrainer._setup_latest_state (world_stray ".pt"))
    = Raise ValueError /\
  snd (ChainerNetworkTrainer._setup_latest_state (world_stray ".chain"))
    = Raise ValueError.
Proof. split; vm_compute; reflexivity. Qed.

(** ** Constructor arguments *)

(** C9: when both 'criterions' and 'losses' are supplied, the value of
    'losses' is used and a (runtime) warning is issued; when only 'losses'
    is supplied it is used; when only 'criterions' is supplied it is used,
    with the deprecation warning.  In no case does the resolution raise. *)
Theorem C9_losses_take_precedence {L : Type} (l c : L) :
  PyTorchNetworkTrainer.init_crits (Some l) (Some c)
    = ([PyTorchNetworkTrainer.RuntimeWarning_both_specified], Ok (Some l)) /\
  PyTorchNetworkTrainer.init_crits (Some l) None = ([], Ok (Some l)) /\
  PyTorchNetworkTrainer.init_crits None (Some c)
    = ([PyTorchNetworkTrainer.DeprecationWarning_criterions], Ok (Some c)) /\
  (forall losses criterions : option L,
     exists ws crits,
       PyTorchNetworkTrainer.init_crits losses criterions = (ws, Ok crits)).
Proof.
  repeat split.
  intros losses criterions.
  destruct losses as [l'|], criterions as [c'|]; cbn; eauto.
Qed.

(** C10: when neither 'losses' nor 'criterions' is supplied, the
    constructor still issues the runtime warning that both have been
    specified, and goes on with losses [None]. *)
Theorem C10_neither_supplied_warns {L : Type} :
  PyTorchNetworkTrainer.init_crits (L := L) None None
    = ([PyTorchNetworkTrainer.RuntimeWarning_both_specified], Ok None) /\
  (forall losses criterions : option L,
     In PyTorchNetworkTrainer.RuntimeWarning_both_specified
        (fst (PyTorchNetworkTrainer.init_crits losses criterions))
     <-> is_not_None losses = is_not_None criterions).
Proof.
  split; [reflexivity|].
  intros losses criterions.
  destruct losses as [l|], criterions as [c|]; cbn;
    intuition (try discriminate; auto).
Qed.

(** ** Device placement *)

Lemma to_keeps_wrapping m d : is_data_parallel (to m d) = is_data_parallel m.
Proof. by destruct m. Qed.

Lemma torch_setup_devices_cpu cuda gpu_ids w :
  gpu_ids = [] \/ PyTorchNetworkTrainer.is_available cuda = false ->
  on_cpu PyTorchNetworkTrainer.cpu_device w
         (PyTorchNetworkTrainer._setup_devices cuda gpu_ids w).
Proof.
  intros H. unfold PyTorchNetworkTrainer._setup_devices.
  assert (negb (bool_decide (gpu_ids = []))
          && PyTorchNetworkTrainer.is_available cuda = false) as ->.
  { destruct H as [-> | ->]; [reflexivity | apply andb_false_r]. }
  run_py. repeat split. apply to_keeps_wrapping.
Qed.

Lemma chainer_setup_devices_cpu chainer gpu_ids parallel_optimizers w :
  gpu_ids = [] \/
  ChainerNetworkTrainer.check_cuda_available chainer
    <> ChainerNetworkTrainer.CheckReturns true ->
  on_cpu (chainer_cpu chainer) w
         (ChainerNetworkTrainer._setup_devices chainer gpu_ids parallel_optimizers w).
Proof.
  intros H. unfold ChainerNetworkTrainer._setup_devices.
  destruct (bool_decide (gpu_ids = [])) eqn:E; cbn [negb].
  - run_py. repeat split. apply to_keeps_wrapping.
  - destruct H as [-> | H]; [discriminate|].
    unfold ChainerNetworkTrainer._setup_devices_try.
    destruct (ChainerNetworkTrainer.check_cuda_available chainer) as [[|]|];
      [congruence| |]; run_py; repeat split; apply to_keeps_wrapping.
Qed.

(** C4: when no accelerator id is requested, or the probe reports no
    accelerator - for Chainer also by raising - the placement turns
    [use_gpu] off, resolves the input and the output device to the CPU
    device, moves the module there without wrapping it, and raises
    nothing.  This holds for both trainers. *)
Theorem C4_device_fallback (cuda : PyTorchNetworkTrainer.Cuda)
    (chainer : ChainerNetworkTrainer.Chainer) (gpu_ids : list Z)
    (parallel_optimizers : list (string * NativeState)) (w : World) :
  gpu_ids = [] \/ PyTorchNetworkTrainer.is_available cuda = false ->
  gpu_ids = [] \/
  ChainerNetworkTrainer.check_cuda_available chainer
    = ChainerNetworkTrainer.CheckReturns false \/
  ChainerNetworkTrainer.check_cuda_available chainer
    = ChainerNetworkTrainer.CheckRaises ->
  on_cpu PyTorchNetworkTrainer.cpu_device w
         (PyTorchNetworkTrainer._setup_devices cuda gpu_ids w) /\
  on_cpu (chainer_cpu chainer) w
         (ChainerNetworkTrainer._setup_devices chainer gpu_ids parallel_optimizers w).
Proof.
  intros Ht Hc. split.
  - by apply torch_setup_devices_cpu.
  - apply chainer_setup_devices_cpu.
    destruct Hc as [?|[Hc|Hc]]; [by left| |]; right; rewrite Hc; discriminate.
Qed.

Lemma C4_device_fallback_witness :
  on_cpu "cpu" world0
    (PyTorchNetworkTrainer._setup_devices
       (PyTorchNetworkTrainer.mkCuda false 0) [0; 1] world0) /\
  on_cpu "@numpy" world0
    (ChainerNetworkTrainer._setup_devices
       (ChainerNetworkTrainer.mkChainer false ChainerNetworkTrainer.CheckRaises)
       [0; 1] [] world0).
Proof.
  apply (C4_device_fallback
           (PyTorchNetworkTrainer.mkCuda false 0)
           (ChainerNetworkTrainer.mkChainer false ChainerNetworkTrainer.CheckRaises)
           [0; 1] [] world0).
  - right. reflexivity.
  - right. right. reflexivity.
Defined.

Lemma torch_setup_devices_single cuda id w :
  PyTorchNetworkTrainer.is_available cuda = true ->
  on_single_device (PyTorchNetworkTrainer.cuda_device id) w
                   (PyTorchNetworkTrainer._setup_devices cuda [id] w) /\
  use_gpu (trainer (fst (PyTorchNetworkTrainer._setup_devices cuda [id] w))) = true.
Proof.
  intros H. unfold PyTorchNetworkTrainer._setup_devices. rewrite H.
  cbn [negb bool_decide decide_rel andb length Z.of_nat Z.ltb Z.compare
       Pos.of_succ_nat].
  run_py. repeat split.
Qed.

(** C5: with exactly one accelerator id and a probe that succeeds, the
    Chainer trainer turns [use_gpu] on and yet resolves the input and the
    output device to the CPU device and moves the module there; neither
    device is the device of the requested id. *)
Theorem C5_chainer_single_id_on_cpu (chainerx : bool) (id : Z)
    (parallel_optimizers : list (string * NativeState)) (w : World) :
  let chainer :=
    ChainerNetworkTrainer.mkChainer chainerx (ChainerNetworkTrainer.CheckReturns true) in
  let res :=
    ChainerNetworkTrainer._setup_devices chainer [id] parallel_optimizers w in
  on_single_device (chainer_cpu chainer) w res /\
  use_gpu (trainer (fst res)) = true /\
  input_device (trainer (fst res)) <> chainer_gpu chainer id /\
  output_device (trainer (fst res)) <> chainer_gpu chainer id /\
  ~ on_single_device (chainer_gpu chainer id) w res.
Proof.
  intros chainer res.
  assert (chainer_cpu chainer <> chainer_gpu chainer id) as Hne.
  { unfold chainer_cpu, chainer_gpu, chainer, ChainerNetworkTrainer.get_device.
    destruct chainerx; cbn; discriminate. }
  assert (on_single_device (chainer_cpu chainer) w res) as Hcpu.
  { unfold res, ChainerNetworkTrainer._setup_devices,
      ChainerNetworkTrainer._setup_devices_try.
    cbn [negb bool_decide decide_rel andb length Z.of_nat Z.ltb Z.compare
         Pos.of_succ_nat ChainerNetworkTrainer.check_cuda_available chainer].
    run_py. repeat split. }
  split; [exact Hcpu|].
  destruct Hcpu as (_ & Hin & Hout & _).
  split.
  { unfold res, ChainerNetworkTrainer._setup_devices,
      ChainerNetworkTrainer._setup_devices_try.
    cbn [negb bool_decide decide_rel andb length Z.of_nat Z.ltb Z.compare
         Pos.of_succ_nat ChainerNetworkTrainer.check_cuda_available chainer].
    run_py. reflexivity. }
  rewrite Hin, Hout. repeat split; try exact Hne.
  intros (_ & Hin' & _). rewrite Hin in Hin'. exact (Hne Hin').
Qed.

(** C6, as worded, fails on the PyTorch trainer: with ids [0, 1] and CUDA
    available on a host that counts a single device, the module is not
    wrapped. *)
Lemma C6_counterexample :
  ~ torch_multi_device_claim (PyTorchNetworkTrainer.mkCuda true 1) [0; 1] world0.
Proof.
  intros H.
  destruct (H eq_refl (le_n 2)) as (id0 & id1 & _ & _ & _ & _ & (inner & out & Hm) & _).
  vm_compute in Hm. discriminate Hm.
Qed.

(** C6, amended: with two or more accelerator ids and a probe that
    succeeds, the PyTorch trainer takes the first id as input device and,
    when the host counts more than one device, wraps the module in
    [DataParallel] over all ids with the second id as output device; when
    the host counts one device at most it places the module on the first
    id alone.  The Chainer trainer takes the first id as input and as
    output device and wraps the module in its data-parallel network over
    all ids. *)
Theorem C6_multi_device (cuda : PyTorchNetworkTrainer.Cuda)
    (chainer : ChainerNetworkTrainer.Chainer) (id0 id1 : Z) (rest : list Z)
    (parallel_optimizers : list (string * NativeState)) (w : World) :
  PyTorchNetworkTrainer.is_available cuda = true ->
  ChainerNetworkTrainer.check_cuda_available chainer
    = ChainerNetworkTrainer.CheckReturns true ->
  let gpu_ids := id0 :: id1 :: rest in
  let rt := PyTorchNetworkTrainer._setup_devices cuda gpu_ids w in
  let rc := ChainerNetworkTrainer._setup_devices chainer gpu_ids parallel_optimizers w in
  (snd rt = Ok tt /\
   use_gpu (trainer (fst rt)) = true /\
   input_device (trainer (fst rt)) = PyTorchNetworkTrainer.cuda_device id0 /\
   (1 < PyTorchNetworkTrainer.device_count cuda ->
    module (trainer (fst rt))
      = TorchDataParallel
          (to (module (trainer w)) (PyTorchNetworkTrainer.cuda_device id0))
          gpu_ids id1 /\
    output_device (trainer (fst rt)) = PyTorchNetworkTrainer.cuda_device id1) /\
   (PyTorchNetworkTrainer.device_count cuda <= 1 ->
    module (trainer (fst rt))
      = to (module (trainer w)) (PyTorchNetworkTrainer.cuda_device id0) /\
    output_device (trainer (fst rt)) = PyTorchNetworkTrainer.cuda_device id0)) /\
  (snd rc = Ok tt /\
   use_gpu (trainer (fst rc)) = true /\
   input_device (trainer (fst rc)) = chainer_gpu chainer id0 /\
   module (trainer (fst rc))
     = ChainerDataParallel (to (module (trainer w)) "@numpy")
                           (map (chainer_gpu chainer) gpu_ids) /\
   output_device (trainer (fst rc)) = chainer_gpu chainer id0).
Proof.
  intros Ht Hc gpu_ids rt rc.
  assert ((1 <? Z.of_nat (length gpu_ids)) = true) as Hlen.
  { apply Z.ltb_lt. unfold gpu_ids. cbn [length]. lia. }
  split.
  - unfold rt, PyTorchNetworkTrainer._setup_devices.
    rewrite Ht, Hlen. cbn [negb bool_decide decide_rel andb].
    destruct (1 <? PyTorchNetworkTrainer.device_count cuda) eqn:E;
      [apply Z.ltb_lt in E | apply Z.ltb_ge in E];
      run_py; repeat split; try reflexivity; lia.
  - unfold rc, ChainerNetworkTrainer._setup_devices,
      ChainerNetworkTrainer._setup_devices_try.
    rewrite Hc, Hlen. cbn [negb bool_decide decide_rel andb].
    run_py. repeat split.
Qed.

Lemma C6_multi_device_witness :
  module (trainer (fst (PyTorchNetworkTrainer._setup_devices
                          (PyTorchNetworkTrainer.mkCuda true 2) [0; 1] world0)))
    = TorchDataParallel (Net 0 "cuda:0") [0; 1] 1 /\
  module (trainer (fst (ChainerNetworkTrainer._setup_devices
                          (ChainerNetworkTrainer.mkChainer
                             false (ChainerNetworkTrainer.CheckReturns true))
                          [0; 1] [] world0)))
    = ChainerDataParallel (Net 0 "@numpy") ["@cupy:0"; "@cupy:1"].
Proof.
  destruct (C6_multi_device
              (PyTorchNetworkTrainer.mkCuda true 2)
              (ChainerNetworkTrainer.mkChainer
                 false (ChainerNetworkTrainer.CheckReturns true))
              0 1 [] [] world0 eq_refl eq_refl)
    as [(_ & _ & _ & Hwrap & _) (_ & _ & _ & Hc & _)].
  split.
  - exact (proj1 (Hwrap eq_refl)).
  - exact Hc.
Defined.

(** ** Strings *)

Section StringFacts.

Import PyStr.

Lemma append_assoc (a b c : string) : (a +:+ b) +:+ c = a +:+ (b +:+ c).
Proof. induction a as [|x a IH]; simpl; [reflexivity | by f_equal]. Qed.

Lemma append_nil_r (a : string) : a +:+ "" = a.
Proof. induction a as [|x a IH]; simpl; [reflexivity | by f_equal]. Qed.

Lemma occurs_app c a b : occurs c (a +:+ b) = occurs c a || occurs c b.
Proof.
  induction a as [|x a IH]; simpl; [reflexivity|].
  by rewrite IH, orb_assoc.
Qed.

Lemma all_chars_app p a b : all_chars p (a +:+ b) = all_chars p a && all_chars p b.
Proof.
  induction a as [|x a IH]; simpl; [reflexivity|].
  by rewrite IH, andb_assoc.
Qed.

Lemma all_chars_impl (p q : ascii -> bool) s :
  (forall a, p a = true -> q a = true) -> all_chars p s = true -> all_chars q s = true.
Proof.
  intros Hpq. induction s as [|x s IH]; cbn; [done|].
  intros [Hx Hs]%andb_true_iff. rewrite (Hpq _ Hx). cbn. auto.
Qed.

Lemma all_chars_not_occurs p c s :
  p c = false -> all_chars p s = true -> occurs c s = false.
Proof.
  intros Hc. induction s as [|x s IH]; cbn; [done|].
  intros [Hx Hs]%andb_true_iff. rewrite (IH Hs), orb_false_r.
  destruct (Ascii.eqb_spec x c) as [->|]; [congruence | reflexivity].
Qed.

(** *** [endswith] *)

Lemma eqb_refl_string (s : string) : String.eqb s s = true.
Proof. by apply String.eqb_eq. Qed.

Lemma endswith_unfold s p :
  endswith s p
  = String.eqb s p
    || match s with EmptyString => false | String _ s' => endswith s' p end.
Proof. destruct s; unfold endswith; fold endswith; by destruct (String.eqb _ p). Qed.

Lemma endswith_app a p : endswith (a +:+ p) p = true.
Proof.
  induction a as [|x a IH].
  - change ("" +:+ p) with p. by rewrite endswith_unfold, eqb_refl_string.
  - change (String x a +:+ p) with (String x (a +:+ p)).
    rewrite endswith_unfold, IH. apply orb_true_r.
Qed.

Lemma endswith_inv s p : endswith s p = true -> exists a, s = a +:+ p.
Proof.
  induction s as [|x s IH]; rewrite endswith_unfold.
  - rewrite orb_false_r. intros <-%String.eqb_eq. by exists "".
  - intros [<-%String.eqb_eq | [a ->]%IH]%orb_true_iff.
    + by exists "".
    + by exists (String x a).
Qed.

Lemma last_char_app a p :
  p <> "" -> last_char (a +:+ p) = last_char p.
Proof.
  intros Hp. induction a as [|x a IH]; cbn; [reflexivity|].
  destruct (a +:+ p) eqn:E; [|exact IH].
  destruct a; cbn in E; [congruence | discriminate].
Qed.

Lemma endswith_last_char s p c c' :
  last_char s = Some c -> last_char p = Some c' -> c <> c' -> endswith s p = false.
Proof.
  intros Hs Hp Hne. destruct (endswith s p) eqn:E; [|reflexivity].
  apply endswith_inv in E as [a ->].
  rewrite last_char_app in Hs by (intros ->; discriminate). congruence.
Qed.

(** *** [rsplit] *)

Lemma rsplit_once_absent c s : occurs c s = false -> rsplit_once c s = None.
Proof.
  induction s as [|x s IH]; cbn; [done|].
  intros [Hx Hs]%orb_false_iff. by rewrite (IH Hs), Hx.
Qed.

Lemma rsplit_once_last c a t :
  occurs c t = false -> rsplit_once c (a +:+ String c t) = Some (a, t).
Proof.
  intros Ht. induction a as [|x a IH]; cbn.
  - by rewrite (rsplit_once_absent _ _ Ht), Ascii.eqb_refl.
  - by rewrite IH.
Qed.

(** *** [s[:-1]] *)

Lemma drop_last_app a p : p <> "" -> drop_last (a +:+ p) = a +:+ drop_last p.
Proof.
  intros Hp. induction a as [|x a IH]; cbn; [reflexivity|].
  destruct (a +:+ p) eqn:E.
  - destruct a; cbn in E; [congruence | discriminate].
  - by rewrite <- IH.
Qed.

(** *** [os.path.join] *)

Lemma join_relative save_path x :
  startswith x "/" = false -> OsPath.join save_path x = join_prefix save_path +:+ x.
Proof.
  intros Hx. unfold OsPath.join, join_prefix. rewrite Hx.
  destruct (String.eqb save_path "" || endswith save_path "/"); [reflexivity|].
  by rewrite append_assoc.
Qed.

Lemma append_inv_l (a x y : string) : a +:+ x = a +:+ y -> x = y.
Proof. induction a as [|c a IH]; cbn; [done|]. intros [= H]. auto. Qed.

End StringFacts.

(** ** Printing and reading integers *)

Section IntFacts.

Import PyStr.

Lemma uint_chars d : all_chars is_digit (NilEmpty.string_of_uint d) = true.
Proof. induction d; simpl; auto. Qed.

Lemma format_d_chars n : all_chars is_digit_or_minus (format_d n) = true.
Proof.
  assert (forall d, all_chars is_digit_or_minus (NilZero.string_of_uint d) = true) as H.
  { intros d. apply all_chars_impl with (p := is_digit).
    - intros a Ha. unfold is_digit_or_minus. by rewrite Ha.
    - destruct d; try apply uint_chars. reflexivity. }
  unfold format_d. destruct (Z.to_int n); simpl; apply H.
Qed.

Lemma digit_or_minus_not_space a : is_digit_or_minus a = true -> isspace a = false.
Proof. destruct a as [[] [] [] [] [] [] [] []]; vm_compute; congruence. Qed.

Lemma format_d_no_underscore n : occurs "_" (format_d n) = false.
Proof. by apply all_chars_not_occurs with (p := is_digit_or_minus), format_d_chars. Qed.

Lemma format_d_no_dot n : occurs "." (format_d n) = false.
Proof. by apply all_chars_not_occurs with (p := is_digit_or_minus), format_d_chars. Qed.

Lemma format_d_head n :
  exists c r, format_d n = String c r /\ is_digit_or_minus c = true.
Proof.
  pose proof (format_d_chars n) as H.
  destruct (format_d n) as [|c r] eqn:E.
  - unfold format_d in E. destruct (Z.to_int n) as [[]|[]]; discriminate.
  - exists c, r. split; [reflexivity|]. simpl in H. by apply andb_true_iff in H as [? _].
Qed.

Lemma rstrip_id s : all_chars (fun a => negb (isspace a)) s = true -> rstrip s = s.
Proof.
  induction s as [|a s IH]; simpl; [done|].
  intros [Ha Hs]%andb_true_iff. rewrite (IH Hs).
  destruct s; [|reflexivity]. by apply negb_true_iff in Ha as ->.
Qed.

Lemma strip_id s : all_chars (fun a => negb (isspace a)) s = true -> strip s = s.
Proof.
  intros H. unfold strip.
  assert (lstrip s = s) as ->; [|by apply rstrip_id].
  destruct s as [|a s]; simpl in *; [done|].
  apply andb_true_iff in H as [Ha _]. by apply negb_true_iff in Ha as ->.
Qed.

Lemma digits_of_uint d :
  d <> Nil -> digits (NilEmpty.string_of_uint d) = Some (Z.of_uint d).
Proof.
  intros Hd. unfold digits.
  destruct (NilEmpty.string_of_uint d) eqn:E.
  - destruct d; try discriminate. congruence.
  - by rewrite <- E, NilEmpty.usu.
Qed.

Lemma of_uint_to_uint p : Z.of_uint (Pos.to_uint p) = Z.pos p.
Proof. unfold Z.of_uint. by rewrite DecimalPos.Unsigned.of_to. Qed.

Lemma int_unsigned c r :
  is_digit c = true ->
  all_chars (fun a => negb (isspace a)) (String c r) = true ->
  int (String c r) = digits (String c r).
Proof.
  intros Hc Hs. unfold int. rewrite (strip_id _ Hs).
  destruct c as [[] [] [] [] [] [] [] []]; try discriminate Hc; reflexivity.
Qed.

(** Reading back what ["%d"] printed gives the number. *)
Lemma int_format_d n : int (format_d n) = Some n.
Proof.
  pose proof (format_d_chars n) as Hchars.
  apply all_chars_impl with (q := fun a => negb (isspace a)) in Hchars.
  2: { intros a Ha. by rewrite (digit_or_minus_not_space _ Ha). }
  destruct n as [|p|p].
  - reflexivity.
  - unfold format_d in *. simpl Z.to_int in *. simpl NilZero.string_of_int in *.
    pose proof (DecimalPos.Unsigned.to_uint_nonnil p) as Hnn.
    assert (NilZero.string_of_uint (Pos.to_uint p)
            = NilEmpty.string_of_uint (Pos.to_uint p)) as E.
    { by destruct (Pos.to_uint p). }
    rewrite E in *.
    pose proof (uint_chars (Pos.to_uint p)) as Hd.
    destruct (NilEmpty.string_of_uint (Pos.to_uint p)) as [|c r] eqn:E'.
    { destruct (Pos.to_uint p); discriminate || congruence. }
    rewrite int_unsigned; [|by apply andb_true_iff in Hd as [? _] | done].
    by rewrite <- E', digits_of_uint, of_uint_to_uint.
  - unfold format_d in *. simpl Z.to_int in *. simpl NilZero.string_of_int in *.
    pose proof (DecimalPos.Unsigned.to_uint_nonnil p) as Hnn.
    assert (NilZero.string_of_uint (Pos.to_uint p)
            = NilEmpty.string_of_uint (Pos.to_uint p)) as E.
    { by destruct (Pos.to_uint p). }
    rewrite E in *. unfold int. rewrite (strip_id _ Hchars).
    by rewrite digits_of_uint, of_uint_to_uint.
Qed.

(** The file name of a periodic checkpoint reads back as its epoch,
    whatever the extension, as long as the extension has one dot, at its
    start, and no underscore. *)
Lemma epoch_of_checkpoint_file e n w :
  occurs "." e = false -> occurs "_" e = false ->
  epoch_of_file_name (checkpoint_file (String "." e) n) w = (w, Ok n).
Proof.
  intros Hdot Hus. unfold epoch_of_file_name, checkpoint_file, rsplit1.
  change ("checkpoint_epoch_" +:+ format_d n +:+ String "." e)
    with ("checkpoint_epoch" +:+ String "_" (format_d n +:+ String "." e)).
  rewrite rsplit_once_last.
  2: { rewrite occurs_app, format_d_no_underscore. simpl. by rewrite Hus. }
  run_py. unfold item_last, item_first. simpl last. run_py.
  rewrite (rsplit_once_last "." (format_d n) e Hdot). cbn.
  by rewrite int_format_d.
Qed.

End IntFacts.

(** ** The resume scan *)

Section ScanFacts.

Import PyStr.

Lemma epoch_of_file_name_pure x w : fst (epoch_of_file_name x w) = w.
Proof.
  unfold epoch_of_file_name, item_last, item_first. run_py.
  destruct (last _); [|done]. destruct (head _); [|done].
  by destruct (int _).
Qed.

Lemma comprehension_pure l w : fst (comprehension l epoch_of_file_name w) = w.
Proof.
  induction l as [|x l IH]; simpl; [done|]. unfold bind.
  pose proof (epoch_of_file_name_pure x w) as Hx.
  destruct (epoch_of_file_name x w) as [w1 [n|e]]; simpl in Hx; subst w1; [|done].
  destruct (comprehension l epoch_of_file_name w) as [w2 [ns|e]];
    simpl in IH; subst w2; done.
Qed.


Lemma fold_max_spec l x : is_max (fold_left Z.max l x) (x :: l).
Proof.
  revert x. induction l as [|a l IH]; intros x; simpl.
  - split; [left|]. intros n ->%list_elem_of_singleton. lia.
  - destruct (IH (Z.max x a)) as [Hin Hle]. split.
    + apply elem_of_cons in Hin as [Hin|Hin].
      * rewrite Hin. destruct (Z.max_spec x a) as [[_ ->]|[_ ->]];
          [right; left | left].
      * right. by right.
    + intros n Hn.
      assert (Z.max x a <= fold_left Z.max l (Z.max x a)) as Hm by (apply Hle; left).
      apply elem_of_cons in Hn as [->|Hn]; [lia|].
      apply elem_of_cons in Hn as [->|Hn]; [lia|].
      apply Hle. by right.
Qed.

Lemma is_max_same m l l' :
  (forall n, n ∈ l <-> n ∈ l') -> is_max m l -> is_max m l'.
Proof. intros H [Hin Hle]. split; [by apply H|]. intros n Hn. by apply Hle, H. Qed.

(** A name that ends in [_best] and an extension is no name of a
    periodic checkpoint. *)
Lemma checkpoint_file_not_best e q n :
  occurs "_" e = false -> occurs "_" q = false ->
  endswith (checkpoint_file (String "." e) n) ("_best" +:+ q) = false.
Proof.
  intros He Hq.
  destruct (endswith _ _) eqn:E; [|reflexivity].
  apply endswith_inv in E as [a E]. exfalso.
  assert (rsplit_once "_" (checkpoint_file (String "." e) n)
          = Some ("checkpoint_epoch", format_d n +:+ String "." e)) as H1.
  { unfold checkpoint_file.
    change ("checkpoint_epoch_" +:+ format_d n +:+ String "." e)
      with ("checkpoint_epoch" +:+ String "_" (format_d n +:+ String "." e)).
    apply rsplit_once_last.
    rewrite occurs_app, format_d_no_underscore. simpl. by rewrite He. }
  rewrite E in H1.
  change (a +:+ "_best" +:+ q) with (a +:+ String "_" ("best" +:+ q)) in H1.
  rewrite rsplit_once_last in H1 by (simpl; by rewrite Hq).
  injection H1 as _ H1.
  destruct (format_d_head n) as (c & r & Hn & Hc). rewrite Hn in H1.
  simpl in H1. injection H1 as <- _. discriminate Hc.
Qed.

Lemma checkpoint_file_startswith e n :
  startswith (checkpoint_file e n) "checkpoint" = true.
Proof. reflexivity. Qed.

Lemma checkpoint_file_relative e n : startswith (checkpoint_file e n) "/" = false.
Proof. reflexivity. Qed.

Variables (is_best : string -> bool) (ext : string).

(** The scan leaves the world as it is, and the path it returns is that
    of the latest epoch's checkpoint with the trainer's extension when
    that is a regular file, and the same path short of its last
    character otherwise. *)
Lemma latest_state_scan_inv w :
  fst (latest_state_scan is_best ext w) = w /\
  forall n path,
    snd (latest_state_scan is_best ext w) = Ok (Some (n, path)) ->
    let primary := OsPath.join (save_path (trainer w)) (checkpoint_file ext n) in
    path = if isfile (disk w) primary then primary else drop_last primary.
Proof.
  unfold latest_state_scan, listdir, max. run_py.
  destruct (isdir _ _); [|by split].
  destruct (disk w !! save_path (trainer w)) as [[?|names]|]; [by split| |by split].
  destruct (List.filter _ names) as [|x files] eqn:Ef; [by split|].
  rewrite <- Ef. clear Ef.
  pose proof (comprehension_pure (List.filter
    (fun x => isfile (disk w) (OsPath.join (save_path (trainer w)) x)
              && startswith x "checkpoint" && negb (is_best x)) names) w) as Hp.
  destruct (comprehension _ epoch_of_file_name w) as [w' [ns|e]];
    simpl in Hp; subst w'; [|by split].
  destruct ns as [|n0 ns]; [by split|]. cbn [fst snd].
  split; [reflexivity|]. intros n path [= <- <-]. cbn zeta.
  unfold checkpoint_file. by destruct (isfile _ _).
Qed.

End ScanFacts.

Section ResumePaths.

Import PyStr.

Lemma join_checkpoint_file sp e n :
  OsPath.join sp (checkpoint_file e n)
  = (join_prefix sp +:+ "checkpoint_epoch_" +:+ format_d n) +:+ e.
Proof.
  rewrite join_relative by apply checkpoint_file_relative.
  unfold checkpoint_file. by rewrite !append_assoc.
Qed.

Lemma drop_last_join_pth sp n :
  drop_last (OsPath.join sp (checkpoint_file ".pth" n))
  = OsPath.join sp (checkpoint_file ".pt" n).
Proof. rewrite !join_checkpoint_file. by rewrite drop_last_app. Qed.

Lemma drop_last_join_chain sp n :
  drop_last (OsPath.join sp (checkpoint_file ".chain" n))
  = OsPath.join sp (checkpoint_file ".chai" n).
Proof. rewrite !join_checkpoint_file. by rewrite drop_last_app. Qed.

Lemma elem_of_pair {A} (x a b : A) : x ∈ [a; b] -> x = a \/ x = b.
Proof. intros [->| ->%list_elem_of_singleton]%elem_of_cons; auto. Qed.

Lemma torch_is_best_checkpoint_file e n :
  e ∈ [".pt"; ".pth"] -> torch_is_best (checkpoint_file e n) = false.
Proof.
  intros He. unfold torch_is_best.
  apply elem_of_pair in He as [-> | ->].
  - by rewrite (checkpoint_file_not_best "pt" ".pth"),
               (checkpoint_file_not_best "pt" ".pt").
  - by rewrite (checkpoint_file_not_best "pth" ".pth"),
               (checkpoint_file_not_best "pth" ".pt").
Qed.

End ResumePaths.

(** ** File names and their extensions *)

Section Canonical.

Import PyStr.

Lemma torch_canonical_eq f :
  torch_canonical f
  = if negb (endswith f ".pth" || endswith f ".pt") then f +:+ ".pt" else f.
Proof.
  unfold torch_canonical, canonical. simpl existsb.
  by destruct (endswith f ".pth"), (endswith f ".pt").
Qed.

Lemma chainer_canonical_eq f :
  chainer_canonical f = if negb (endswith f ".chain") then f +:+ ".chain" else f.
Proof.
  unfold chainer_canonical, canonical. simpl existsb.
  by destruct (endswith f ".chain").
Qed.

Lemma torch_canonical_has_extension f :
  endswith (torch_canonical f) ".pth" || endswith (torch_canonical f) ".pt" = true.
Proof.
  rewrite torch_canonical_eq.
  destruct (endswith f ".pth" || endswith f ".pt") eqn:E; simpl; [exact E|].
  rewrite endswith_app. apply orb_true_r.
Qed.

Lemma chainer_canonical_has_extension f :
  endswith (chainer_canonical f) ".chain" = true.
Proof.
  rewrite chainer_canonical_eq.
  destruct (endswith f ".chain") eqn:E; simpl; [exact E|]. apply endswith_app.
Qed.

Lemma torch_canonical_checkpoint_file sp e n :
  e ∈ [".pt"; ".pth"] ->
  torch_canonical (OsPath.join sp (checkpoint_file e n))
  = OsPath.join sp (checkpoint_file e n).
Proof.
  intros He. rewrite torch_canonical_eq, join_checkpoint_file.
  apply elem_of_pair in He as [-> | ->]; rewrite endswith_app;
    by rewrite ?orb_true_r.
Qed.

Lemma chainer_canonical_chain sp n :
  chainer_canonical (OsPath.join sp (checkpoint_file ".chain" n))
  = OsPath.join sp (checkpoint_file ".chain" n).
Proof. by rewrite chainer_canonical_eq, join_checkpoint_file, endswith_app. Qed.

Lemma chainer_canonical_chai sp n :
  chainer_canonical (OsPath.join sp (checkpoint_file ".chai" n))
  = OsPath.join sp (checkpoint_file ".chai" n) +:+ ".chain".
Proof.
  rewrite chainer_canonical_eq, join_checkpoint_file.
  rewrite (endswith_last_char _ ".chain" "i" "n"); try done.
  by rewrite last_char_app.
Qed.

End Canonical.

(** ** Saving and loading *)

(** C1: [save_state] hands the file name, the module and the optimizers
    to [save_checkpoint] and leaves its [epoch] argument out, so what is
    saved, and hence what a later [load_state] yields, is the same for
    every epoch: the round trip on the epoch field cannot hold for two
    different epochs, whatever the backend's [save_checkpoint] and
    [load_checkpoint] do.  With the backend functions as the
    specification describes them, the bundle stored by
    [save_state(path, 7)] has no ["epoch"] at all, and [load_state(path)]
    answers with the missing-key error instead of a bundle. *)
Theorem C1_epoch_not_saved :
  (forall save_checkpoint file_name E1 E2 kwargs w,
     PyTorchNetworkTrainer.save_state save_checkpoint file_name E1 kwargs w
     = PyTorchNetworkTrainer.save_state save_checkpoint file_name E2 kwargs w) /\
  (forall save_checkpoint load_checkpoint path w,
     ~ (epoch_round_trip save_checkpoint load_checkpoint path 0 w /\
        epoch_round_trip save_checkpoint load_checkpoint path 1 w)) /\
  (exists bundle,
     disk (fst (PyTorchNetworkTrainer.save_state save_checkpoint_spec
                  "/save/checkpoint_epoch_7" 7 ∅ world0))
       !! "/save/checkpoint_epoch_7.pt" = Some (File bundle) /\
     bundle !! "epoch" = None /\
     snd (PyTorchNetworkTrainer.load_state load_checkpoint_spec
            "/save/checkpoint_epoch_7" ∅
            (fst (PyTorchNetworkTrainer.save_state save_checkpoint_spec
                    "/save/checkpoint_epoch_7" 7 ∅ world0)))
     = Raise KeyError /\
     ~ epoch_round_trip save_checkpoint_spec load_checkpoint_spec
                        "/save/checkpoint_epoch_7" 7 world0).
Proof.
  split; [reflexivity|]. split.
  - intros sc lc path w [(b0 & H0 & E0) (b1 & H1 & E1)].
    change (PyTorchNetworkTrainer.save_state sc path 1 ∅ w)
      with (PyTorchNetworkTrainer.save_state sc path 0 ∅ w) in H1.
    rewrite H0 in H1. injection H1 as <-. rewrite E0 in E1. discriminate E1.
  - eexists. split; [vm_compute; reflexivity|]. split; [reflexivity|].
    split; [vm_compute; reflexivity|].
    intros (b & Hb & Eb). vm_compute in Hb. discriminate Hb.
Qed.

(** ** Applying a bundle *)

Section UpdateState.

Variable load_checkpoint : string -> Dict -> FS -> Outcome Dict.
Variable super_update_state : Dict -> Trainer -> Trainer.

Lemma world_eta w : mkWorld (trainer w) (disk w) (log w) = w.
Proof. by destruct w. Qed.

Lemma set_optimizers_same t : set_optimizers (optimizers t) t = t.
Proof. by destruct t. Qed.

Lemma optimizer_loop_ok d keys w :
  (forall key, key ∈ keys -> is_Some (d !! key)) ->
  exists o,
    for_each keys (optimizer_step d) w
    = (mkWorld (set_optimizers o (trainer w)) (disk w) (log w), Ok tt).
Proof.
  revert w. induction keys as [|key keys IH]; intros w Hall.
  - exists (optimizers (trainer w)). simpl. unfold ret.
    by rewrite set_optimizers_same, world_eta.
  - destruct (Hall key) as [st Hst]; [left|].
    simpl. unfold bind at 1. unfold optimizer_step at 1.
    unfold PyTorchNetworkTrainer.subscript,
      PyTorchNetworkTrainer.optimizer_load_state_dict.
    rewrite Hst. run_py.
    edestruct IH as [o Ho]; [intros k Hk; apply Hall; by right|].
    rewrite Ho. by exists o.
Qed.

Lemma optimizer_loop_raises d keys w :
  (exists key, key ∈ keys /\ d !! key = None) ->
  exists o,
    for_each keys (optimizer_step d) w
    = (mkWorld (set_optimizers o (trainer w)) (disk w) (log w), Raise KeyError).
Proof.
  revert w. induction keys as [|key keys IH]; intros w (k & Hk & Hnone).
  - by apply not_elem_of_nil in Hk.
  - simpl. unfold bind at 1. unfold optimizer_step at 1.
    unfold PyTorchNetworkTrainer.subscript,
      PyTorchNetworkTrainer.optimizer_load_state_dict.
    destruct (d !! key) as [st|] eqn:Hst; run_py.
    + assert (k ∈ keys) as Hk'.
      { apply elem_of_cons in Hk as [->|Hk]; [congruence | done]. }
      edestruct IH as [o Ho]; [by exists k|]. rewrite Ho. by exists o.
    + exists (optimizers (trainer w)).
      by rewrite set_optimizers_same, world_eta.
Qed.


(** The world after the ["model"] entry of [bundle] was applied: the
    parameters loaded when it holds a native state, nothing when it is
    absent. *)
Lemma update_state_model bundle w :
  bundle !! "model" = None \/ (exists st, bundle !! "model" = Some (VState st)) ->
  exists m,
    forall k : Dict -> Py unit,
      (let* new_state :=
         match bundle !! "model" with
         | Some v =>
             let* _ := PyTorchNetworkTrainer.module_load_state_dict v in
             ret (delete "model" bundle)
         | None => ret bundle
         end in
       k new_state) w
      = k (delete "model" bundle)
          (mkWorld (set_module m (trainer w)) (disk w) (log w)).
Proof.
  intros [Hm | [st Hm]]; rewrite Hm.
  - exists (module (trainer w)). intros k. run_py.
    rewrite delete_id by done.
    assert (set_module (module (trainer w)) (trainer w) = trainer w) as ->
      by (by destruct (trainer w)).
    by rewrite world_eta.
  - eexists. intros k. unfold PyTorchNetworkTrainer.module_load_state_dict.
    run_py. reflexivity.
Qed.

(** A bundle whose optimizer mapping lacks one of the trainer's names
    raises [KeyError] before the epoch is applied. *)
Lemma update_state_lacks_optimizer bundle d w :
  bundle !! "model" = None \/ (exists st, bundle !! "model" = Some (VState st)) ->
  bundle !! "optimizer" = Some (VDict d) ->
  d <> ∅ ->
  lacks_optimizer d (trainer w) ->
  exists m o,
    PyTorchNetworkTrainer._update_state super_update_state bundle w
    = (mkWorld (set_optimizers o (set_module m (trainer w))) (disk w) (log w),
       Raise KeyError).
Proof.
  intros Hm Ho Hd Hlack.
  destruct (update_state_model bundle w Hm) as [m Hstep].
  unfold PyTorchNetworkTrainer._update_state. rewrite Hstep.
  rewrite lookup_delete_ne, Ho by done.
  unfold truthy. rewrite bool_decide_eq_false_2 by done. cbn [negb].
  unfold bind at 1. unfold bind at 1. unfold get_self at 1. cbn [trainer].
  change (optimizers (set_module m (trainer w))) with (optimizers (trainer w)).
  unfold bind at 1.
  destruct (optimizer_loop_raises d (map fst (optimizers (trainer w)))
              (mkWorld (set_module m (trainer w)) (disk w) (log w)) Hlack)
    as [o Hloop].
  unfold optimizer_step in Hloop. rewrite Hloop. by exists m, o.
Qed.

End UpdateState.

Lemma torch_update_state_run load_checkpoint super_update_state path kwargs w :
  PyTorchNetworkTrainer.update_state load_checkpoint super_update_state path kwargs w
  = match load_checkpoint (torch_canonical path) kwargs (disk w) with
    | Ok bundle => PyTorchNetworkTrainer._update_state super_update_state bundle w
    | Raise e => (w, Raise e)
    end.
Proof.
  unfold PyTorchNetworkTrainer.update_state, PyTorchNetworkTrainer.load_state.
  rewrite <- torch_canonical_eq. run_py.
  by destruct (load_checkpoint _ _ _).
Qed.

Lemma torch_setup_resume_run load_checkpoint super_update_state w n path :
  PyTorchNetworkTrainer._setup_latest_state w = (w, Ok (Some (n, path))) ->
  PyTorchNetworkTrainer._setup_resume load_checkpoint super_update_state w
  = match load_checkpoint (torch_canonical path) ∅ (disk w) with
    | Ok bundle =>
        match PyTorchNetworkTrainer._update_state super_update_state bundle
                (after_info path w) with
        | (w', Raise KeyError) => (after_warning w', Ok tt)
        | r => r
        end
    | Raise KeyError => (after_warning (after_info path w), Ok tt)
    | Raise e => (after_info path w, Raise e)
    end.
Proof.
  intros Hs. unfold PyTorchNetworkTrainer._setup_resume, bind. rewrite Hs.
  unfold logger at 1. fold (after_info path w).
  unfold try_except. rewrite torch_update_state_run.
  change (disk (after_info path w)) with (disk w).
  destruct (load_checkpoint _ _ _) as [bundle|e].
  - destruct (PyTorchNetworkTrainer._update_state _ _ _) as [w' [[]|e]];
      [done|]. by destruct e.
  - by destruct e.
Qed.

Lemma load_checkpoint_spec_missing_key : raises_missing_key load_checkpoint_spec.
Proof.
  intros file kwargs fs bundle key Hfile Hkey Hnone.
  unfold load_checkpoint_spec. rewrite Hfile.
  destruct (forallb _ _) eqn:E; [|reflexivity].
  rewrite forallb_forall in E.
  specialize (E key (proj1 (list_elem_of_In _ _) Hkey)).
  apply bool_decide_eq_true in E. rewrite Hnone in E. by destruct E.
Qed.

(** C3: when the bundle of the latest checkpoint misses ["model"], or
    another of the three fields, [_setup] logs the warning that the
    previous state could not be loaded and goes on without raising: the
    trainer is the one before the resume, fresh, with [start_epoch = 1],
    and the disk is untouched.  The loader of [delira.io] is not among
    the sources; as the specification has it, it answers such a bundle
    with the missing-key error, and the handler of [_setup] catches that
    error. *)
Theorem C3_resume_missing_keys
    (load_checkpoint : string -> Dict -> FS -> Outcome Dict)
    (super_update_state : Dict -> Trainer -> Trainer)
    (w : World) (n : Z) (path : string) (bundle : Dict) (key : string) :
  raises_missing_key load_checkpoint ->
  PyTorchNetworkTrainer._setup_latest_state w = (w, Ok (Some (n, path))) ->
  disk w !! torch_canonical path = Some (File bundle) ->
  key ∈ expected_keys ->
  bundle !! key = None ->
  start_epoch (trainer w) = VInt 1 ->
  let res :=
    PyTorchNetworkTrainer._setup_resume load_checkpoint super_update_state w in
  snd res = Ok tt /\
  log (fst res) = (log w ++ [(INFO, AttemptingToLoadState path);
                             (WARNING, PreviousStateNotLoaded)])%list /\
  trainer (fst res) = trainer w /\
  start_epoch (trainer (fst res)) = VInt 1 /\
  disk (fst res) = disk w.
Proof.
  intros Hlc Hs Hfile Hkey Hnone Hstart. cbv zeta.
  rewrite (torch_setup_resume_run load_checkpoint super_update_state w n path Hs).
  rewrite (Hlc _ ∅ _ bundle key Hfile Hkey Hnone).
  cbn. rewrite <- app_assoc. by repeat split.
Qed.

Lemma C3_resume_missing_keys_witness :
  PyTorchNetworkTrainer._setup_resume
    load_checkpoint_spec super_update_state_spec world_no_model
  = (mkWorld trainer0 (disk world_no_model)
       [(INFO, AttemptingToLoadState "/save/checkpoint_epoch_5.pt");
        (WARNING, PreviousStateNotLoaded)],
     Ok tt).
Proof.
  destruct (C3_resume_missing_keys
              load_checkpoint_spec super_update_state_spec
              world_no_model 5 "/save/checkpoint_epoch_5.pt" bundle_no_model "model"
              load_checkpoint_spec_missing_key eq_refl eq_refl)
    as (Hok & Hlog & Ht & _ & Hd).
  - left.
  - reflexivity.
  - reflexivity.
  - destruct (PyTorchNetworkTrainer._setup_resume _ _ _) as [[t fs lg] r].
    cbn in *. by subst.
Defined.

(** ** Writing checkpoints *)

Section Cadence.

Import PyStr.

Variable save_checkpoint :
  string -> Network -> list (string * NativeState) -> Dict -> FS -> FS * Outcome unit.
Variable super_update_state : Dict -> Trainer -> Trainer.
Variable Metrics : Type.
Hypothesis save_checkpoint_writes : writes_file save_checkpoint.

Lemma isfile_insert (fs : FS) f b p :
  isfile (<[f := File b]> fs) p = bool_decide (p = f) || isfile fs p.
Proof.
  unfold isfile. destruct (decide (p = f)) as [->|Hne].
  - by rewrite lookup_insert_eq, bool_decide_eq_true_2.
  - by rewrite lookup_insert_ne, bool_decide_eq_false_2.
Qed.

Lemma torch_save_state_run file_name epoch kwargs w :
  exists fs',
    PyTorchNetworkTrainer.save_state save_checkpoint file_name epoch kwargs w
    = (mkWorld (trainer w) fs' (log w), Ok tt) /\
    forall p, isfile fs' p = bool_decide (p = torch_canonical file_name)
                             || isfile (disk w) p.
Proof.
  unfold PyTorchNetworkTrainer.save_state. rewrite <- torch_canonical_eq.
  destruct (save_checkpoint_writes (torch_canonical file_name) (module (trainer w))
              (optimizers (trainer w)) kwargs (disk w)) as [b Hb].
  run_py. rewrite Hb. eexists. split; [reflexivity|].
  intros p. apply isfile_insert.
Qed.

Lemma torch_canonical_periodic sp n :
  torch_canonical (periodic_path sp n) = periodic_path sp n.
Proof. apply torch_canonical_checkpoint_file. left. Qed.

Lemma best_path_eq sp : best_path sp = (join_prefix sp +:+ "checkpoint_best") +:+ ".pt".
Proof.
  unfold best_path. rewrite join_relative by reflexivity. by rewrite append_assoc.
Qed.

Lemma torch_canonical_best sp : torch_canonical (best_path sp) = best_path sp.
Proof.
  rewrite torch_canonical_eq, best_path_eq, endswith_app. by rewrite orb_true_r.
Qed.

Lemma torch_canonical_initial sp :
  torch_canonical (OsPath.join sp "checkpoint_epoch_0") = periodic_path sp 0.
Proof.
  rewrite torch_canonical_eq, join_relative by reflexivity.
  rewrite (endswith_last_char _ ".pth" "0" "h"), (endswith_last_char _ ".pt" "0" "t");
    try done; try by rewrite last_char_app.
  cbn [orb negb]. unfold periodic_path.
  rewrite join_relative by reflexivity. by rewrite append_assoc.
Qed.

Lemma periodic_path_inj sp n m : periodic_path sp n = periodic_path sp m -> n = m.
Proof.
  unfold periodic_path. rewrite !join_relative by reflexivity.
  intros H%append_inv_l.
  pose proof (epoch_of_checkpoint_file "pt" n world0 eq_refl eq_refl) as Hn.
  rewrite H, epoch_of_checkpoint_file in Hn by reflexivity. congruence.
Qed.

Lemma periodic_path_not_best sp n : periodic_path sp n <> best_path sp.
Proof.
  unfold periodic_path, best_path. rewrite !join_relative by reflexivity.
  intros H%append_inv_l. discriminate H.
Qed.

(** One end-of-epoch step, after the callbacks ran to [w1]. *)
Lemma bind_run {A B} (m : Py A) (k : A -> Py B) w :
  bind m k w
  = match m w with
    | (w', Ok a) => k a w'
    | (w', Raise e) => (w', Raise e)
    end.
Proof. reflexivity. Qed.

End Cadence.

Section Loop.

Variable save_checkpoint :
  string -> Network -> list (string * NativeState) -> Dict -> FS -> FS * Outcome unit.
Variable super_update_state : Dict -> Trainer -> Trainer.
Variable Metrics : Type.
Hypothesis save_checkpoint_writes : writes_file save_checkpoint.

Lemma in_range e a b : In e (range a b) <-> a <= e < b.
Proof.
  unfold range. rewrite in_map_iff. split.
  - intros (i & <- & Hi%in_seq). lia.
  - intros H. exists (Z.to_nat (e - a)). split; [lia|]. apply in_seq. lia.
Qed.

Lemma written_periodic sp f is_best e n :
  written sp f is_best e (periodic_path sp n) = true <-> e mod f = 0 /\ n = e.
Proof.
  unfold written.
  rewrite (bool_decide_eq_false_2 (periodic_path sp n = best_path sp))
    by apply periodic_path_not_best.
  rewrite andb_false_r, orb_false_r, andb_true_iff, !bool_decide_eq_true.
  split; intros [H1 H2]; split; try done.
  - by apply periodic_path_inj in H2.
  - by subst.
Qed.

Lemma written_best sp f is_best e :
  written sp f is_best e (best_path sp) = true <-> is_best e = true.
Proof.
  unfold written.
  rewrite (bool_decide_eq_false_2 (best_path sp = periodic_path sp e)).
  2: { intros H. by apply (periodic_path_not_best sp e). }
  rewrite andb_false_r, orb_false_l, andb_true_iff, bool_decide_eq_true.
  split; [by intros [? _] | by intros ?].
Qed.

Lemma written_inv sp f is_best e p :
  written sp f is_best e p = true ->
  (e mod f = 0 /\ p = periodic_path sp e) \/ (is_best e = true /\ p = best_path sp).
Proof.
  unfold written.
  intros [[H1 H2]%andb_true_iff | [H1 H2]%andb_true_iff]%orb_true_iff;
    apply bool_decide_eq_true in H2; [left | right]; split; try done.
  by apply bool_decide_eq_true in H1.
Qed.

End Loop.

Lemma save_checkpoint_spec_writes : writes_file save_checkpoint_spec.
Proof. intros file m o kwargs fs. eexists. reflexivity. Qed.

(** * Further properties *)

(** ** The resume scan on any directory *)

Section ScanGeneral.

Import PyStr.

Lemma epoch_of_file_name_cases x w :
  (exists n, epoch_of_file_name x w = (w, Ok n)) \/
  epoch_of_file_name x w = (w, Raise ValueError).
Proof.
  unfold epoch_of_file_name, rsplit1, item_last, item_first.
  destruct (rsplit_once "_" x) as [[h t]|]; cbn.
  - destruct (rsplit_once "." t) as [[h' t']|]; cbn;
      (destruct (int _); cbn; [left; by eexists | by right]).
  - destruct (rsplit_once "." x) as [[h' t']|]; cbn;
      (destruct (int _); cbn; [left; by eexists | by right]).
Qed.

Lemma comprehension_cases l w :
  (exists ns, comprehension l epoch_of_file_name w = (w, Ok ns) /\
              Forall2 (fun x n => epoch_of_file_name x w = (w, Ok n)) l ns) \/
  comprehension l epoch_of_file_name w = (w, Raise ValueError).
Proof.
  induction l as [|x l IH]; simpl.
  - left. exists []. split; [reflexivity | constructor].
  - unfold bind.
    destruct (epoch_of_file_name_cases x w) as [[n Hx] | Hx]; rewrite Hx;
      [|by right].
    destruct IH as [(ns & Hl & Hall) | Hl]; rewrite Hl; [|by right].
    left. exists (n :: ns). split; [reflexivity | by constructor].
Qed.

Lemma comprehension_raises l w x :
  In x l ->
  epoch_of_file_name x w = (w, Raise ValueError) ->
  comprehension l epoch_of_file_name w = (w, Raise ValueError).
Proof.
  intros Hin Hx.
  destruct (comprehension_cases l w) as [(ns & _ & Hall) | H]; [|exact H].
  apply list_elem_of_In, list_elem_of_lookup in Hin as [i Hi].
  destruct (Forall2_lookup_l _ _ _ _ _ Hall Hi) as (n & _ & Hn). congruence.
Qed.

Variables (is_best : string -> bool) (ext : string).

Lemma latest_state_scan_run w :
  latest_state_scan is_best ext w
  = match scanned_files is_best w with
    | [] => (w, Ok None)
    | _ :: _ =>
        match comprehension (scanned_files is_best w) epoch_of_file_name w with
        | (w', Ok []) => (w', Raise ValueError)
        | (w', Ok (n0 :: ns)) =>
            (w', Ok (Some (fold_left Z.max ns n0,
                           scan_path ext w (fold_left Z.max ns n0))))
        | (w', Raise e) => (w', Raise e)
        end
    end.
Proof.
  unfold latest_state_scan, scanned_files, scan_path, listdir, max, isdir,
    checkpoint_file.
  run_py.
  destruct (disk w !! save_path (trainer w)) as [[?|names]|] eqn:E;
    try reflexivity.
  cbv beta iota. rewrite E. cbv beta iota. fold (scan_keeps is_best w).
  destruct (List.filter (scan_keeps is_best w) names) as [|x files]; [reflexivity|].
  destruct (comprehension _ _ w) as [w' [[|n0 ns]|e]]; try reflexivity.
  by destruct (isfile _ _).
Qed.

Lemma latest_state_scan_nothing w :
  scanned_files is_best w = [] -> latest_state_scan is_best ext w = (w, Ok None).
Proof. intros H. by rewrite latest_state_scan_run, H. Qed.

Lemma latest_state_scan_malformed w x :
  In x (scanned_files is_best w) ->
  snd (epoch_of_file_name x w) = Raise ValueError ->
  latest_state_scan is_best ext w = (w, Raise ValueError).
Proof.
  intros Hin Hx. rewrite latest_state_scan_run.
  assert (epoch_of_file_name x w = (w, Raise ValueError)) as Hx'.
  { destruct (epoch_of_file_name_cases x w) as [[n H] | H]; [|exact H].
    rewrite H in Hx. discriminate Hx. }
  rewrite (comprehension_raises _ _ _ Hin Hx').
  destruct (scanned_files is_best w); [destruct Hin | reflexivity].
Qed.

Lemma latest_state_scan_raises w e :
  snd (latest_state_scan is_best ext w) = Raise e ->
  e = ValueError /\ latest_state_scan is_best ext w = (w, Raise ValueError).
Proof.
  rewrite latest_state_scan_run.
  destruct (scanned_files is_best w) as [|x files]; [discriminate|].
  destruct (comprehension_cases (x :: files) w) as [(ns & Hl & Hall) | Hl];
    rewrite Hl.
  - destruct ns as [|n0 ns]; [inversion Hall | discriminate].
  - cbn. intros [= <-]. by split.
Qed.

Lemma latest_state_scan_sound w w' n path :
  latest_state_scan is_best ext w = (w', Ok (Some (n, path))) ->
  w' = w /\
  path = scan_path ext w n /\
  (exists x, In x (scanned_files is_best w) /\ epoch_of_file_name x w = (w, Ok n)) /\
  (forall y, In y (scanned_files is_best w) ->
             exists m, epoch_of_file_name y w = (w, Ok m) /\ m <= n).
Proof.
  rewrite latest_state_scan_run.
  destruct (scanned_files is_best w) as [|x files] eqn:Ef; [discriminate|].
  destruct (comprehension_cases (x :: files) w) as [(ns & Hl & Hall) | Hl];
    rewrite Hl; [|discriminate].
  destruct ns as [|n0 ns]; [discriminate|].
  intros [= <- <- <-]. split; [reflexivity|]. split; [reflexivity|].
  destruct (fold_max_spec ns n0) as [Hin Hle]. split.
  - apply list_elem_of_lookup in Hin as [i Hi].
    destruct (Forall2_lookup_r _ _ _ _ _ Hall Hi) as (y & Hy & Hyn).
    exists y. split; [|exact Hyn]. apply list_elem_of_In, list_elem_of_lookup. eauto.
  - intros y Hy. apply list_elem_of_In, list_elem_of_lookup in Hy as [i Hi].
    destruct (Forall2_lookup_l _ _ _ _ _ Hall Hi) as (m & Hm & Hym).
    exists m. split; [exact Hym|]. apply Hle, list_elem_of_lookup. eauto.
Qed.

End ScanGeneral.

(** ** Applying any bundle *)

Section UpdateStateGeneral.

Variable super_update_state : Dict -> Trainer -> Trainer.

Lemma set_module_same t : set_module (module t) t = t.
Proof. by destruct t. Qed.

(** The loop over the optimizers, for any value under ["optimizer"]: it
    changes the states of the optimizers and nothing else, and ends well
    or in a [KeyError] or a [TypeError]. *)
Lemma optimizer_loop_shape (v : Value) keys w :
  exists o r,
    for_each keys (fun key =>
      let* st := PyTorchNetworkTrainer.subscript v key in
      PyTorchNetworkTrainer.optimizer_load_state_dict key st) w
    = (mkWorld (set_optimizers o (trainer w)) (disk w) (log w), r) /\
    map fst o = map fst (optimizers (trainer w)) /\
    (r = Ok tt \/ r = Raise KeyError \/ r = Raise TypeError).
Proof.
  revert w. induction keys as [|key keys IH]; intros w.
  - exists (optimizers (trainer w)), (Ok tt). simpl. unfold ret.
    rewrite set_optimizers_same, world_eta. auto.
  - simpl. rewrite bind_run.
    assert (forall e, exists o r,
              (mkWorld (trainer w) (disk w) (log w), @Raise unit e)
              = (mkWorld (set_optimizers o (trainer w)) (disk w) (log w), r) /\
              map fst o = map fst (optimizers (trainer w)) /\ r = Raise e) as Hstop.
    { intros e. exists (optimizers (trainer w)), (Raise e).
      by rewrite set_optimizers_same. }
    unfold PyTorchNetworkTrainer.subscript,
      PyTorchNetworkTrainer.optimizer_load_state_dict.
    destruct v as [| | | | |d]; run_py;
      try solve [destruct (Hstop TypeError) as (o & r & H1 & H2 & ->);
                 exists o, (Raise TypeError); rewrite world_eta in H1; auto].
    + destruct (Hstop KeyError) as (o & r & H1 & H2 & ->).
      exists o, (Raise KeyError). rewrite world_eta in H1. auto.
    + destruct (d !! key) as [st|]; run_py.
      * edestruct IH as (o & r & Ho & Hn & Hr). rewrite Ho.
        exists o, r. cbn [trainer disk log]. split; [reflexivity|].
        split; [|exact Hr]. rewrite Hn. cbn [optimizers set_optimizers trainer].
        rewrite map_map. apply map_ext. intros [k s]. cbn.
        by destruct (String.eqb k key).
      * destruct (Hstop KeyError) as (o & r & H1 & H2 & ->).
        exists o, (Raise KeyError). rewrite world_eta in H1. auto.
Qed.

(** The last two steps of [_update_state] never raise. *)
Lemma update_state_tail (new_state : Dict) w :
  exists t,
    (let* new_state :=
       match new_state !! "epoch" with
       | Some v =>
           let* _ := modify_self (set_start_epoch v) in
           ret (delete "epoch" new_state)
       | None => ret new_state
       end in
     modify_self (super_update_state new_state)) w
    = (mkWorld t (disk w) (log w), Ok tt).
Proof. destruct (new_state !! "epoch"); run_py; by eexists. Qed.

(** Whatever the bundle, [_update_state] leaves the disk and the log
    alone; when it raises, it raises [KeyError] or [TypeError], and of
    the trainer only the module and the states of the optimizers may have
    changed: the names of the optimizers, [start_epoch] and every other
    attribute are as before, and the base class's merge has not run. *)
Lemma update_state_frame bundle w :
  let res := PyTorchNetworkTrainer._update_state super_update_state bundle w in
  disk (fst res) = disk w /\
  log (fst res) = log w /\
  forall e,
    snd res = Raise e ->
    (e = KeyError \/ e = TypeError) /\
    exists m o,
      trainer (fst res) = set_optimizers o (set_module m (trainer w)) /\
      map fst o = map fst (optimizers (trainer w)).
Proof.
  unfold PyTorchNetworkTrainer._update_state.
  assert (forall (ns : Dict) w1 m,
            w1 = mkWorld (set_module m (trainer w)) (disk w) (log w) ->
            let res :=
              (let* new_state :=
                 match ns !! "optimizer" with
                 | Some optim_state =>
                     if truthy optim_state then
                       let* self := get_self in
                       let* _ := for_each (map fst (optimizers self)) (fun key =>
                                   let* st := PyTorchNetworkTrainer.subscript
                                                optim_state key in
                                   PyTorchNetworkTrainer.optimizer_load_state_dict
                                     key st) in
                       ret (delete "optimizer" ns)
                     else ret ns
                 | None => ret ns
                 end in
               let* new_state :=
                 match new_state !! "epoch" with
                 | Some v =>
                     let* _ := modify_self (set_start_epoch v) in
                     ret (delete "epoch" new_state)
                 | None => ret new_state
                 end in
               modify_self (super_update_state new_state)) w1 in
            disk (fst res) = disk w /\
            log (fst res) = log w /\
            forall e,
              snd res = Raise e ->
              (e = KeyError \/ e = TypeError) /\
              exists m o,
                trainer (fst res) = set_optimizers o (set_module m (trainer w)) /\
                map fst o = map fst (optimizers (trainer w))) as Hrest.
  { intros ns w1 m -> res. subst res.
    assert (forall (ns' : Dict) w2,
              disk w2 = disk w -> log w2 = log w ->
              let res :=
                (let* new_state :=
                   match ns' !! "epoch" with
                   | Some v =>
                       let* _ := modify_self (set_start_epoch v) in
                       ret (delete "epoch" ns')
                   | None => ret ns'
                   end in
                 modify_self (super_update_state new_state)) w2 in
              disk (fst res) = disk w /\ log (fst res) = log w /\
              forall e, snd res = Raise e ->
                (e = KeyError \/ e = TypeError) /\
                exists m o,
                  trainer (fst res) = set_optimizers o (set_module m (trainer w)) /\
                  map fst o = map fst (optimizers (trainer w))) as Htail.
    { intros ns' w2 Hd Hl res. subst res.
      destruct (update_state_tail ns' w2) as [t ->]. cbn. rewrite Hd, Hl.
      split; [done|]. split; [done|]. discriminate. }
    rewrite bind_run.
    destruct (ns !! "optimizer") as [optim_state|]; [|by apply Htail].
    destruct (truthy optim_state); [|by apply Htail].
    rewrite bind_run. change (get_self ?w0) with (w0, Ok (trainer w0)).
    cbv beta iota. rewrite bind_run. cbn [trainer optimizers set_module].
    destruct (optimizer_loop_shape optim_state (map fst (optimizers (trainer w)))
                (mkWorld (set_module m (trainer w)) (disk w) (log w)))
      as (o & r & Hloop & Hnames & Hr).
    cbn [trainer disk log] in Hloop. rewrite Hloop.
    destruct Hr as [-> | [-> | ->]].
    - unfold ret at 1. by apply Htail.
    - cbn. split; [done|]. split; [done|]. intros e [= <-].
      split; [by left | by exists m, o].
    - cbn. split; [done|]. split; [done|]. intros e [= <-].
      split; [by right | by exists m, o]. }
  rewrite bind_run.
  destruct (bundle !! "model") as [v|].
  - unfold PyTorchNetworkTrainer.module_load_state_dict.
    destruct v as [| | | |st|];
      try solve [run_py; split; [done|]; split; [done|]; intros e [= <-];
                 split; [by right|];
                 exists (module (trainer w)), (optimizers (trainer w));
                 by rewrite set_module_same, set_optimizers_same].
    rewrite bind_run. unfold modify_self at 1, ret at 1.
    eapply Hrest. reflexivity.
  - unfold ret at 1. apply (Hrest bundle w (module (trainer w))).
    by rewrite set_module_same, world_eta.
Qed.

End UpdateStateGeneral.

Section UpdateStateComplete.

Variable super_update_state : Dict -> Trainer -> Trainer.

Lemma optimizer_loop_loaded d keys w :
  (forall key, key ∈ keys -> is_Some (d !! key)) ->
  for_each keys (optimizer_step d) w
  = (mkWorld
       (set_optimizers
          (map (fun kv => if bool_decide (fst kv ∈ keys)
                          then (fst kv, default (snd kv) (d !! fst kv)) else kv)
               (optimizers (trainer w)))
          (trainer w))
       (disk w) (log w), Ok tt).
Proof.
  revert w. induction keys as [|key keys IH]; intros w Hall.
  - cbn [for_each]. unfold ret.
    assert (map (fun kv : string * NativeState =>
                   if bool_decide (fst kv ∈ @nil string)
                   then (fst kv, default (snd kv) (d !! fst kv)) else kv)
                (optimizers (trainer w))
            = optimizers (trainer w)) as ->.
    { rewrite <- (map_id (optimizers (trainer w))) at 2. apply map_ext.
      intros kv. rewrite bool_decide_eq_false_2; [done | apply not_elem_of_nil]. }
    by rewrite set_optimizers_same, world_eta.
  - destruct (Hall key) as [st Hst]; [left|].
    cbn [for_each]. rewrite bind_run. unfold optimizer_step at 1.
    unfold PyTorchNetworkTrainer.subscript,
      PyTorchNetworkTrainer.optimizer_load_state_dict.
    rewrite Hst. run_py.
    rewrite IH by (intros k Hk; apply Hall; by right).
    cbn [trainer disk log optimizers set_optimizers]. f_equal. f_equal.
    unfold set_optimizers. cbn. f_equal.
    rewrite map_map. apply map_ext. intros [k s]. cbn.
    destruct (String.eqb_spec k key) as [->|Hne]; cbn.
    + rewrite (bool_decide_eq_true_2 (key ∈ key :: keys)) by left.
      rewrite Hst. cbn. by destruct (bool_decide (key ∈ keys)).
    + destruct (bool_decide (k ∈ keys)) eqn:E.
      * apply bool_decide_eq_true in E.
        rewrite bool_decide_eq_true_2; [done | by right].
      * apply bool_decide_eq_false in E.
        rewrite bool_decide_eq_false_2; [done|].
        intros [->|H]%elem_of_cons; done.
Qed.

Lemma optimizer_loop_all d w :
  (forall key, key ∈ map fst (optimizers (trainer w)) -> is_Some (d !! key)) ->
  for_each (map fst (optimizers (trainer w))) (optimizer_step d) w
  = (mkWorld (set_optimizers (loaded_optimizers d (optimizers (trainer w)))
                             (trainer w))
             (disk w) (log w), Ok tt).
Proof.
  intros Hall. rewrite optimizer_loop_loaded by done.
  f_equal. f_equal. f_equal. unfold loaded_optimizers.
  apply map_ext_in. intros kv Hkv.
  rewrite bool_decide_eq_true_2; [done|].
  apply list_elem_of_In, in_map, Hkv.
Qed.

(** X2: a bundle with a native state under ["model"], a state for each
    of the trainer's optimizers under ["optimizer"] and an ["epoch"] is
    applied in full: the parameters are loaded into the module, each
    optimizer takes its state by name, the epoch becomes [start_epoch],
    and what is left of the bundle, without the three keys, goes to the
    base class - with no change to the disk or the log. *)
Theorem update_state_complete (bundle : Dict) (st : NativeState)
    (d : gmap string NativeState) (v : Value) (w : World) :
  bundle !! "model" = Some (VState st) ->
  bundle !! "optimizer" = Some (VDict d) ->
  d <> ∅ ->
  (forall key, key ∈ map fst (optimizers (trainer w)) -> is_Some (d !! key)) ->
  bundle !! "epoch" = Some v ->
  PyTorchNetworkTrainer._update_state super_update_state bundle w
  = (mkWorld
       (super_update_state
          (delete "epoch" (delete "optimizer" (delete "model" bundle)))
          (set_start_epoch v
             (set_optimizers (loaded_optimizers d (optimizers (trainer w)))
                (set_module (set_params (module (trainer w)) st) (trainer w)))))
       (disk w) (log w), Ok tt).
Proof.
  intros Hm Ho Hd Hall He.
  unfold PyTorchNetworkTrainer._update_state. rewrite Hm.
  unfold PyTorchNetworkTrainer.module_load_state_dict.
  rewrite bind_run. rewrite bind_run. unfold modify_self at 1, ret at 1.
  cbv beta iota. rewrite bind_run, lookup_delete_ne, Ho by done.
  unfold truthy. rewrite bool_decide_eq_false_2 by done. cbn [negb].
  rewrite bind_run. change (get_self ?w0) with (w0, Ok (trainer w0)).
  cbv beta iota. rewrite bind_run. cbn [trainer optimizers set_module].
  pose proof (optimizer_loop_all d
                (mkWorld (set_module (set_params (module (trainer w)) st) (trainer w))
                         (disk w) (log w)) Hall) as Hloop.
  unfold optimizer_step in Hloop. cbn [trainer optimizers set_module] in Hloop.
  rewrite Hloop. unfold ret at 1. cbv beta iota.
  rewrite bind_run, !lookup_delete_ne, He by done.
  run_py. reflexivity.
Qed.

End UpdateStateComplete.

Lemma update_state_complete_witness :
  exists t,
    PyTorchNetworkTrainer._update_state super_update_state_spec bundle_complete
                                        world_complete
    = (mkWorld t (disk world_complete) [], Ok tt) /\
    module t = Net 4 "cpu" /\
    optimizers t = [("generator", 7); ("discriminator", 8)] /\
    start_epoch t = VInt 5.
Proof.
  eexists. split.
  - apply (update_state_complete super_update_state_spec bundle_complete 4
             (<["generator" := 7]> {["discriminator" := 8]}) (VInt 5) world_complete);
      try reflexivity.
    + intros H.
      apply (f_equal (fun d : gmap string NativeState => d !! "generator")) in H.
      vm_compute in H. discriminate H.
    + intros key Hkey. cbn in Hkey.
      repeat (apply elem_of_cons in Hkey as [->|Hkey]);
        [by eexists | by eexists | by apply not_elem_of_nil in Hkey].
  - by repeat split.
Defined.

(** The loop over the optimizers for a mapping [d], however it ends:
    the optimizers keep their names, and each one has the state it had
    or the state [d] holds under its name. *)
Lemma optimizer_loop_partial d keys w :
  exists o r,
    for_each keys (optimizer_step d) w
    = (mkWorld (set_optimizers o (trainer w)) (disk w) (log w), r) /\
    map fst o = map fst (optimizers (trainer w)) /\
    Forall2 (fun new old => snd new = snd old \/ d !! fst old = Some (snd new))
            o (optimizers (trainer w)).
Proof.
  revert w. induction keys as [|key keys IH]; intros w.
  - exists (optimizers (trainer w)), (Ok tt). cbn [for_each]. unfold ret.
    rewrite set_optimizers_same, world_eta. split; [reflexivity|].
    split; [reflexivity|]. apply Forall2_same_length_lookup_2; [done|].
    intros i x y Hx Hy. left. congruence.
  - cbn [for_each]. rewrite bind_run. unfold optimizer_step at 1.
    unfold PyTorchNetworkTrainer.subscript,
      PyTorchNetworkTrainer.optimizer_load_state_dict.
    destruct (d !! key) as [st|] eqn:Hst; run_py.
    + edestruct IH as (o & r & Ho & Hn & Hall). rewrite Ho.
      exists o, r. cbn [trainer disk log optimizers set_optimizers] in *.
      split; [reflexivity|]. split.
      * rewrite Hn, map_map. apply map_ext. intros [k s]. cbn.
        by destruct (String.eqb k key).
      * apply Forall2_fmap_r in Hall.
        eapply Forall2_impl; [exact Hall|].
        intros [k' s'] [k s]. cbn.
        destruct (String.eqb_spec k key) as [->|Hne]; cbn; [|done].
        intros [-> | H]; [by right | by right].
    + exists (optimizers (trainer w)), (Raise KeyError).
      rewrite set_optimizers_same, world_eta. split; [reflexivity|].
      split; [reflexivity|]. apply Forall2_same_length_lookup_2; [done|].
      intros i x y Hx Hy. left. congruence.
Qed.

(** X1: a bundle whose non-empty optimizer mapping lacks the name of
    one of the trainer's optimizers is applied in part.  [_update_state]
    raises [KeyError] at the first missing name: by then the parameters
    of the bundle, when it has a native state under ["model"], are in the
    module, and each optimizer has its own state or the one of the
    bundle; the optimizers keep their names, [start_epoch] is not
    assigned, whatever epoch the bundle has, nothing reaches the base
    class's merge, and the disk and the log are as before. *)
Theorem update_state_missing_optimizer_name
    (super_update_state : Dict -> Trainer -> Trainer)
    (bundle : Dict) (d : gmap string NativeState) (w : World) :
  bundle !! "model" = None \/ (exists st, bundle !! "model" = Some (VState st)) ->
  bundle !! "optimizer" = Some (VDict d) ->
  d <> ∅ ->
  lacks_optimizer d (trainer w) ->
  exists o,
    PyTorchNetworkTrainer._update_state super_update_state bundle w
    = (mkWorld
         (set_optimizers o
            (set_module
               (match bundle !! "model" with
                | Some (VState st) => set_params (module (trainer w)) st
                | _ => module (trainer w)
                end)
               (trainer w)))
         (disk w) (log w),
       Raise KeyError) /\
    map fst o = map fst (optimizers (trainer w)) /\
    Forall2 (fun new old => snd new = snd old \/ d !! fst old = Some (snd new))
            o (optimizers (trainer w)).
Proof.
  intros Hm Ho Hd Hlack.
  assert (exists m,
            m = match bundle !! "model" with
                | Some (VState st) => set_params (module (trainer w)) st
                | _ => module (trainer w)
                end /\
            forall k : Dict -> Py unit,
              (let* new_state :=
                 match bundle !! "model" with
                 | Some v =>
                     let* _ := PyTorchNetworkTrainer.module_load_state_dict v in
                     ret (delete "model" bundle)
                 | None => ret bundle
                 end in
               k new_state) w
              = k (delete "model" bundle)
                  (mkWorld (set_module m (trainer w)) (disk w) (log w)))
    as (m & Hmod & Hstep).
  { destruct Hm as [Hm | [st Hm]]; rewrite Hm.
    - exists (module (trainer w)). split; [reflexivity|]. intros k. run_py.
      rewrite delete_id by done. by rewrite set_module_same, world_eta.
    - eexists. split; [reflexivity|]. intros k.
      unfold PyTorchNetworkTrainer.module_load_state_dict. run_py. reflexivity. }
  rewrite <- Hmod. clear Hmod.
  unfold PyTorchNetworkTrainer._update_state. rewrite Hstep.
  rewrite lookup_delete_ne, Ho by done.
  unfold truthy. rewrite bool_decide_eq_false_2 by done. cbn [negb].
  rewrite bind_run, bind_run.
  change (get_self ?w0) with (w0, Ok (trainer w0)). cbv beta iota.
  rewrite bind_run. cbn [trainer].
  change (optimizers (set_module m (trainer w))) with (optimizers (trainer w)).
  destruct (optimizer_loop_partial d (map fst (optimizers (trainer w)))
              (mkWorld (set_module m (trainer w)) (disk w) (log w)))
    as (o & r & Hloop & Hn & Hst).
  destruct (optimizer_loop_raises d (map fst (optimizers (trainer w)))
              (mkWorld (set_module m (trainer w)) (disk w) (log w)) Hlack)
    as [o' Hraise].
  unfold optimizer_step in Hloop, Hraise. rewrite Hraise in Hloop.
  injection Hloop as Hw <-. rewrite Hraise. exists o.
  cbn [trainer disk log] in *.
  split; [by rewrite Hw|]. split; [exact Hn | exact Hst].
Qed.

Lemma update_state_missing_optimizer_name_witness :
  snd (PyTorchNetworkTrainer._update_state super_update_state_spec
         bundle_other_optimizer world0) = Raise KeyError /\
  module (trainer (fst (PyTorchNetworkTrainer._update_state super_update_state_spec
                          bundle_other_optimizer world0))) = Net 4 "cpu" /\
  start_epoch (trainer (fst (PyTorchNetworkTrainer._update_state
                               super_update_state_spec
                               bundle_other_optimizer world0))) = VInt 1.
Proof.
  destruct (update_state_missing_optimizer_name
              super_update_state_spec bundle_other_optimizer {["other" := 9]} world0)
    as (o & Hrun & _).
  - right. by exists 4.
  - reflexivity.
  - intros H.
    apply (f_equal (fun d : gmap string NativeState => d !! "other")) in H.
    vm_compute in H. discriminate H.
  - exists "default". split; [left | reflexivity].
  - rewrite Hrun. by repeat split.
Defined.

(** X3: when the latest checkpoint has a native state under ["model"]
    and an optimizer mapping that lacks one of the trainer's names,
    [_setup] logs that the previous state could not be loaded and goes
    on, and yet the parameters of the checkpoint are already in the
    module; [start_epoch] is as before. *)
Theorem resume_warning_keeps_loaded_model
    (load_checkpoint : string -> Dict -> FS -> Outcome Dict)
    (super_update_state : Dict -> Trainer -> Trainer)
    (w : World) (n : Z) (path : string) (bundle : Dict) (st : NativeState)
    (d : gmap string NativeState) :
  PyTorchNetworkTrainer._setup_latest_state w = (w, Ok (Some (n, path))) ->
  load_checkpoint (torch_canonical path) ∅ (disk w) = Ok bundle ->
  bundle !! "model" = Some (VState st) ->
  bundle !! "optimizer" = Some (VDict d) ->
  d <> ∅ ->
  lacks_optimizer d (trainer w) ->
  exists w',
    PyTorchNetworkTrainer._setup_resume load_checkpoint super_update_state w
    = (w', Ok tt) /\
    log w' = (log w ++ [(INFO, AttemptingToLoadState path);
                        (WARNING, PreviousStateNotLoaded)])%list /\
    module (trainer w') = set_params (module (trainer w)) st /\
    start_epoch (trainer w') = start_epoch (trainer w).
Proof.
  intros Hs Hload Hm Ho Hd Hlack.
  rewrite (torch_setup_resume_run _ _ _ _ _ Hs), Hload.
  assert (lacks_optimizer d (trainer (after_info path w))) as Hlack' by exact Hlack.
  unfold PyTorchNetworkTrainer._update_state. rewrite Hm.
  unfold PyTorchNetworkTrainer.module_load_state_dict.
  rewrite bind_run. rewrite bind_run. unfold modify_self at 1, ret at 1.
  cbv beta iota. rewrite bind_run, lookup_delete_ne, Ho by done.
  unfold truthy. rewrite bool_decide_eq_false_2 by done. cbn [negb].
  rewrite bind_run. change (get_self ?w0) with (w0, Ok (trainer w0)).
  cbv beta iota. rewrite bind_run. cbn [trainer optimizers set_module].
  destruct (optimizer_loop_raises d
              (map fst (optimizers (trainer (after_info path w))))
              (mkWorld (set_module (set_params (module (trainer (after_info path w))) st)
                                   (trainer (after_info path w)))
                       (disk (after_info path w)) (log (after_info path w)))
              Hlack') as [o Hloop].
  unfold optimizer_step in Hloop. cbn [trainer optimizers set_module] in Hloop.
  rewrite Hloop. eexists. split; [reflexivity|].
  cbn. rewrite <- app_assoc. by repeat split.
Qed.

Lemma resume_warning_keeps_loaded_model_witness :
  exists w',
    PyTorchNetworkTrainer._setup_resume
      load_checkpoint_spec super_update_state_spec world_half
    = (w', Ok tt) /\
    module (trainer w') = Net 4 "cpu" /\
    start_epoch (trainer w') = VInt 1.
Proof.
  destruct (resume_warning_keeps_loaded_model
              load_checkpoint_spec super_update_state_spec world_half
              5 "/save/checkpoint_epoch_5.pt" bundle_half 4 {["generator" := 7]}
              eq_refl eq_refl eq_refl eq_refl)
    as (w' & Hrun & _ & Hmod & Hstart).
  - intros H.
    apply (f_equal (fun d : gmap string NativeState => d !! "generator")) in H.
    vm_compute in H. discriminate H.
  - exists "discriminator". split; [right; left | reflexivity].
  - exists w'. split; [exact Hrun|]. split; [exact Hmod | exact Hstart].
Defined.

(** ** What [_setup] finds to resume from *)

Section ScanOutcome.

Variables (is_best : string -> bool) (ext : string).

Lemma latest_state_scan_world w :
  fst (latest_state_scan is_best ext w) = w.
Proof.
  rewrite latest_state_scan_run.
  destruct (scanned_files is_best w) as [|x files]; [reflexivity|].
  destruct (comprehension_cases (x :: files) w) as [(ns & Hl & _) | Hl];
    rewrite Hl; [|reflexivity].
  by destruct ns.
Qed.

Lemma latest_state_scan_none w :
  snd (latest_state_scan is_best ext w) = Ok None -> scanned_files is_best w = [].
Proof.
  rewrite latest_state_scan_run.
  destruct (scanned_files is_best w) as [|x files]; [reflexivity|].
  destruct (comprehension_cases (x :: files) w) as [(ns & Hl & _) | Hl];
    rewrite Hl; [|discriminate].
  by destruct ns.
Qed.

End ScanOutcome.

(** X4: when the save path is no directory, or none of its entries is a
    regular file whose name starts with [checkpoint] and is no best
    checkpoint, the resume step of the PyTorch trainer's [_setup] loads
    nothing and logs nothing: the trainer, the disk and the log are as
    before.  A directory with a best checkpoint only is such a case. *)
Theorem torch_nothing_to_resume
    (load_checkpoint : string -> Dict -> FS -> Outcome Dict)
    (super_update_state : Dict -> Trainer -> Trainer) (w : World) :
  scanned_files torch_is_best w = [] ->
  PyTorchNetworkTrainer._setup_resume load_checkpoint super_update_state w
  = (w, Ok tt).
Proof.
  intros H. unfold PyTorchNetworkTrainer._setup_resume.
  rewrite bind_run.
  change PyTorchNetworkTrainer._setup_latest_state
    with (latest_state_scan torch_is_best ".pth").
  by rewrite (latest_state_scan_nothing _ _ _ H).
Qed.

Lemma torch_nothing_to_resume_witness :
  PyTorchNetworkTrainer._setup_resume load_checkpoint_spec super_update_state_spec
                                      world_only_best
  = (world_only_best, Ok tt).
Proof.
  apply (torch_nothing_to_resume load_checkpoint_spec super_update_state_spec
                                 world_only_best).
  vm_compute. reflexivity.
Defined.

(** X5: one regular file of the save directory whose name starts with
    [checkpoint], is no best checkpoint and has no integer between its
    last underscore and the dot after it makes the resume step of the
    PyTorch trainer's [_setup] raise [ValueError]: the handler for
    [KeyError] does not catch it, nothing is logged and nothing is
    loaded, whatever other checkpoints the directory holds. *)
Theorem torch_malformed_name_aborts_resume
    (load_checkpoint : string -> Dict -> FS -> Outcome Dict)
    (super_update_state : Dict -> Trainer -> Trainer) (w : World) (x : string) :
  In x (scanned_files torch_is_best w) ->
  snd (epoch_of_file_name x w) = Raise ValueError ->
  PyTorchNetworkTrainer._setup_resume load_checkpoint super_update_state w
  = (w, Raise ValueError).
Proof.
  intros Hin Hx. unfold PyTorchNetworkTrainer._setup_resume.
  rewrite bind_run.
  change PyTorchNetworkTrainer._setup_latest_state
    with (latest_state_scan torch_is_best ".pth").
  by rewrite (latest_state_scan_malformed _ _ _ _ Hin Hx).
Qed.

Lemma torch_malformed_name_aborts_resume_witness :
  PyTorchNetworkTrainer._setup_resume load_checkpoint_spec super_update_state_spec
                                      (world_stray ".pt")
  = (world_stray ".pt", Raise ValueError).
Proof.
  apply (torch_malformed_name_aborts_resume
           load_checkpoint_spec super_update_state_spec
           (world_stray ".pt") "checkpoint_notes.txt").
  - vm_compute. auto.
  - vm_compute. reflexivity.
Defined.

(** X6: when the scan of the PyTorch trainer's [_setup] returns an epoch
    and a path, it has changed nothing; the epoch is the number read off
    the name of one of the files it kept, every kept name reads as a
    number that is not larger, and the path is the [.pth] checkpoint of
    that epoch when it is a regular file and the same path short of its
    last character otherwise. *)
Theorem torch_scan_sound (w w' : World) (n : Z) (path : string) :
  PyTorchNetworkTrainer._setup_latest_state w = (w', Ok (Some (n, path))) ->
  w' = w /\
  path = scan_path ".pth" w n /\
  (exists x, In x (scanned_files torch_is_best w) /\
             epoch_of_file_name x w = (w, Ok n)) /\
  (forall y, In y (scanned_files torch_is_best w) ->
             exists m, epoch_of_file_name y w = (w, Ok m) /\ m <= n).
Proof. exact (latest_state_scan_sound torch_is_best ".pth" w w' n path). Qed.

Lemma torch_scan_sound_witness :
  "/save/checkpoint_epoch_7.pt" = scan_path ".pth" (world_137 ".pt") 7 /\
  forall y, In y (scanned_files torch_is_best (world_137 ".pt")) ->
            exists m, epoch_of_file_name y (world_137 ".pt")
                      = (world_137 ".pt", Ok m) /\ m <= 7.
Proof.
  destruct (torch_scan_sound (world_137 ".pt") (world_137 ".pt") 7
                             "/save/checkpoint_epoch_7.pt")
    as (_ & Hp & _ & Hle).
  - vm_compute. reflexivity.
  - split; [exact Hp | exact Hle].
Defined.

(** X7: the scan of the Chainer trainer's [_setup] never changes the
    trainer, the disk or the log, and raises nothing but [ValueError];
    it returns [None] exactly when it keeps no entry of the save
    directory; and an epoch it returns is the number read off a kept
    name, not smaller than the number of any other kept name, with the
    [.chain] checkpoint of that epoch as the path when that is a regular
    file and the same path short of its last character otherwise. *)
Theorem chainer_scan_outcome (w : World) :
  let res := ChainerNetworkTrainer._setup_latest_state w in
  fst res = w /\
  (forall e, snd res = Raise e -> e = ValueError) /\
  (snd res = Ok None <-> scanned_files chainer_is_best w = []) /\
  (forall n path, snd res = Ok (Some (n, path)) ->
     path = scan_path ".chain" w n /\
     (exists x, In x (scanned_files chainer_is_best w) /\
                epoch_of_file_name x w = (w, Ok n)) /\
     (forall y, In y (scanned_files chainer_is_best w) ->
                exists m, epoch_of_file_name y w = (w, Ok m) /\ m <= n)).
Proof.
  change (ChainerNetworkTrainer._setup_latest_state w)
    with (latest_state_scan chainer_is_best ".chain" w).
  cbv zeta.
  split; [apply latest_state_scan_world|].
  split; [intros e He; by apply (latest_state_scan_raises _ _ _ _ He)|].
  split.
  - split; [apply latest_state_scan_none|].
    intros H. by rewrite (latest_state_scan_nothing _ _ _ H).
  - intros n path H.
    destruct (latest_state_scan chainer_is_best ".chain" w) as [w' r] eqn:E.
    cbn [snd] in H. subst r.
    by destruct (latest_state_scan_sound _ _ _ _ _ _ E) as (_ & ? & ? & ?).
Qed.

(** X8: whatever the save directory holds and whatever the loader and
    the base class do, the resume step of the PyTorch trainer's [_setup]
    never ends in [KeyError] and never writes to the disk; it logs
    nothing, or the attempt to load, or the attempt followed by the
    warning that the previous state could not be loaded, and after the
    warning it returns normally. *)
Theorem torch_setup_resume_outcome
    (load_checkpoint : string -> Dict -> FS -> Outcome Dict)
    (super_update_state : Dict -> Trainer -> Trainer) (w : World) :
  let res :=
    PyTorchNetworkTrainer._setup_resume load_checkpoint super_update_state w in
  snd res <> Raise KeyError /\
  disk (fst res) = disk w /\
  (log (fst res) = log w \/
   exists path,
     log (fst res) = (log w ++ [(INFO, AttemptingToLoadState path)])%list \/
     (log (fst res) = (log w ++ [(INFO, AttemptingToLoadState path);
                                 (WARNING, PreviousStateNotLoaded)])%list /\
      snd res = Ok tt)).
Proof.
  cbv zeta.
  destruct (PyTorchNetworkTrainer._setup_latest_state w) as [w1 r] eqn:E.
  pose proof (latest_state_scan_world torch_is_best ".pth" w) as Hw.
  change (latest_state_scan torch_is_best ".pth" w)
    with (PyTorchNetworkTrainer._setup_latest_state w) in Hw.
  rewrite E in Hw. cbn [fst] in Hw. subst w1.
  destruct r as [[[n path]|]|e].
  - rewrite (torch_setup_resume_run _ _ _ _ _ E).
    destruct (load_checkpoint _ _ _) as [bundle|e].
    + destruct (update_state_frame super_update_state bundle (after_info path w))
        as (Hd & Hl & _).
      destruct (PyTorchNetworkTrainer._update_state _ _ _) as [w' [[]|e]].
      * cbn [fst snd] in *. split; [done|]. split; [done|].
        right. exists path. left. exact Hl.
      * cbn [fst snd] in Hd, Hl.
        assert (e = KeyError \/ e <> KeyError) as [-> | Hne]
          by (destruct e; auto; right; discriminate).
        -- cbn [fst snd after_warning disk log]. split; [done|]. split; [done|].
           right. exists path. right. split; [|reflexivity].
           rewrite Hl. cbn. by rewrite <- app_assoc.
        -- destruct e; try done; cbn [fst snd];
             (split; [done|]; split; [done|]; right; exists path; left; exact Hl).
    + assert (e = KeyError \/ e <> KeyError) as [-> | Hne]
        by (destruct e; auto; right; discriminate).
      * cbn. split; [done|]. split; [done|]. right. exists path. right.
        split; [|reflexivity]. by rewrite <- app_assoc.
      * destruct e; try done; cbn;
          (split; [done|]; split; [done|]; right; exists path; by left).
  - unfold PyTorchNetworkTrainer._setup_resume. rewrite bind_run, E.
    cbn. split; [done|]. split; [done|]. by left.
  - unfold PyTorchNetworkTrainer._setup_resume. rewrite bind_run, E.
    pose proof (latest_state_scan_raises torch_is_best ".pth" w e) as Hr.
    change (latest_state_scan torch_is_best ".pth" w)
      with (PyTorchNetworkTrainer._setup_latest_state w) in Hr.
    rewrite E in Hr. destruct (Hr eq_refl) as [-> _].
    cbn. split; [done|]. split; [done|]. by left.
Qed.

(** ** Device placement *)

Lemma device_of_to m d : device_of (to m d) = d.
Proof. induction m; simpl; auto. Qed.

Lemma params_of_to m d : params_of (to m d) = params_of m.
Proof. induction m; simpl; auto. Qed.

Lemma two_ids {A} (a b : A) l : (1 <? Z.of_nat (length (a :: b :: l))) = true.
Proof. apply Z.ltb_lt. cbn [length]. lia. Qed.

(** The device placement of the PyTorch trainer in the embedding, where
    [torch.device], [Module.to] and [DataParallel] raise nothing. *)
Lemma torch_setup_devices_run
    (cuda : PyTorchNetworkTrainer.Cuda) (gpu_ids : list Z) (w : World) :
  exists t,
    PyTorchNetworkTrainer._setup_devices cuda gpu_ids w
    = (mkWorld t (disk w) (log w), Ok tt) /\
    use_gpu t = negb (bool_decide (gpu_ids = []))
                && PyTorchNetworkTrainer.is_available cuda /\
    device_of (module t) = input_device t /\
    params_of (module t) = params_of (module (trainer w)) /\
    input_device t
    = (if use_gpu t
       then PyTorchNetworkTrainer.cuda_device (List.hd 0 gpu_ids)
       else PyTorchNetworkTrainer.cpu_device) /\
    (use_gpu t = false -> output_device t = PyTorchNetworkTrainer.cpu_device) /\
    optimizers t = optimizers (trainer w) /\
    start_epoch t = start_epoch (trainer w) /\
    save_path t = save_path (trainer w) /\
    save_freq t = save_freq (trainer w) /\
    attrs t = attrs (trainer w).
Proof.
  unfold PyTorchNetworkTrainer._setup_devices.
  destruct gpu_ids as [|id0 [|id1 rest]];
    rewrite ?two_ids;
    destruct (PyTorchNetworkTrainer.is_available cuda);
    try destruct (1 <? PyTorchNetworkTrainer.device_count cuda);
    cbn; run_py; cbn;
    (eexists; split; [reflexivity|]; cbn;
     rewrite ?device_of_to, ?params_of_to; by repeat split).
Qed.

(** X9: when the device placement of the PyTorch trainer's [_setup]
    returns, that is when [torch.device], [Module.to] and [DataParallel]
    accept the ids, it has touched neither the disk nor the log;
    [use_gpu] is on exactly when the list of ids is not empty and CUDA is
    available; the parameters of the module sit on the input device and
    are the parameters the module had; the input device is the CPU
    without a GPU and the device of the first id with one; the
    optimizers, [start_epoch], the save path and frequency and the
    attributes set by name are as before. *)
Theorem torch_setup_devices_result
    (cuda : PyTorchNetworkTrainer.Cuda) (gpu_ids : list Z) (w w' : World) :
  PyTorchNetworkTrainer._setup_devices cuda gpu_ids w = (w', Ok tt) ->
  disk w' = disk w /\
  log w' = log w /\
  use_gpu (trainer w')
  = negb (bool_decide (gpu_ids = [])) && PyTorchNetworkTrainer.is_available cuda /\
  device_of (module (trainer w')) = input_device (trainer w') /\
  params_of (module (trainer w')) = params_of (module (trainer w)) /\
  input_device (trainer w')
  = (if use_gpu (trainer w')
     then PyTorchNetworkTrainer.cuda_device (List.hd 0 gpu_ids)
     else PyTorchNetworkTrainer.cpu_device) /\
  (use_gpu (trainer w') = false ->
   output_device (trainer w') = PyTorchNetworkTrainer.cpu_device) /\
  optimizers (trainer w') = optimizers (trainer w) /\
  start_epoch (trainer w') = start_epoch (trainer w) /\
  save_path (trainer w') = save_path (trainer w) /\
  save_freq (trainer w') = save_freq (trainer w) /\
  attrs (trainer w') = attrs (trainer w).
Proof.
  intros Hrun.
  destruct (torch_setup_devices_run cuda gpu_ids w) as (t & Ht & H).
  rewrite Ht in Hrun. injection Hrun as <-. cbn [trainer disk log].
  split; [reflexivity|]. split; [reflexivity|]. exact H.
Qed.

Lemma torch_setup_devices_result_witness :
  device_of (module (trainer (fst (PyTorchNetworkTrainer._setup_devices
                                     (PyTorchNetworkTrainer.mkCuda true 2) [0; 1]
                                     world0))))
  = "cuda:0" /\
  optimizers (trainer (fst (PyTorchNetworkTrainer._setup_devices
                              (PyTorchNetworkTrainer.mkCuda true 2) [0; 1] world0)))
  = [("default", 0)].
Proof.
  destruct (torch_setup_devices_result
              (PyTorchNetworkTrainer.mkCuda true 2) [0; 1] world0
              (fst (PyTorchNetworkTrainer._setup_devices
                      (PyTorchNetworkTrainer.mkCuda true 2) [0; 1] world0))
              eq_refl)
    as (_ & _ & _ & Hdev & _ & Hin & _ & Hopt & _).
  split; [by rewrite Hdev, Hin | exact Hopt].
Defined.


(** ** The hooks of the training loop *)

Section Hooks.

Import PyStr.

Variable save_checkpoint :
  string -> Network -> list (string * NativeState) -> Dict -> FS -> FS * Outcome unit.
Variable load_checkpoint : string -> Dict -> FS -> Outcome Dict.
Variable super_update_state : Dict -> Trainer -> Trainer.
Variable Metrics : Type.

(** A mapping with none of the three keys [_update_state] consumes goes
    to the base class as it is. *)
Lemma update_state_plain (d : Dict) w :
  d !! "model" = None -> d !! "optimizer" = None -> d !! "epoch" = None ->
  PyTorchNetworkTrainer._update_state super_update_state d w
  = (mkWorld (super_update_state d (trainer w)) (disk w) (log w), Ok tt).
Proof.
  intros Hm Ho He. unfold PyTorchNetworkTrainer._update_state.
  rewrite Hm. rewrite bind_run. unfold ret at 1. cbv beta iota.
  rewrite Ho. rewrite bind_run. unfold ret at 1. cbv beta iota.
  rewrite He. rewrite bind_run. unfold ret at 1. cbv beta iota.
  reflexivity.
Qed.

(** The callbacks never touch the disk or the log. *)
Lemma run_callbacks_frame (callbacks : list (PyTorchNetworkTrainer.Callback Metrics))
    metrics_val val_score_key epoch w :
  let res :=
    run_callbacks super_update_state callbacks metrics_val val_score_key epoch w in
  disk (fst res) = disk w /\ log (fst res) = log w.
Proof.
  cbv zeta. unfold run_callbacks. revert w.
  induction callbacks as [|cb callbacks IH]; intros w; [by split|].
  cbn [for_each]. rewrite bind_run.
  change (bind get_self ?k w) with (k (trainer w) w). cbv beta.
  destruct (update_state_frame super_update_state
              (cb (trainer w) metrics_val val_score_key epoch) w) as (Hd & Hl & _).
  destruct (PyTorchNetworkTrainer._update_state _ _ _) as [w1 [[]|e]];
    cbn [fst snd] in *; [|by split].
  destruct (IH w1) as [Hd1 Hl1]. split; congruence.
Qed.

End Hooks.

(** X11: with a save frequency of zero the end-of-epoch step of the
    PyTorch trainer raises [ZeroDivisionError] once the callbacks have
    run, and writes nothing: the disk is the one before the step, also
    for an epoch that is the best so far. *)
Theorem at_epoch_end_zero_save_freq
    (save_checkpoint : string -> Network -> list (string * NativeState) -> Dict
                       -> FS -> FS * Outcome unit)
    (super_update_state : Dict -> Trainer -> Trainer) (Metrics : Type)
    (callbacks : list (PyTorchNetworkTrainer.Callback Metrics))
    (metrics_val : Metrics) (val_score_key : string) (epoch : Z) (is_best : bool)
    (w w1 : World) :
  run_callbacks super_update_state callbacks metrics_val val_score_key epoch w
    = (w1, Ok tt) ->
  save_freq (trainer w1) = 0 ->
  PyTorchNetworkTrainer._at_epoch_end
    save_checkpoint super_update_state Metrics
    callbacks metrics_val val_score_key epoch is_best w
  = (w1, Raise ZeroDivisionError) /\
  disk w1 = disk w.
Proof.
  intros Hcb Hfreq. split.
  - unfold run_callbacks in Hcb. unfold PyTorchNetworkTrainer._at_epoch_end.
    rewrite bind_run, Hcb. cbv beta iota.
    change (bind get_self ?k w1) with (k (trainer w1) w1). cbv beta.
    unfold py_mod. rewrite Hfreq. reflexivity.
  - pose proof (run_callbacks_frame super_update_state Metrics callbacks
                  metrics_val val_score_key epoch w) as [Hd _].
    by rewrite Hcb in Hd.
Qed.

Lemma at_epoch_end_zero_save_freq_witness :
  PyTorchNetworkTrainer._at_epoch_end
    save_checkpoint_spec super_update_state_spec unit [] tt "loss" 4 true
    world_no_freq
  = (world_no_freq, Raise ZeroDivisionError).
Proof.
  apply (at_epoch_end_zero_save_freq save_checkpoint_spec super_update_state_spec
           unit [] tt "loss" 4 true world_no_freq world_no_freq);
    reflexivity.
Defined.

(** X12: callbacks whose mappings hold none of ["model"], ["optimizer"]
    and ["epoch"] compose in order at the beginning of an epoch: each one
    is called on the trainer as the callbacks before it left it, and its
    mapping goes whole to the base class's merge; the disk and the log
    are as before and nothing is raised. *)
Theorem at_epoch_begin_composes
    (super_update_state : Dict -> Trainer -> Trainer) (Metrics : Type)
    (callbacks : list (PyTorchNetworkTrainer.Callback Metrics))
    (metrics_val : Metrics) (val_score_key : string) (epoch num_epochs : Z)
    (w : World) :
  (forall cb t, In cb callbacks ->
     cb t metrics_val val_score_key epoch !! "model" = None /\
     cb t metrics_val val_score_key epoch !! "optimizer" = None /\
     cb t metrics_val val_score_key epoch !! "epoch" = None) ->
  PyTorchNetworkTrainer._at_epoch_begin
    super_update_state Metrics callbacks metrics_val val_score_key epoch num_epochs w
  = (mkWorld
       (fold_left
          (fun t cb => super_update_state (cb t metrics_val val_score_key epoch) t)
          callbacks (trainer w))
       (disk w) (log w),
     Ok tt).
Proof.
  unfold PyTorchNetworkTrainer._at_epoch_begin. revert w.
  induction callbacks as [|cb callbacks IH]; intros w Hplain.
  - cbn. unfold ret. by rewrite world_eta.
  - cbn [for_each fold_left]. rewrite bind_run.
    change (bind get_self ?k w) with (k (trainer w) w). cbv beta.
    destruct (Hplain cb (trainer w) (or_introl eq_refl)) as (Hm & Ho & He).
    rewrite (update_state_plain super_update_state _ w Hm Ho He).
    rewrite IH; [reflexivity|].
    intros cb' t Hin. apply Hplain. by right.
Qed.

Lemma at_epoch_begin_composes_witness :
  PyTorchNetworkTrainer._at_epoch_begin
    super_update_state_spec unit
    [fun _ _ _ e => {["lr" := VInt e]};
     fun t _ _ _ => {["seen" := default VNone (attrs t !! "lr")]}]
    tt "loss" 4 10 world0
  = (mkWorld (set_attrs (<["seen" := VInt 4]> {["lr" := VInt 4]}) trainer0) ∅ [],
     Ok tt).
Proof.
  rewrite (at_epoch_begin_composes super_update_state_spec unit).
  - vm_compute. reflexivity.
  - intros cb t [<- | [<- | []]]; by repeat split.
Defined.

(** X13: an ["optimizer"] entry that [bool] takes for false (an empty
    mapping, [None]) is not applied and not consumed: the optimizers
    keep their states, nothing is raised even though no optimizer finds
    its name, and the entry is still in the mapping handed to the base
    class's merge.  Here the bundle has no ["model"]. *)
Theorem update_state_empty_optimizer
    (super_update_state : Dict -> Trainer -> Trainer)
    (bundle : Dict) (v : Value) (w : World) :
  bundle !! "model" = None ->
  bundle !! "optimizer" = Some v ->
  truthy v = false ->
  PyTorchNetworkTrainer._update_state super_update_state bundle w
  = (mkWorld
       (super_update_state
          (delete "epoch" bundle)
          (match bundle !! "epoch" with
           | Some e => set_start_epoch e (trainer w)
           | None => trainer w
           end))
       (disk w) (log w),
     Ok tt) /\
  delete "epoch" bundle !! "optimizer" = Some v.
Proof.
  intros Hm Ho Hv. split; [|by rewrite lookup_delete_ne].
  unfold PyTorchNetworkTrainer._update_state.
  rewrite Hm. rewrite bind_run. unfold ret at 1. cbv beta iota.
  rewrite Ho, Hv. rewrite bind_run. unfold ret at 1. cbv beta iota.
  destruct (bundle !! "epoch") as [e|] eqn:He.
  - run_py. reflexivity.
  - rewrite delete_id by done. run_py. reflexivity.
Qed.

Lemma update_state_empty_optimizer_witness :
  PyTorchNetworkTrainer._update_state super_update_state_spec
                                      bundle_empty_optimizer world0
  = (mkWorld (set_attrs {["optimizer" := VDict ∅]}
                (set_start_epoch (VInt 5) trainer0)) ∅ [],
     Ok tt).
Proof.
  destruct (update_state_empty_optimizer super_update_state_spec
              bundle_empty_optimizer (VDict ∅) world0 eq_refl eq_refl eq_refl)
    as [H _].
  rewrite H. vm_compute. reflexivity.
Defined.

Section TrainingEnd.

Variable load_checkpoint : string -> Dict -> FS -> Outcome Dict.
Variable super_update_state : Dict -> Trainer -> Trainer.

Lemma torch_at_training_end_run w :
  PyTorchNetworkTrainer._at_training_end load_checkpoint super_update_state w
  = if isfile (disk w) (best_path (save_path (trainer w))) then
      match load_checkpoint (best_path (save_path (trainer w))) ∅ (disk w) with
      | Ok bundle =>
          match PyTorchNetworkTrainer._update_state super_update_state bundle w with
          | (w', Ok _) => (w', Ok (module (trainer w')))
          | (w', Raise e) => (w', Raise e)
          end
      | Raise e => (w, Raise e)
      end
    else (w, Ok (module (trainer w))).
Proof.
  unfold PyTorchNetworkTrainer._at_training_end.
  change (bind get_self ?k w) with (k (trainer w) w). cbv beta.
  change (bind get_disk ?k w) with (k (disk w) w). cbv beta.
  fold (best_path (save_path (trainer w))).
  destruct (isfile _ _); [|reflexivity].
  rewrite bind_run, torch_update_state_run, torch_canonical_best.
  destruct (load_checkpoint _ _ _) as [bundle|e]; [|reflexivity].
  by destruct (PyTorchNetworkTrainer._update_state _ _ _) as [w' [[]|e]].
Qed.

(** When [_update_state] ends well on a bundle with a native state under
    ["model"], the base class's merge received a trainer whose module has
    the parameters of the bundle. *)
Lemma update_state_ok_module bundle st w w' :
  bundle !! "model" = Some (VState st) ->
  PyTorchNetworkTrainer._update_state super_update_state bundle w = (w', Ok tt) ->
  exists rest t,
    w' = mkWorld (super_update_state rest t) (disk w) (log w) /\
    module t = set_params (module (trainer w)) st.
Proof.
  intros Hm. unfold PyTorchNetworkTrainer._update_state. rewrite Hm.
  unfold PyTorchNetworkTrainer.module_load_state_dict.
  rewrite bind_run. rewrite bind_run. unfold modify_self at 1, ret at 1.
  cbv beta iota.
  set (w1 := mkWorld (set_module (set_params (module (trainer w)) st) (trainer w))
                     (disk w) (log w)).
  assert (forall (ns : Dict) w2,
            module (trainer w2) = set_params (module (trainer w)) st ->
            disk w2 = disk w -> log w2 = log w ->
            (let* new_state :=
               match ns !! "epoch" with
               | Some v =>
                   let* _ := modify_self (set_start_epoch v) in
                   ret (delete "epoch" ns)
               | None => ret ns
               end in
             modify_self (super_update_state new_state)) w2 = (w', Ok tt) ->
            exists rest t,
              w' = mkWorld (super_update_state rest t) (disk w) (log w) /\
              module t = set_params (module (trainer w)) st) as Htail.
  { intros ns w2 Hmod Hd Hl.
    destruct (ns !! "epoch"); run_py; rewrite Hd, Hl; intros [= <-];
      eexists _, _; (split; [reflexivity|]); exact Hmod. }
  rewrite bind_run.
  destruct (delete "model" bundle !! "optimizer") as [v|]; [|by apply Htail].
  destruct (truthy v); [|by apply Htail].
  rewrite bind_run. change (get_self w1) with (w1, Ok (trainer w1)).
  cbv beta iota. rewrite bind_run.
  destruct (optimizer_loop_shape v (map fst (optimizers (trainer w1))) w1)
    as (o & r & Hloop & _ & _).
  rewrite Hloop. destruct r as [[]|e]; [|discriminate].
  unfold ret at 1. cbv beta iota. by apply Htail.
Qed.

End TrainingEnd.

(** X14: at the end of training, when the save directory holds a best
    checkpoint whose bundle has a native state under ["model"] and
    applies without an error, the PyTorch trainer returns its current
    module with the parameters of the best checkpoint in it: the wrapper
    and the device are those of the current module, the parameters are
    no longer those of the last epoch.  The base class's merge is taken
    to leave the module alone. *)
Theorem at_training_end_returns_best
    (load_checkpoint : string -> Dict -> FS -> Outcome Dict)
    (super_update_state : Dict -> Trainer -> Trainer)
    (w w' : World) (bundle : Dict) (st : NativeState) :
  isfile (disk w) (best_path (save_path (trainer w))) = true ->
  load_checkpoint (best_path (save_path (trainer w))) ∅ (disk w) = Ok bundle ->
  bundle !! "model" = Some (VState st) ->
  PyTorchNetworkTrainer._update_state super_update_state bundle w = (w', Ok tt) ->
  (forall rest t, module (super_update_state rest t) = module t) ->
  PyTorchNetworkTrainer._at_training_end load_checkpoint super_update_state w
  = (w', Ok (set_params (module (trainer w)) st)) /\
  module (trainer w') = set_params (module (trainer w)) st /\
  device_of (module (trainer w')) = device_of (module (trainer w)) /\
  disk w' = disk w.
Proof.
  intros Hf Hl Hm Hu Hsus.
  destruct (update_state_ok_module super_update_state bundle st w w' Hm Hu)
    as (rest & t & -> & Ht).
  assert (forall m s, device_of (set_params m s) = device_of m) as Hdev
    by (induction m; simpl; auto).
  rewrite torch_at_training_end_run, Hf, Hl, Hu. cbn [trainer disk].
  by rewrite Hsus, Ht, Hdev.
Qed.

Lemma at_training_end_returns_best_witness :
  snd (PyTorchNetworkTrainer._at_training_end
         load_checkpoint_spec super_update_state_spec (world_best bundle0))
  = Ok (Net 1 "cuda:0").
Proof.
  destruct (at_training_end_returns_best
              load_checkpoint_spec super_update_state_spec
              (world_best bundle0)
              (fst (PyTorchNetworkTrainer._update_state
                      super_update_state_spec bundle0 (world_best bundle0)))
              bundle0 1 eq_refl eq_refl eq_refl eq_refl (fun _ _ => eq_refl))
    as [H _].
  rewrite H. reflexivity.
Defined.

(** X15: at the end of training nothing catches what applying the best
    checkpoint raises.  When its optimizer mapping lacks the name of one
    of the trainer's optimizers, [_at_training_end] raises the [KeyError]
    that [_setup] would have turned into a warning, and returns no
    module; the disk and the log are as before. *)
Theorem at_training_end_key_error
    (load_checkpoint : string -> Dict -> FS -> Outcome Dict)
    (super_update_state : Dict -> Trainer -> Trainer)
    (w : World) (bundle : Dict) (d : gmap string NativeState) :
  isfile (disk w) (best_path (save_path (trainer w))) = true ->
  load_checkpoint (best_path (save_path (trainer w))) ∅ (disk w) = Ok bundle ->
  bundle !! "model" = None \/ (exists st, bundle !! "model" = Some (VState st)) ->
  bundle !! "optimizer" = Some (VDict d) ->
  d <> ∅ ->
  lacks_optimizer d (trainer w) ->
  exists t,
    PyTorchNetworkTrainer._at_training_end load_checkpoint super_update_state w
    = (mkWorld t (disk w) (log w), Raise KeyError).
Proof.
  intros Hf Hl Hm Ho Hd Hlack.
  destruct (update_state_lacks_optimizer super_update_state bundle d w Hm Ho Hd Hlack)
    as (m & o & Hu).
  rewrite torch_at_training_end_run, Hf, Hl, Hu. by eexists.
Qed.

Lemma at_training_end_key_error_witness :
  snd (PyTorchNetworkTrainer._at_training_end
         load_checkpoint_spec super_update_state_spec
         (world_best bundle_other_optimizer))
  = Raise KeyError.
Proof.
  destruct (at_training_end_key_error
              load_checkpoint_spec super_update_state_spec
              (world_best bundle_other_optimizer) bundle_other_optimizer
              {["other" := 9]} eq_refl eq_refl)
    as [t H].
  - right. by exists 4.
  - reflexivity.
  - intros H.
    apply (f_equal (fun d : gmap string NativeState => d !! "other")) in H.
    vm_compute in H. discriminate H.
  - exists "default". split; [left | reflexivity].
  - by rewrite H.
Defined.

(** X16: at the beginning of training the PyTorch trainer writes the
    checkpoint of epoch 0, [checkpoint_epoch_0.pt] under the save path,
    whatever [start_epoch] is, also after a resume; it writes no other
    file and leaves the trainer and the log as they are.
    [save_checkpoint] is taken to write the file it is given. *)
Theorem at_training_begin_writes_epoch_0
    (save_checkpoint : string -> Network -> list (string * NativeState) -> Dict
                       -> FS -> FS * Outcome unit)
    (w : World) :
  writes_file save_checkpoint ->
  exists fs',
    PyTorchNetworkTrainer._at_training_begin save_checkpoint w
    = (mkWorld (trainer w) fs' (log w), Ok tt) /\
    forall p,
      isfile fs' p
      = bool_decide (p = periodic_path (save_path (trainer w)) 0) || isfile (disk w) p.
Proof.
  intros Hw. unfold PyTorchNetworkTrainer._at_training_begin.
  change (bind get_self ?k w) with (k (trainer w) w). cbv beta.
  destruct (torch_save_state_run save_checkpoint Hw
              (OsPath.join (save_path (trainer w)) "checkpoint_epoch_0") 0 ∅ w)
    as (fs' & Hs & Hf).
  rewrite torch_canonical_initial in Hf. by exists fs'.
Qed.

Lemma at_training_begin_writes_epoch_0_witness :
  exists fs',
    PyTorchNetworkTrainer._at_training_begin save_checkpoint_spec (world_137 ".pt")
    = (mkWorld trainer0 fs' [], Ok tt) /\
    isfile fs' "/save/checkpoint_epoch_0.pt" = true /\
    isfile fs' "/save/checkpoint_epoch_2.pt" = false.
Proof.
  destruct (at_training_begin_writes_epoch_0 save_checkpoint_spec (world_137 ".pt")
              save_checkpoint_spec_writes) as (fs' & Hs & Hf).
  exists fs'. split; [exact Hs|]. by rewrite !Hf.
Defined.

(** X17: the names the trainers write and the scan of [_setup] agree.
    For every epoch, negative ones too, the periodic checkpoint
    [checkpoint_epoch_<N>.pt] (PyTorch) or [checkpoint_epoch_<N>.chain]
    (Chainer) is kept by the scan as soon as it is a regular file, and
    its name reads back as [N]; the best checkpoint of either trainer is
    never kept. *)
Theorem written_names_read_back (n : Z) (w : World) :
  scan_keeps torch_is_best w (checkpoint_file ".pt" n)
  = isfile (disk w) (periodic_path (save_path (trainer w)) n) /\
  epoch_of_file_name (checkpoint_file ".pt" n) w = (w, Ok n) /\
  scan_keeps torch_is_best w "checkpoint_best.pt" = false /\
  scan_keeps chainer_is_best w (checkpoint_file ".chain" n)
  = isfile (disk w) (OsPath.join (save_path (trainer w)) (checkpoint_file ".chain" n)) /\
  epoch_of_file_name (checkpoint_file ".chain" n) w = (w, Ok n) /\
  scan_keeps chainer_is_best w "checkpoint_best.chain" = false.
Proof.
  unfold scan_keeps, periodic_path.
  rewrite !checkpoint_file_startswith.
  rewrite torch_is_best_checkpoint_file by (left).
  unfold chainer_is_best.
  rewrite (checkpoint_file_not_best "chain" ".chain") by reflexivity.
  rewrite (epoch_of_checkpoint_file "pt"), (epoch_of_checkpoint_file "chain")
    by reflexivity.
  cbn [negb]. rewrite !andb_true_r.
  assert (torch_is_best "checkpoint_best.pt" = true) as -> by reflexivity.
  assert (PyStr.endswith "checkpoint_best.chain" "_best.chain" = true) as ->
    by reflexivity.
  cbn [negb]. by rewrite !andb_false_r.
Qed.

(** * Resume, fallback and cadence on every directory *)

(** ** Resume selects the greatest epoch *)

Section ResumeMax.

Import PyStr.

Variables (is_best : string -> bool) (ext : string).



End ResumeMax.



Section ResumeApplies.

Variable super_update_state : Dict -> Trainer -> Trainer.


End ResumeApplies.




(** ** The fallback of the resume path *)

Section FallbackFacts.

Import PyStr.

Lemma uint_of_string_dot a b :
  NilEmpty.uint_of_string (a +:+ String "." b) = None.
Proof.
  induction a as [|c a IH]; cbn.
  - by destruct (NilEmpty.uint_of_string b).
  - by rewrite IH.
Qed.

Lemma digits_dot a b : digits (a +:+ String "." b) = None.
Proof.
  unfold digits. rewrite uint_of_string_dot. by destruct (a +:+ String "." b).
Qed.

(** A string with a dot in it is no integer. *)
Lemma int_dot s b :
  all_chars (fun a => negb (isspace a)) (s +:+ String "." b) = true ->
  int (s +:+ String "." b) = None.
Proof.
  intros Hs. unfold int. rewrite (strip_id _ Hs).
  destruct s as [|c r].
  - exact (digits_dot "" b).
  - pose proof (digits_dot r b) as H1.
    pose proof (digits_dot (String c r) b) as H2.
    change (String c r +:+ String "." b) with (String c (r +:+ String "." b)) in *.
    destruct c as [[] [] [] [] [] [] [] []]; try exact H2; by rewrite H1.
Qed.

Lemma append_neq a b : b <> "" -> a +:+ b <> a.
Proof.
  intros Hb. induction a as [|c a IH]; cbn; [exact Hb|].
  intros [= H]. by apply IH.
Qed.

(** The name the Chainer trainer loads from after the fallback reads as
    no epoch. *)
Lemma epoch_of_chai_chain n w :
  epoch_of_file_name (checkpoint_file ".chai" n +:+ ".chain") w
  = (w, Raise ValueError).
Proof.
  unfold epoch_of_file_name, checkpoint_file, rsplit1.
  rewrite !append_assoc.
  change ("checkpoint_epoch_" +:+ format_d n +:+ ".chai" +:+ ".chain")
    with ("checkpoint_epoch" +:+ String "_" (format_d n +:+ ".chai.chain")).
  rewrite rsplit_once_last
    by (by rewrite occurs_app, format_d_no_underscore).
  run_py. unfold item_last, item_first. simpl last. run_py.
  change (format_d n +:+ ".chai.chain")
    with (format_d n +:+ ".chai" +:+ String "." "chain").
  rewrite <- append_assoc.
  rewrite (rsplit_once_last "." (format_d n +:+ ".chai") "chain" eq_refl). cbn.
  rewrite int_dot; [reflexivity|].
  rewrite all_chars_app. apply andb_true_iff. split; [|reflexivity].
  apply all_chars_impl with (p := is_digit_or_minus); [|apply format_d_chars].
  intros a Ha. by rewrite (digit_or_minus_not_space _ Ha).
Qed.

End FallbackFacts.

(** C7: every [save_state] and [load_state] of both trainers uses the
    file name it is given when that carries an accepted extension and
    appends the default extension ([.pt], [.chain]) otherwise, and the
    resume of the PyTorch trainer takes the [.pth] checkpoint of the
    latest epoch, or the [.pt] one when the first is no regular file.
    The resume of the Chainer trainer does not fall back to a file with
    a secondary extension: when the [.chain] checkpoint of the latest
    epoch is no regular file, the scan cuts the last character off the
    path, and [load_state] completes the [.chai] that is left to
    [.chai.chain].  That file is read instead of the one the scan found;
    it is none of the files the scan kept, since its name reads as no
    epoch; and a checkpoint that is there under the path the scan
    returned is not what is loaded. *)
Theorem C7_extension_fallback
    (save_checkpoint : string -> Network -> list (string * NativeState) -> Dict
                       -> FS -> FS * Outcome unit)
    (load_checkpoint : string -> Dict -> FS -> Outcome Dict)
    (wt wc : World) (nt nc : Z) (path_t path_c : string) :
  snd (PyTorchNetworkTrainer._setup_latest_state wt) = Ok (Some (nt, path_t)) ->
  snd (ChainerNetworkTrainer._setup_latest_state wc) = Ok (Some (nc, path_c)) ->
  isfile (disk wc)
         (OsPath.join (save_path (trainer wc)) (checkpoint_file ".chain" nc)) = false ->
  (let primary := OsPath.join (save_path (trainer wt)) (checkpoint_file ".pth" nt) in
   let secondary := OsPath.join (save_path (trainer wt)) (checkpoint_file ".pt" nt) in
   path_t = (if isfile (disk wt) primary then primary else secondary) /\
   PyTorchNetworkTrainer.load_state load_checkpoint path_t ∅ wt
   = (wt, load_checkpoint path_t ∅ (disk wt))) /\
  (path_c = OsPath.join (save_path (trainer wc)) (checkpoint_file ".chai" nc) /\
   ChainerNetworkTrainer.load_state load_checkpoint path_c ∅ wc
   = (wc, load_checkpoint (path_c +:+ ".chain") ∅ (disk wc)) /\
   path_c +:+ ".chain"
   = OsPath.join (save_path (trainer wc)) (checkpoint_file ".chai" nc +:+ ".chain") /\
   path_c +:+ ".chain" <> path_c /\
   ~ In (checkpoint_file ".chai" nc +:+ ".chain") (scanned_files chainer_is_best wc)) /\
  (forall file_name epoch kwargs w,
     PyTorchNetworkTrainer.save_state save_checkpoint file_name epoch kwargs w
     = on_disk (save_checkpoint (torch_canonical file_name) (module (trainer w))
                                (optimizers (trainer w)) kwargs) w /\
     PyTorchNetworkTrainer.load_state load_checkpoint file_name kwargs w
     = (w, load_checkpoint (torch_canonical file_name) kwargs (disk w)) /\
     ChainerNetworkTrainer.save_state save_checkpoint file_name epoch kwargs w
     = on_disk (save_checkpoint (chainer_canonical file_name) (module (trainer w))
                                (optimizers (trainer w)) kwargs) w /\
     ChainerNetworkTrainer.load_state load_checkpoint file_name kwargs w
     = (w, load_checkpoint (chainer_canonical file_name) kwargs (disk w))) /\
  (forall file_name,
     (PyStr.endswith (torch_canonical file_name) ".pth"
      || PyStr.endswith (torch_canonical file_name) ".pt" = true) /\
     PyStr.endswith (chainer_canonical file_name) ".chain" = true /\
     (PyStr.endswith file_name ".pth" || PyStr.endswith file_name ".pt" = true ->
      torch_canonical file_name = file_name) /\
     (PyStr.endswith file_name ".chain" = true ->
      chainer_canonical file_name = file_name)).
Proof.
  intros Ht Hc Hprimary.
  assert (forall file_name epoch kwargs w,
     PyTorchNetworkTrainer.save_state save_checkpoint file_name epoch kwargs w
     = on_disk (save_checkpoint (torch_canonical file_name) (module (trainer w))
                                (optimizers (trainer w)) kwargs) w /\
     PyTorchNetworkTrainer.load_state load_checkpoint file_name kwargs w
     = (w, load_checkpoint (torch_canonical file_name) kwargs (disk w)) /\
     ChainerNetworkTrainer.save_state save_checkpoint file_name epoch kwargs w
     = on_disk (save_checkpoint (chainer_canonical file_name) (module (trainer w))
                                (optimizers (trainer w)) kwargs) w /\
     ChainerNetworkTrainer.load_state load_checkpoint file_name kwargs w
     = (w, load_checkpoint (chainer_canonical file_name) kwargs (disk w))) as Hcanon.
  { intros file_name epoch kwargs w.
    unfold PyTorchNetworkTrainer.save_state, PyTorchNetworkTrainer.load_state,
      ChainerNetworkTrainer.save_state, ChainerNetworkTrainer.load_state.
    rewrite torch_canonical_eq, chainer_canonical_eq. by repeat split. }
  split; [|split; [|split]].
  - destruct (latest_state_scan_inv torch_is_best ".pth" wt) as [_ Hp].
    specialize (Hp nt path_t Ht). cbn zeta in *.
    rewrite drop_last_join_pth in Hp. split; [exact Hp|].
    destruct (Hcanon path_t 0 ∅ wt) as (_ & -> & _).
    assert (torch_canonical path_t = path_t) as ->; [|reflexivity].
    subst path_t.
    destruct (isfile _ _); apply torch_canonical_checkpoint_file;
      repeat constructor.
  - destruct (latest_state_scan_inv chainer_is_best ".chain" wc) as [Hw Hp].
    specialize (Hp nc path_c Hc). cbn zeta in *.
    rewrite drop_last_join_chain, Hprimary in Hp. subst path_c.
    split; [reflexivity|]. split; [|split; [|split]].
    + destruct (Hcanon (OsPath.join (save_path (trainer wc))
                                    (checkpoint_file ".chai" nc)) 0 ∅ wc)
        as (_ & _ & _ & ->).
      by rewrite chainer_canonical_chai.
    + rewrite !join_relative by reflexivity. by rewrite append_assoc.
    + apply append_neq. discriminate.
    + intros Hin.
      destruct (latest_state_scan chainer_is_best ".chain" wc) as [w' r] eqn:E.
      change (ChainerNetworkTrainer._setup_latest_state wc)
        with (latest_state_scan chainer_is_best ".chain" wc) in Hc.
      rewrite E in Hc. cbn [snd] in Hc. subst r.
      destruct (latest_state_scan_sound _ _ _ _ _ _ E) as (_ & _ & _ & Hall).
      destruct (Hall _ Hin) as (m & Hparse & _).
      rewrite epoch_of_chai_chain in Hparse. discriminate Hparse.
  - exact Hcanon.
  - intros file_name. split; [apply torch_canonical_has_extension|].
    split; [apply chainer_canonical_has_extension|]. split.
    + intros H. by rewrite torch_canonical_eq, H.
    + intros H. by rewrite chainer_canonical_eq, H.
Qed.

Lemma C7_extension_fallback_witness :
  snd (ChainerNetworkTrainer._setup_latest_state world_chai)
  = Ok (Some (7, "/save/checkpoint_epoch_7.chai")) /\
  isfile (disk world_chai) "/save/checkpoint_epoch_7.chai" = true /\
  ChainerNetworkTrainer.load_state load_checkpoint_spec
    "/save/checkpoint_epoch_7.chai" ∅ world_chai
  = (world_chai, Raise FileNotFoundError).
Proof.
  destruct (C7_extension_fallback
              save_checkpoint_spec load_checkpoint_spec
              (world_epochs_137 ".pt") world_chai 7 7
              "/save/checkpoint_epoch_7.pt" "/save/checkpoint_epoch_7.chai"
              eq_refl eq_refl eq_refl)
    as (_ & (_ & Hload & _) & _).
  split; [reflexivity|]. split; [reflexivity|].
  rewrite Hload. reflexivity.
Defined.

(** ** What the end-of-epoch step leaves on the disk *)

Section CadenceExact.

Import PyStr.

Variable save_checkpoint :
  string -> Network -> list (string * NativeState) -> Dict -> FS -> FS * Outcome unit.
Variable super_update_state : Dict -> Trainer -> Trainer.
Variable Metrics : Type.
Variable stored : Network -> list (string * NativeState) -> Dict -> Dict.
Hypothesis save_checkpoint_stores : writes_bundle save_checkpoint stored.

Lemma torch_save_state_exact file_name epoch kwargs w :
  PyTorchNetworkTrainer.save_state save_checkpoint file_name epoch kwargs w
  = (mkWorld (trainer w)
       (<[torch_canonical file_name
          := File (stored (module (trainer w)) (optimizers (trainer w)) kwargs)]>
          (disk w))
       (log w), Ok tt).
Proof.
  unfold PyTorchNetworkTrainer.save_state. rewrite <- torch_canonical_eq.
  run_py. by rewrite save_checkpoint_stores.
Qed.

Lemma lookup_epoch_end_disk b sp f is_best e fs p :
  epoch_end_disk b sp f is_best e fs !! p
  = if written sp f (fun _ => is_best) e p then Some b else fs !! p.
Proof.
  unfold epoch_end_disk, written.
  destruct (decide (p = best_path sp)) as [->|Hb].
  - rewrite (bool_decide_eq_false_2 (best_path sp = periodic_path sp e)).
    2: { intros H. by apply (periodic_path_not_best sp e). }
    rewrite (bool_decide_eq_true_2 (best_path sp = best_path sp)) by done.
    rewrite andb_false_r, andb_true_r, orb_false_l.
    destruct is_best; [by rewrite lookup_insert_eq|].
    destruct (bool_decide (e mod f = 0)); [|done].
    rewrite lookup_insert_ne; [done|]. apply periodic_path_not_best.
  - rewrite (bool_decide_eq_false_2 _ Hb), andb_false_r, orb_false_r.
    assert (forall fs1 : FS,
              (if is_best then <[best_path sp := b]> fs1 else fs1) !! p = fs1 !! p)
      as -> by (intros fs1; destruct is_best; by rewrite ?lookup_insert_ne).
    destruct (bool_decide (e mod f = 0)); [|done]. cbn [andb].
    destruct (decide (p = periodic_path sp e)) as [->|Hp].
    + by rewrite bool_decide_eq_true_2, lookup_insert_eq.
    + by rewrite (bool_decide_eq_false_2 _ Hp), lookup_insert_ne.
Qed.

(** One end-of-epoch step, after the callbacks ran to [w1]. *)
Lemma torch_at_epoch_end_exact callbacks metrics_val val_score_key epoch is_best w w1 :
  run_callbacks super_update_state callbacks metrics_val val_score_key epoch w
    = (w1, Ok tt) ->
  save_freq (trainer w1) <> 0 ->
  PyTorchNetworkTrainer._at_epoch_end
    save_checkpoint super_update_state Metrics
    callbacks metrics_val val_score_key epoch is_best w
  = (mkWorld (trainer w1)
       (epoch_end_disk
          (File (stored (module (trainer w1)) (optimizers (trainer w1)) ∅))
          (save_path (trainer w1)) (save_freq (trainer w1)) is_best epoch (disk w1))
       (log w1), Ok tt).
Proof.
  intros Hcb Hfreq. unfold run_callbacks in Hcb.
  unfold PyTorchNetworkTrainer._at_epoch_end, epoch_end_disk.
  rewrite bind_run, Hcb. cbv beta iota.
  change (bind get_self ?k w1) with (k (trainer w1) w1). cbv beta.
  unfold py_mod. rewrite (proj2 (Z.eqb_neq _ _) Hfreq).
  rewrite bind_run. unfold ret at 1. cbv beta iota.
  assert (forall w0,
            (let* self := get_self in
             PyTorchNetworkTrainer.save_state save_checkpoint
               (OsPath.join (save_path self) "checkpoint_best.pt") epoch ∅) w0
            = (mkWorld (trainer w0)
                 (<[best_path (save_path (trainer w0))
                    := File (stored (module (trainer w0)) (optimizers (trainer w0)) ∅)]>
                    (disk w0))
                 (log w0), Ok tt)) as Hbest.
  { intros w0. change (bind get_self ?k w0) with (k (trainer w0) w0). cbv beta.
    fold (best_path (save_path (trainer w0))).
    by rewrite torch_save_state_exact, torch_canonical_best. }
  assert ((let* self := get_self in
           PyTorchNetworkTrainer.save_state save_checkpoint
             (OsPath.join (save_path self)
                          ("checkpoint_epoch_" +:+ format_d epoch +:+ ".pt"))
             epoch ∅) w1
          = (mkWorld (trainer w1)
               (<[periodic_path (save_path (trainer w1)) epoch
                  := File (stored (module (trainer w1)) (optimizers (trainer w1)) ∅)]>
                  (disk w1))
               (log w1), Ok tt)) as Hperiodic.
  { change (bind get_self ?k w1) with (k (trainer w1) w1). cbv beta.
    fold (checkpoint_file ".pt" epoch).
    fold (periodic_path (save_path (trainer w1)) epoch).
    by rewrite torch_save_state_exact, torch_canonical_periodic. }
  destruct (Z.eqb_spec (epoch mod save_freq (trainer w1)) 0) as [Hmod|Hmod].
  - rewrite (bool_decide_eq_true_2 _ Hmod).
    rewrite bind_run, Hperiodic. cbv beta iota.
    destruct is_best; [|reflexivity].
    rewrite Hbest. reflexivity.
  - rewrite (bool_decide_eq_false_2 _ Hmod).
    rewrite bind_run. unfold ret at 1. cbv beta iota.
    destruct is_best.
    + rewrite Hbest. reflexivity.
    + unfold ret. by rewrite world_eta.
Qed.

(** The end-of-epoch steps of a run of epochs, without callbacks. *)
Lemma torch_epochs_exact (metrics_val : Z -> Metrics) val_score_key is_best epochs
    t fs lg :
  save_freq t <> 0 ->
  exists fs',
    for_each epochs (fun epoch =>
      PyTorchNetworkTrainer._at_epoch_end
        save_checkpoint super_update_state Metrics []
        (metrics_val epoch) val_score_key epoch (is_best epoch)) (mkWorld t fs lg)
    = (mkWorld t fs' lg, Ok tt) /\
    forall p,
      fs' !! p
      = if existsb (fun e => written (save_path t) (save_freq t) is_best e p) epochs
        then Some (File (stored (module t) (optimizers t) ∅))
        else fs !! p.
Proof.
  intros Hfreq. revert fs. induction epochs as [|e epochs IH]; intros fs.
  - exists fs. by split.
  - cbn [for_each]. rewrite bind_run.
    rewrite (torch_at_epoch_end_exact [] (metrics_val e) val_score_key e (is_best e)
               (mkWorld t fs lg) (mkWorld t fs lg) eq_refl Hfreq).
    cbn [trainer disk log].
    destruct (IH (epoch_end_disk (File (stored (module t) (optimizers t) ∅))
                    (save_path t) (save_freq t) (is_best e) e fs))
      as (fs' & Hrun & Hf).
    exists fs'. split; [exact Hrun|].
    intros p. rewrite Hf, lookup_epoch_end_disk. cbn [existsb].
    change (written (save_path t) (save_freq t) (fun _ => is_best e) e p)
      with (written (save_path t) (save_freq t) is_best e p).
    by destruct (written _ _ is_best e p), (existsb _ epochs).
Qed.

(** A whole run of the loop, without callbacks. *)
Lemma torch_train_exact (metrics_val : Z -> Metrics) val_score_key num_epochs is_best
    w s :
  save_freq (trainer w) <> 0 ->
  start_epoch (trainer w) = VInt s ->
  exists fs',
    torch_train save_checkpoint super_update_state metrics_val val_score_key
                num_epochs is_best w
    = (mkWorld (trainer w) fs' (log w), Ok tt) /\
    forall p,
      fs' !! p
      = if bool_decide (p = periodic_path (save_path (trainer w)) 0)
           || existsb (fun e => written (save_path (trainer w)) (save_freq (trainer w))
                                        is_best e p)
                      (range s (s + num_epochs))
        then Some (File (stored (module (trainer w)) (optimizers (trainer w)) ∅))
        else disk w !! p.
Proof.
  intros Hfreq Hstart. unfold torch_train, train_spec.
  destruct (torch_epochs_exact metrics_val val_score_key is_best
              (range s (s + num_epochs)) (trainer w)
              (<[periodic_path (save_path (trainer w)) 0
                 := File (stored (module (trainer w)) (optimizers (trainer w)) ∅)]>
                 (disk w))
              (log w) Hfreq) as (fs' & Hrun & Hf).
  exists fs'. split.
  - rewrite bind_run. unfold PyTorchNetworkTrainer._at_training_begin.
    change (bind get_self ?k w) with (k (trainer w) w). cbv beta.
    rewrite torch_save_state_exact, torch_canonical_initial. cbv beta iota.
    change (bind get_self ?k ?w0) with (k (trainer w0) w0). cbv beta.
    cbn [trainer]. rewrite Hstart. exact Hrun.
  - intros p. rewrite Hf.
    destruct (existsb _ _); [by rewrite orb_true_r|]. rewrite orb_false_r.
    destruct (decide (p = periodic_path (save_path (trainer w)) 0)) as [->|Hp].
    + by rewrite bool_decide_eq_true_2, lookup_insert_eq.
    + by rewrite (bool_decide_eq_false_2 _ Hp), lookup_insert_ne.
Qed.

End CadenceExact.

Lemma save_checkpoint_spec_stores : writes_bundle save_checkpoint_spec stored_spec.
Proof. by intros file m o kwargs fs. Qed.

Lemma existsb_written_periodic sp f is_best s num n :
  existsb (fun e => written sp f is_best e (periodic_path sp n)) (range s (s + num))
  = true
  <-> s <= n < s + num /\ n mod f = 0.
Proof.
  rewrite existsb_exists. split.
  - intros (e & He%in_range & Hw%written_periodic). destruct Hw as [Hmod ->].
    by split.
  - intros [Hn Hmod]. exists n. split; [by apply in_range|].
    by apply written_periodic.
Qed.

Lemma existsb_written_best sp f is_best s num :
  existsb (fun e => written sp f is_best e (best_path sp)) (range s (s + num)) = true
  <-> exists e, s <= e < s + num /\ is_best e = true.
Proof.
  rewrite existsb_exists. split.
  - intros (e & He%in_range & Hw%written_best). by exists e.
  - intros (e & He & Hb). exists e. split; [by apply in_range | by apply written_best].
Qed.

Lemma existsb_written_other sp f is_best epochs p :
  p <> best_path sp -> (forall n, p <> periodic_path sp n) ->
  existsb (fun e => written sp f is_best e p) epochs = false.
Proof.
  intros Hb Hp. destruct (existsb _ _) eqn:E; [|reflexivity].
  apply existsb_exists in E as (e & _ & Hw%written_inv).
  destruct Hw as [[_ ->] | [_ ->]]; [by destruct (Hp e) | done].
Qed.

(** C8: at the end of every epoch, once the callbacks have run, the
    periodic checkpoint [checkpoint_epoch_<N>.pt] holds the state of the
    trainer exactly when [epoch % save_freq == 0] and keeps what it held
    otherwise; the best checkpoint is written, over what was there, with
    the state of the trainer exactly when [is_best] holds and keeps what
    it held otherwise; every other path keeps what it held.  Over the
    loop from [start_epoch] for [num_epochs] epochs, after the initial
    checkpoint of epoch 0, the periodic checkpoints written are those of
    epoch 0 and of the epochs of the loop that [save_freq] divides, and
    the best checkpoint is written exactly when one epoch of the loop is
    the best; with [save_freq = 3], [num_epochs = 10] and
    [start_epoch = 1] the periodic checkpoints written are those of
    epochs 0, 3, 6 and 9, and no others.  [save_checkpoint] is taken to
    write, at the file it is given, a bundle made of the module, the
    optimizers and the extra entries; [save_freq] is not 0. *)
Theorem C8_checkpoint_cadence
    (save_checkpoint : string -> Network -> list (string * NativeState) -> Dict
                       -> FS -> FS * Outcome unit)
    (super_update_state : Dict -> Trainer -> Trainer)
    (Metrics : Type)
    (stored : Network -> list (string * NativeState) -> Dict -> Dict) :
  writes_bundle save_checkpoint stored ->
  (forall callbacks (metrics_val : Metrics) val_score_key epoch is_best w w1,
     run_callbacks super_update_state callbacks metrics_val val_score_key epoch w
       = (w1, Ok tt) ->
     save_freq (trainer w1) <> 0 ->
     exists fs',
       PyTorchNetworkTrainer._at_epoch_end
         save_checkpoint super_update_state Metrics
         callbacks metrics_val val_score_key epoch is_best w
       = (mkWorld (trainer w1) fs' (log w1), Ok tt) /\
       fs' !! periodic_path (save_path (trainer w1)) epoch
       = (if bool_decide (epoch mod save_freq (trainer w1) = 0)
          then Some (File (stored (module (trainer w1)) (optimizers (trainer w1)) ∅))
          else disk w1 !! periodic_path (save_path (trainer w1)) epoch) /\
       fs' !! best_path (save_path (trainer w1))
       = (if is_best
          then Some (File (stored (module (trainer w1)) (optimizers (trainer w1)) ∅))
          else disk w1 !! best_path (save_path (trainer w1))) /\
       (forall p,
          p <> periodic_path (save_path (trainer w1)) epoch ->
          p <> best_path (save_path (trainer w1)) ->
          fs' !! p = disk w1 !! p)) /\
  (forall (metrics_val : Z -> Metrics) val_score_key num_epochs is_best w s,
     save_freq (trainer w) <> 0 ->
     start_epoch (trainer w) = VInt s ->
     exists fs',
       torch_train save_checkpoint super_update_state metrics_val val_score_key
                   num_epochs is_best w
       = (mkWorld (trainer w) fs' (log w), Ok tt) /\
       (forall n,
          (n = 0 \/ (s <= n < s + num_epochs /\ n mod save_freq (trainer w) = 0) ->
           fs' !! periodic_path (save_path (trainer w)) n
           = Some (File (stored (module (trainer w)) (optimizers (trainer w)) ∅))) /\
          (~ (n = 0 \/ (s <= n < s + num_epochs /\ n mod save_freq (trainer w) = 0)) ->
           fs' !! periodic_path (save_path (trainer w)) n
           = disk w !! periodic_path (save_path (trainer w)) n)) /\
       ((exists e, s <= e < s + num_epochs /\ is_best e = true) ->
        fs' !! best_path (save_path (trainer w))
        = Some (File (stored (module (trainer w)) (optimizers (trainer w)) ∅))) /\
       (~ (exists e, s <= e < s + num_epochs /\ is_best e = true) ->
        fs' !! best_path (save_path (trainer w))
        = disk w !! best_path (save_path (trainer w))) /\
       (forall p,
          p <> best_path (save_path (trainer w)) ->
          (forall n, p <> periodic_path (save_path (trainer w)) n) ->
          fs' !! p = disk w !! p)) /\
  (forall (metrics_val : Z -> Metrics) val_score_key is_best w,
     save_freq (trainer w) = 3 ->
     start_epoch (trainer w) = VInt 1 ->
     exists fs',
       torch_train save_checkpoint super_update_state metrics_val val_score_key
                   10 is_best w
       = (mkWorld (trainer w) fs' (log w), Ok tt) /\
       (forall n,
          (n ∈ [0; 3; 6; 9] ->
           fs' !! periodic_path (save_path (trainer w)) n
           = Some (File (stored (module (trainer w)) (optimizers (trainer w)) ∅))) /\
          (n ∉ [0; 3; 6; 9] ->
           fs' !! periodic_path (save_path (trainer w)) n
           = disk w !! periodic_path (save_path (trainer w)) n)) /\
       (forall p,
          p <> best_path (save_path (trainer w)) ->
          (forall n, n ∈ [0; 3; 6; 9] -> p <> periodic_path (save_path (trainer w)) n) ->
          fs' !! p = disk w !! p)).
Proof.
  intros Hstores.
  assert (forall (metrics_val : Z -> Metrics) val_score_key num_epochs is_best w s,
     save_freq (trainer w) <> 0 ->
     start_epoch (trainer w) = VInt s ->
     exists fs',
       torch_train save_checkpoint super_update_state metrics_val val_score_key
                   num_epochs is_best w
       = (mkWorld (trainer w) fs' (log w), Ok tt) /\
       (forall p,
          fs' !! p
          = if bool_decide (p = periodic_path (save_path (trainer w)) 0)
               || existsb (fun e => written (save_path (trainer w))
                                            (save_freq (trainer w)) is_best e p)
                          (range s (s + num_epochs))
            then Some (File (stored (module (trainer w)) (optimizers (trainer w)) ∅))
            else disk w !! p) /\
       (forall n,
          (n = 0 \/ (s <= n < s + num_epochs /\ n mod save_freq (trainer w) = 0) ->
           fs' !! periodic_path (save_path (trainer w)) n
           = Some (File (stored (module (trainer w)) (optimizers (trainer w)) ∅))) /\
          (~ (n = 0 \/ (s <= n < s + num_epochs /\ n mod save_freq (trainer w) = 0)) ->
           fs' !! periodic_path (save_path (trainer w)) n
           = disk w !! periodic_path (save_path (trainer w)) n)) /\
       ((exists e, s <= e < s + num_epochs /\ is_best e = true) ->
        fs' !! best_path (save_path (trainer w))
        = Some (File (stored (module (trainer w)) (optimizers (trainer w)) ∅))) /\
       (~ (exists e, s <= e < s + num_epochs /\ is_best e = true) ->
        fs' !! best_path (save_path (trainer w))
        = disk w !! best_path (save_path (trainer w))) /\
       (forall p,
          p <> best_path (save_path (trainer w)) ->
          (forall n, p <> periodic_path (save_path (trainer w)) n) ->
          fs' !! p = disk w !! p)) as Hloop.
  { intros metrics_val val_score_key num_epochs is_best w s Hfreq Hstart.
    destruct (torch_train_exact save_checkpoint super_update_state Metrics stored
                Hstores metrics_val val_score_key num_epochs is_best w s Hfreq Hstart)
      as (fs' & Hrun & Hf).
    exists fs'. split; [exact Hrun|]. split; [exact Hf|]. split; [|split; [|split]].
    - intros n. split.
      + intros Hn. rewrite Hf.
        destruct Hn as [-> | Hn].
        * by rewrite bool_decide_eq_true_2.
        * rewrite (proj2 (existsb_written_periodic _ _ is_best _ _ _) Hn).
          by rewrite orb_true_r.
      + intros Hn. rewrite Hf.
        rewrite bool_decide_eq_false_2.
        2: { intros H%periodic_path_inj. apply Hn. by left. }
        destruct (existsb _ _) eqn:E; [|reflexivity].
        apply (proj1 (existsb_written_periodic _ _ is_best _ _ _)) in E.
        destruct Hn. by right.
    - intros Hb. rewrite Hf.
      rewrite (proj2 (existsb_written_best _ _ is_best _ _) Hb).
      by rewrite orb_true_r.
    - intros Hb. rewrite Hf.
      rewrite bool_decide_eq_false_2.
      2: { intros H. by apply (periodic_path_not_best (save_path (trainer w)) 0). }
      destruct (existsb _ _) eqn:E; [|reflexivity].
      apply (proj1 (existsb_written_best _ _ is_best _ _)) in E. by destruct Hb.
    - intros p Hb Hp. rewrite Hf.
      rewrite (bool_decide_eq_false_2 _ (Hp 0)).
      by rewrite existsb_written_other. }
  split; [|split].
  - intros callbacks metrics_val val_score_key epoch is_best w w1 Hcb Hfreq.
    eexists. split.
    + apply (torch_at_epoch_end_exact save_checkpoint super_update_state Metrics
               stored Hstores callbacks metrics_val val_score_key epoch is_best
               w w1 Hcb Hfreq).
    + split; [|split].
      * rewrite lookup_epoch_end_disk.
        destruct (bool_decide (epoch mod save_freq (trainer w1) = 0)) eqn:E.
        -- apply bool_decide_eq_true in E.
           rewrite (proj2 (written_periodic _ _ (fun _ => is_best) epoch epoch));
             [reflexivity | by split].
        -- apply bool_decide_eq_false in E.
           destruct (written _ _ _ _ _) eqn:Ew; [|reflexivity].
           apply (written_periodic _ _ (fun _ => is_best)) in Ew. by destruct Ew.
      * rewrite lookup_epoch_end_disk.
        destruct is_best.
        -- by rewrite (proj2 (written_best _ _ (fun _ => true) epoch)).
        -- destruct (written _ _ _ _ _) eqn:Ew; [|reflexivity].
           by apply (written_best _ _ (fun _ => false)) in Ew.
      * intros p Hp Hb. rewrite lookup_epoch_end_disk. unfold written.
        rewrite (bool_decide_eq_false_2 _ Hp), (bool_decide_eq_false_2 _ Hb).
        by rewrite !andb_false_r.
  - intros metrics_val val_score_key num_epochs is_best w s Hfreq Hstart.
    destruct (Hloop metrics_val val_score_key num_epochs is_best w s Hfreq Hstart)
      as (fs' & Hrun & _ & H).
    by exists fs'.
  - intros metrics_val val_score_key is_best w Hfreq Hstart.
    assert (save_freq (trainer w) <> 0) as Hne by lia.
    destruct (Hloop metrics_val val_score_key 10 is_best w 1 Hne Hstart)
      as (fs' & Hrun & Hf & Hp & _).
    assert (forall n, n = 0 \/ (1 <= n < 1 + 10 /\ n mod 3 = 0) <-> n ∈ [0; 3; 6; 9])
      as Hset.
    { intros n. rewrite !elem_of_cons, elem_of_nil. split.
      - intros [-> | [Hn Hmod]]; [by left|].
        assert (n = 3 \/ n = 6 \/ n = 9) as [-> | [-> | ->]]
          by (Z.div_mod_to_equations; lia); auto.
      - intros [-> | [-> | [-> | [-> | []]]]]; [by left | right ..];
          (split; [lia | reflexivity]). }
    exists fs'. split; [exact Hrun|]. split.
    + intros n. rewrite Hfreq in Hp. destruct (Hp n) as [Hyes Hno]. split.
      * intros Hn. by apply Hyes, Hset.
      * intros Hn. apply Hno. by rewrite Hset.
    + intros p Hb Hq. rewrite Hf.
      rewrite bool_decide_eq_false_2 by (apply Hq; left).
      destruct (existsb _ _) eqn:E; [|reflexivity]. exfalso.
      apply existsb_exists in E as (e & He%in_range & Hw%written_inv).
      destruct Hw as [[Hmod ->] | [_ ->]]; [|done].
      apply (Hq e); [|reflexivity]. apply Hset. right.
      rewrite Hfreq in Hmod. by split.
Qed.

Lemma C8_checkpoint_cadence_witness :
  exists fs',
    torch_train save_checkpoint_spec super_update_state_spec
                (fun _ : Z => tt) "accuracy" 10 (fun _ => false) world0
    = (mkWorld trainer0 fs' [], Ok tt) /\
    forall n, isfile fs' (periodic_path "/save" n) = true <-> n ∈ [0; 3; 6; 9].
Proof.
  destruct (C8_checkpoint_cadence
              save_checkpoint_spec super_update_state_spec unit stored_spec
              save_checkpoint_spec_stores) as (_ & _ & Hexample).
  destruct (Hexample (fun _ : Z => tt) "accuracy" (fun _ => false) world0
              eq_refl eq_refl) as (fs' & Hrun & Hp & _).
  exists fs'. split; [exact Hrun|].
  intros n. destruct (Hp n) as [Hyes Hno]. unfold isfile.
  destruct (decide (n ∈ [0; 3; 6; 9])) as [Hn | Hn].
  - change (save_path (trainer world0)) with "/save" in Hyes.
    by rewrite (Hyes Hn).
  - change (save_path (trainer world0)) with "/save" in Hno.
    rewrite (Hno Hn). cbn. split; [discriminate | done].
Defined.
